(** * PondCast: a LAN file-exchange node (app.py)

    A shallow embedding of the request handlers of [app.py] and of the
    process-wide state they share (SERVER_STATE, ACTIVE_PEERS, EVENT_LOG,
    LAST_ONLINE_IPS), followed by the properties of the presence tracker,
    the bounded event log, the privacy filter and the authorization gate.

    Conventions of the embedding:
    - a Python [str] is the list of its Unicode code points ([pystr]);
      literals are written [py "..."] and decoded from UTF-8;
    - a [datetime] is a number of microseconds ([Z]), a [timedelta] a
      difference of such numbers;
    - a [dict] that is iterated is an association list in insertion order;
    - the filesystem and Flask's [send_from_directory] are an interface
      ([FileSystem]); every call through it is recorded in a ghost trace;
    - [os.path] is [posixpath]. *)

From Stdlib Require Import String Ascii.
From Stdlib Require Import ZArith NArith List Bool Lia.
From Stdlib Require Import Sorting.Sorted Sorting.Permutation.
Import ListNotations.

Set Implicit Arguments.

(** ** Python strings *)

Module PyStr.

Definition pychar := N.
Definition pystr := list pychar.

(** UTF-8 decoding of a Rocq string literal into code points. [pending] is
    the number of continuation bytes still expected and [acc] the bits
    gathered so far. *)
Fixpoint utf8_decode (bs : list N) (pending : nat) (acc : N) : pystr :=
  match bs with
  | [] => []
  | b :: rest =>
      match pending with
      | O =>
          if (b <? 128)%N then b :: utf8_decode rest 0 0%N
          else if (b <? 224)%N then utf8_decode rest 1 (N.land b 31)
          else if (b <? 240)%N then utf8_decode rest 2 (N.land b 15)
          else utf8_decode rest 3 (N.land b 7)
      | S k =>
          let acc' := (acc * 64 + N.land b 63)%N in
          match k with
          | O => acc' :: utf8_decode rest 0 0%N
          | S _ => utf8_decode rest k acc'
          end
      end
  end.

Definition py (s : string) : pystr :=
  utf8_decode (map (fun a => N_of_ascii a) (list_ascii_of_string s)) 0 0%N.

Arguments py s%_string.

Definition char_eqb (a b : pychar) : bool := N.eqb a b.

Fixpoint str_eqb (a b : pystr) : bool :=
  match a, b with
  | [], [] => true
  | x :: a', y :: b' => char_eqb x y && str_eqb a' b'
  | _, _ => false
  end.

(** [s.startswith(p)] *)
Fixpoint startswith (s p : pystr) : bool :=
  match p, s with
  | [], _ => true
  | _ :: _, [] => false
  | y :: p', x :: s' => char_eqb x y && startswith s' p'
  end.

(** [s.endswith(p)] *)
Definition endswith (s p : pystr) : bool := startswith (rev s) (rev p).

(** [p in s] for strings *)
Fixpoint contains (s p : pystr) : bool :=
  startswith s p ||
  match s with
  | [] => false
  | _ :: s' => contains s' p
  end.

(** [s.replace(old, new)] for a non-empty [old]: scan left to right; at a
    match emit [new] and skip the matched characters ([skip] counts the
    characters of the match still to drop). *)
Fixpoint replace_from (old new : pystr) (skip : nat) (s : pystr) : pystr :=
  match s with
  | [] => []
  | c :: rest =>
      match skip with
      | S k => replace_from old new k rest
      | O =>
          if startswith s old
          then new ++ replace_from old new (length old - 1) rest
          else c :: replace_from old new 0 rest
      end
  end.

(** [s.replace(old, new)]; with an empty [old] Python inserts [new] before
    every character and at the end. *)
Definition replace (s old new : pystr) : pystr :=
  match old with
  | [] => new ++ flat_map (fun c => c :: new) s
  | _ :: _ => replace_from old new 0 s
  end.

(** [s.split(sep)] for a one-character separator: the pieces, never empty
    as a list. *)
Fixpoint split (sep : pychar) (s : pystr) : list pystr :=
  match s with
  | [] => [[]]
  | c :: rest =>
      if char_eqb c sep then [] :: split sep rest
      else match split sep rest with
           | [] => [[c]]
           | piece :: pieces => (c :: piece) :: pieces
           end
  end.

(** [s.split(sep, 1)]: split at the first separator only. *)
Fixpoint split1 (sep : pychar) (s : pystr) : list pystr :=
  match s with
  | [] => [[]]
  | c :: rest =>
      if char_eqb c sep then [[]; rest]
      else match split1 sep rest with
           | [] => [[c]]
           | piece :: pieces => (c :: piece) :: pieces
           end
  end.

(** [l[-1]] on a non-empty list; [d] stands for the IndexError case. *)
Definition last_item {A} (l : list A) (d : A) : A := last l d.

(** [s.rfind(c)] for a one-character [c]: the last index, or -1. *)
Fixpoint rfind_from (c : pychar) (s : pystr) (i last : Z) : Z :=
  match s with
  | [] => last
  | x :: rest => rfind_from c rest (i + 1)%Z (if char_eqb x c then i else last)
  end.

Definition rfind (s : pystr) (c : pychar) : Z := rfind_from c s 0%Z (-1)%Z.

(** [s[:i]] and [s[i:]] for [0 <= i]. *)
Definition slice_to (s : pystr) (i : Z) : pystr := firstn (Z.to_nat i) s.
Definition slice_from (s : pystr) (i : Z) : pystr := skipn (Z.to_nat i) s.

(** [s[-n:]] *)
Definition slice_last (s : pystr) (n : nat) : pystr :=
  skipn (length s - n) s.

(** [s.lower()] restricted to the ASCII letters; the four patterns that
    [get_device_type] looks for are ASCII. *)
Definition lower_char (c : pychar) : pychar :=
  if ((65 <=? c) && (c <=? 90))%N then (c + 32)%N else c.

Definition lower (s : pystr) : pystr := map lower_char s.

(** [str(n)] for an integer. *)
Definition digit_char (d : Z) : pychar := (48 + Z.to_N d)%N.

Fixpoint digits_fuel (fuel : nat) (n : Z) (acc : pystr) : pystr :=
  match fuel with
  | O => acc
  | S k =>
      let acc' := digit_char (n mod 10) :: acc in
      if (n / 10 =? 0)%Z then acc' else digits_fuel k (n / 10)%Z acc'
  end.

Definition str_of_int (n : Z) : pystr :=
  if (n <? 0)%Z then 45%N :: digits_fuel (S (Z.to_nat (Z.log2 (- n)))) (- n) []
  else digits_fuel (S (Z.to_nat (Z.log2 n))) n [].

(** Truthiness of an optional string: [None] and [''] are false. *)
Definition truthy (o : option pystr) : bool :=
  match o with
  | Some (_ :: _) => true
  | _ => false
  end.

End PyStr.
Import PyStr.

(** ** os.path (posixpath) *)

Module OsPath.

Definition sep : pychar := 47%N.
Definition extsep : pychar := 46%N.

(** [os.path.join(a, b)] *)
Definition join (a b : pystr) : pystr :=
  if startswith b [sep] then b
  else match a with
       | [] => a ++ b
       | _ :: _ => if endswith a [sep] then a ++ b else a ++ sep :: b
       end.

(** [os.path.basename(p)] *)
Definition basename (p : pystr) : pystr := slice_from p (rfind p sep + 1).

(** [head.rstrip('/')] *)
Fixpoint lstrip_sep (s : pystr) : pystr :=
  match s with
  | [] => []
  | c :: rest => if char_eqb c sep then lstrip_sep rest else s
  end.

Definition rstrip_sep (s : pystr) : pystr := rev (lstrip_sep (rev s)).

(** [os.path.dirname(p)] *)
Definition dirname (p : pystr) : pystr :=
  let head := slice_to p (rfind p sep + 1) in
  match head with
  | [] => head
  | _ :: _ => if forallb (fun c => char_eqb c sep) head then head
              else rstrip_sep head
  end.

(** The [while] loop of [genericpath._splitext]: scanning the segment
    between the last separator and the last dot, [true] as soon as a
    character other than the dot is met. *)
Fixpoint has_non_dot (dot : pychar) (seg : pystr) : bool :=
  match seg with
  | [] => false
  | c :: rest => if negb (char_eqb c dot) then true else has_non_dot dot rest
  end.

(** [genericpath._splitext(p, sep, altsep, extsep)] *)
Definition _splitext (p : pystr) (sp : pychar) (altsep : option pychar)
    (dot : pychar) : pystr * pystr :=
  let sepIndex :=
    match altsep with
    | Some alt => Z.max (rfind p sp) (rfind p alt)
    | None => rfind p sp
    end in
  let dotIndex := rfind p dot in
  if (dotIndex >? sepIndex)%Z
     && has_non_dot dot (slice_to (slice_from p (sepIndex + 1)) (dotIndex - (sepIndex + 1)))
  then (slice_to p dotIndex, slice_from p dotIndex)
  else (p, []).

(** [os.path.splitext(p)] *)
Definition splitext (p : pystr) : pystr * pystr := _splitext p sep None extsep.

End OsPath.

(** ** Python dictionaries in insertion order *)

Module PyDict.

Definition dict (V : Type) := list (pystr * V).

(** [d.get(k)] *)
Fixpoint get {V} (d : dict V) (k : pystr) : option V :=
  match d with
  | [] => None
  | (k', v) :: rest => if str_eqb k' k then Some v else get rest k
  end.

(** [k in d] *)
Definition mem {V} (d : dict V) (k : pystr) : bool :=
  match get d k with Some _ => true | None => false end.

(** [d[k] = v]: an existing key keeps its place, a new key goes last. *)
Fixpoint set {V} (d : dict V) (k : pystr) (v : V) : dict V :=
  match d with
  | [] => [(k, v)]
  | (k', v') :: rest =>
      if str_eqb k' k then (k', v) :: rest else (k', v') :: set rest k v
  end.

(** [del d[k]] *)
Fixpoint del {V} (d : dict V) (k : pystr) : dict V :=
  match d with
  | [] => []
  | (k', v') :: rest => if str_eqb k' k then rest else (k', v') :: del rest k
  end.

Definition keys {V} (d : dict V) : list pystr := map fst d.

End PyDict.

(** ** Data model *)

(** One entry of ACTIVE_PEERS. *)
Record peer := mk_peer {
  p_last_seen : Z;
  p_action : pystr;
  p_action_time : Z;
  p_device_type : pystr
}.

(** One entry of EVENT_LOG; every entry has the six keys, [ip] and
    [filename] may hold [None]. *)
Record event := mk_event {
  ev_id : Z;
  ev_time : pystr;
  ev_type : pystr;
  ev_msg : pystr;
  ev_ip : option pystr;
  ev_filename : option pystr
}.

Record server_state := mk_server_state {
  locked : bool;
  file_pool : bool;
  current_port : Z
}.

(** The module-level mutable state. LAST_ONLINE_IPS is a Python set, kept
    as the list of its elements; only membership is asked of it. *)
Record globals := mk_globals {
  SERVER_STATE : server_state;
  ACTIVE_PEERS : PyDict.dict peer;
  EVENT_LOG : list event;
  LAST_ONLINE_IPS : list pystr
}.

Definition MAX_EVENTS : nat := 50.
Definition PEER_TIMEOUT : Z := 8.

(** [timedelta(seconds=n)] in microseconds. *)
Definition timedelta_seconds (n : Z) : Z := (n * 1000000)%Z.

Definition initial_globals (port : Z) : globals :=
  mk_globals (mk_server_state false false port) [] [] [].

(** JSON values handed to [jsonify]. A float that is only stored and
    compared (a modification time) is carried by an integer. *)
#[local] Unset Elimination Schemes.
Inductive json :=
| JNone
| JBool (b : bool)
| JInt (n : Z)
| JFloat (t : Z)
| JStr (s : pystr)
| JList (l : list json)
| JDict (d : list (pystr * json)).
#[local] Set Elimination Schemes.

Definition bytes := list N.

(** The routes of the application; [static] is Flask's own. *)
Inductive endpoint :=
| ep_static | ep_index | ep_api_status | ep_api_toggle_lock
| ep_api_toggle_pool | ep_list_release_files | ep_list_received_files
| ep_delete_file | ep_download_file | ep_upload_file.

Definition endpoint_eqb (a b : endpoint) : bool :=
  match a, b with
  | ep_static, ep_static | ep_index, ep_index
  | ep_api_status, ep_api_status
  | ep_api_toggle_lock, ep_api_toggle_lock
  | ep_api_toggle_pool, ep_api_toggle_pool
  | ep_list_release_files, ep_list_release_files
  | ep_list_received_files, ep_list_received_files
  | ep_delete_file, ep_delete_file | ep_download_file, ep_download_file
  | ep_upload_file, ep_upload_file => true
  | _, _ => false
  end.

(** What Flask's [request] offers to the handlers. [req_endpoint] is [None]
    when no route matches; [req_filename] is the [<path:filename>] view
    argument; [req_json] the JSON object of the body with its string
    values; [req_files] is [request.files.getlist("files")] as pairs of
    [file.filename] and content. *)
Record request := mk_request {
  remote_addr : pystr;
  req_endpoint : option endpoint;
  req_path : pystr;
  user_agent : pystr;
  req_filename : pystr;
  req_json : PyDict.dict pystr;
  req_files : list (pystr * bytes)
}.

(** One reading of the clock: [time_us] is [int(time.time() * 1000000)]
    and [datetime_now] is [datetime.now()] in microseconds of local time.
    All reads made while one request is served return the same reading. *)
Record clock := mk_clock {
  time_us : Z;
  datetime_now : Z
}.

(** What a handler reads but cannot change. [set_slot] stands for the
    layout of the hash table of a set of addresses that is iterated while
    the request is served: it depends on the hash seed of the process, and
    the set is visited by increasing slot. *)
Record env := mk_env {
  the_request : request;
  the_clock : clock;
  local_ips : list pystr;
  template_path : pystr;
  static_folder : pystr;
  set_slot : pystr -> Z
}.

Inductive response :=
| Jsonify (status : Z) (body : json)
| Text (status : Z) (body : pystr)
| Rendered (template : bytes) (is_admin : bool) (ips : list pystr) (port : Z)
| SendFile (data : bytes)
| ErrorPage (code : Z) (description : option pystr)
| InternalServerError.

Inductive exn :=
| OSError (message : pystr)
| TypeError
| HTTPException (code : Z) (description : option pystr).

Inductive result (A : Type) :=
| Ok (a : A)
| Raise (e : exn).
Arguments Ok {A} a.
Arguments Raise {A} e.

(** ** The filesystem collaborator *)

(** The calls the handlers make on the filesystem, as recorded in the
    trace. *)
Inductive fs_call :=
| c_exists (p : pystr)
| c_isfile (p : pystr)
| c_isdir (p : pystr)
| c_listdir (p : pystr)
| c_getsize (p : pystr)
| c_getmtime (p : pystr)
| c_makedirs (p : pystr)
| c_remove (p : pystr)
| c_rmdir (p : pystr)
| c_save (p : pystr)
| c_read (p : pystr)
| c_send_from_directory (directory p : pystr).

Class FileSystem := {
  disk : Type;
  fs_exists : disk -> pystr -> bool;
  fs_isfile : disk -> pystr -> bool;
  fs_isdir : disk -> pystr -> bool;
  fs_listdir : disk -> pystr -> result (list pystr);
  fs_getsize : disk -> pystr -> result Z;
  fs_getmtime : disk -> pystr -> result Z;
  fs_makedirs : disk -> pystr -> result disk;
  fs_remove : disk -> pystr -> result disk;
  fs_rmdir : disk -> pystr -> result disk;
  fs_save : disk -> pystr -> bytes -> result disk;
  fs_read : disk -> pystr -> result bytes;
  (** [None] is werkzeug's NotFound *)
  fs_send_from_directory : disk -> pystr -> pystr -> option bytes
}.

(** ** Handlers as state-and-exception computations *)

Section Handlers.

Context {FS : FileSystem}.
Variables RELEASE_DIR RECEIVED_DIR : pystr.

(** The process state, the disk, and the ghost trace of filesystem calls
    (most recent last). *)
Record world := mk_world {
  G : globals;
  D : disk;
  trace : list fs_call
}.

(** A computation reads the environment, changes the world and returns or
    raises; what it changed before raising stays changed. *)
Definition M (A : Type) : Type := env -> world -> result A * world.

Definition ret {A} (a : A) : M A := fun _ w => (Ok a, w).

Definition bind {A B} (m : M A) (k : A -> M B) : M B :=
  fun e w =>
    match m e w with
    | (Ok a, w') => k a e w'
    | (Raise x, w') => (Raise x, w')
    end.

Notation "x <- m ;; k" := (bind m (fun x => k))
  (at level 61, m at next level, right associativity).
Notation "m ;; k" := (bind m (fun _ => k))
  (at level 61, right associativity).
Notation "' pat <- m ;; k" := (bind m (fun x => match x with pat => k end))
  (at level 61, pat pattern, m at next level, right associativity).

Definition raise {A} (x : exn) : M A := fun _ w => (Raise x, w).

(** [abort(code, description=...)] *)
Definition abort {A} (code : Z) (description : option pystr) : M A :=
  raise (HTTPException code description).

(** [try: m except Exception as e: h e] *)
Definition try_except {A} (m : M A) (h : exn -> M A) : M A :=
  fun e w =>
    match m e w with
    | (Ok a, w') => (Ok a, w')
    | (Raise x, w') => h x e w'
    end.

Definition ask : M env := fun e w => (Ok e, w).
Definition get_globals : M globals := fun _ w => (Ok (G w), w).
Definition put_globals (g : globals) : M unit :=
  fun _ w => (Ok tt, mk_world g (D w) (trace w)).

Definition when (b : bool) (m : M unit) : M unit := if b then m else ret tt.

(** [for x in l: body x] *)
Fixpoint for_each {A} (l : list A) (body : A -> M unit) : M unit :=
  match l with
  | [] => ret tt
  | x :: rest => body x ;; for_each rest body
  end.

(** A loop that updates local variables [acc]. *)
Fixpoint for_fold {A S} (l : list A) (acc : S) (body : S -> A -> M S) : M S :=
  match l with
  | [] => ret acc
  | x :: rest => acc' <- body acc x ;; for_fold rest acc' body
  end.

(** Filesystem calls: each is appended to the trace. *)
Definition fs_query {A} (c : fs_call) (f : disk -> A) : M A :=
  fun _ w => (Ok (f (D w)), mk_world (G w) (D w) (trace w ++ [c])).

Definition fs_try {A} (c : fs_call) (f : disk -> result A) : M A :=
  fun _ w => (f (D w), mk_world (G w) (D w) (trace w ++ [c])).

Definition fs_update (c : fs_call) (f : disk -> result disk) : M unit :=
  fun _ w =>
    match f (D w) with
    | Ok d' => (Ok tt, mk_world (G w) d' (trace w ++ [c]))
    | Raise x => (Raise x, mk_world (G w) (D w) (trace w ++ [c]))
    end.

Definition os_path_exists (p : pystr) : M bool :=
  fs_query (c_exists p) (fun d => fs_exists d p).
Definition os_path_isfile (p : pystr) : M bool :=
  fs_query (c_isfile p) (fun d => fs_isfile d p).
Definition os_path_isdir (p : pystr) : M bool :=
  fs_query (c_isdir p) (fun d => fs_isdir d p).
Definition os_listdir (p : pystr) : M (list pystr) :=
  fs_try (c_listdir p) (fun d => fs_listdir d p).
Definition os_path_getsize (p : pystr) : M Z :=
  fs_try (c_getsize p) (fun d => fs_getsize d p).
Definition os_path_getmtime (p : pystr) : M Z :=
  fs_try (c_getmtime p) (fun d => fs_getmtime d p).
Definition os_makedirs (p : pystr) : M unit :=
  fs_update (c_makedirs p) (fun d => fs_makedirs d p).
Definition os_remove (p : pystr) : M unit :=
  fs_update (c_remove p) (fun d => fs_remove d p).
Definition os_rmdir (p : pystr) : M unit :=
  fs_update (c_rmdir p) (fun d => fs_rmdir d p).
Definition file_save (p : pystr) (data : bytes) : M unit :=
  fs_update (c_save p) (fun d => fs_save d p data).
Definition read_file (p : pystr) : M bytes :=
  fs_try (c_read p) (fun d => fs_read d p).

(** [send_from_directory(directory, path, as_attachment=True)] *)
Definition send_from_directory (directory p : pystr) : M response :=
  fun _ w =>
    let w' := mk_world (G w) (D w) (trace w ++ [c_send_from_directory directory p]) in
    match fs_send_from_directory (D w) directory p with
    | Some data => (Ok (SendFile data), w')
    | None => (Raise (HTTPException 404 None), w')
    end.

(** *** Core logic *)

Definition with_server_state (g : globals) (s : server_state) : globals :=
  mk_globals s (ACTIVE_PEERS g) (EVENT_LOG g) (LAST_ONLINE_IPS g).
Definition with_peers (g : globals) (p : PyDict.dict peer) : globals :=
  mk_globals (SERVER_STATE g) p (EVENT_LOG g) (LAST_ONLINE_IPS g).
Definition with_events (g : globals) (l : list event) : globals :=
  mk_globals (SERVER_STATE g) (ACTIVE_PEERS g) l (LAST_ONLINE_IPS g).
Definition with_last_online (g : globals) (s : list pystr) : globals :=
  mk_globals (SERVER_STATE g) (ACTIVE_PEERS g) (EVENT_LOG g) s.

Definition is_admin_addr (sender_ip : pystr) : bool :=
  str_eqb sender_ip (py "127.0.0.1") || str_eqb sender_ip (py "localhost").

Definition is_local_admin : M bool :=
  e <- ask ;; ret (is_admin_addr (remote_addr (the_request e))).

Definition get_device_type (user_agent : pystr) : pystr :=
  let ua := lower user_agent in
  if contains ua (py "android") || contains ua (py "iphone")
     || contains ua (py "ipad") || contains ua (py "mobile")
  then py "mobile" else py "desktop".

(** The body of the [try] block of [get_masked_name]. *)
Definition masked_name_body (filename : pystr) : result pystr :=
  let '(name, ext) := OsPath.splitext filename in
  if (length name <=? 2)%nat then Ok (name ++ py "***" ++ ext)
  else Ok (slice_to name 2 ++ py "***" ++ ext).

Definition get_masked_name (filename : pystr) : pystr :=
  match filename with
  | [] => py "***"
  | _ :: _ =>
      match masked_name_body filename with
      | Ok masked => masked
      | Raise _ =>
          if (4 <? length filename)%nat
          then py "***" ++ slice_last filename 4 else py "***"
      end
  end.

(** [collections.deque(maxlen=maxlen).appendleft(x)]: the item is put at
    the left end and, if the deque is then over its bound, the rightmost
    item is dropped. *)
Definition appendleft {A} (maxlen : nat) (x : A) (l : list A) : list A :=
  let l' := x :: l in
  if (maxlen <? length l')%nat then removelast l' else l'.

Definition two_digits (n : Z) : pystr :=
  [digit_char (n / 10); digit_char (n mod 10)].

Definition hour_of (t : Z) : Z := ((t / 3600000000) mod 24)%Z.
Definition minute_of (t : Z) : Z := ((t / 60000000) mod 60)%Z.
Definition second_of (t : Z) : Z := ((t / 1000000) mod 60)%Z.

(** [t.strftime("%H:%M:%S")] *)
Definition strftime_HMS (t : Z) : pystr :=
  two_digits (hour_of t) ++ py ":" ++ two_digits (minute_of t)
  ++ py ":" ++ two_digits (second_of t).

(** [t.strftime("%H%M%S_")] *)
Definition strftime_prefix (t : Z) : pystr :=
  two_digits (hour_of t) ++ two_digits (minute_of t)
  ++ two_digits (second_of t) ++ py "_".

(** The dictionary that [add_event] builds. *)
Definition new_event (c : clock) (type msg : pystr) (ip filename : option pystr)
  : event :=
  mk_event (time_us c) (strftime_HMS (datetime_now c)) type msg ip filename.

Definition add_event (type msg : pystr) (ip filename : option pystr) : M unit :=
  e <- ask ;;
  g <- get_globals ;;
  put_globals
    (with_events g
       (appendleft MAX_EVENTS (new_event (the_clock e) type msg ip filename)
          (EVENT_LOG g))).

(** What [record_activity] does to ACTIVE_PEERS at the instant [now], for
    a request whose user agent is [ua]. *)
Definition record_activity_peers (now : Z) (ua ip : pystr)
    (action device_type : option pystr) (peers : PyDict.dict peer)
  : PyDict.dict peer :=
  let device_type :=
    match device_type with
    | Some (c :: s) => c :: s
    | _ => get_device_type ua
    end in
  match PyDict.get peers ip with
  | None => PyDict.set peers ip (mk_peer now (py "idle") now device_type)
  | Some data =>
      let data1 :=
        mk_peer now (p_action data) (p_action_time data) (p_device_type data) in
      let data2 :=
        match action with
        | Some (c :: a) =>
            mk_peer (p_last_seen data1) (c :: a) (now + timedelta_seconds 3)
              (p_device_type data1)
        | _ => data1
        end in
      let data3 :=
        match device_type with
        | _ :: _ =>
            mk_peer (p_last_seen data2) (p_action data2) (p_action_time data2)
              device_type
        | [] => data2
        end in
      PyDict.set peers ip data3
  end.

Definition record_activity (ip : pystr) (action device_type : option pystr)
  : M unit :=
  e <- ask ;;
  g <- get_globals ;;
  put_globals
    (with_peers g
       (record_activity_peers (datetime_now (the_clock e))
          (user_agent (the_request e)) ip action device_type (ACTIVE_PEERS g))).

(** The first loop of [check_peers_lifecycle]. *)
Definition expire_action (now : Z) (data : peer) : peer :=
  if negb (str_eqb (p_action data) (py "idle")) && (now >? p_action_time data)%Z
  then mk_peer (p_last_seen data) (py "idle") (p_action_time data)
         (p_device_type data)
  else data.

Definition timed_out (now : Z) (data : peer) : bool :=
  (now - p_last_seen data >? timedelta_seconds PEER_TIMEOUT)%Z.

Definition in_set (s : list pystr) (x : pystr) : bool :=
  existsb (str_eqb x) s.

(** [s.add(x)] *)
Definition set_add (s : list pystr) (x : pystr) : list pystr :=
  if in_set s x then s else s ++ [x].

(** [for x in s] over a set: the elements come in the order of their
    slots, whatever the order in which they were added. *)
Fixpoint slot_insert (slot : pystr -> Z) (x : pystr) (l : list pystr)
  : list pystr :=
  match l with
  | [] => [x]
  | y :: l' =>
      if (slot x <=? slot y)%Z then x :: l else y :: slot_insert slot x l'
  end.

Definition set_iter (slot : pystr -> Z) (s : list pystr) : list pystr :=
  fold_right (slot_insert slot) [] s.

(** The place of [x] in the list [l]. *)
Fixpoint index_of (l : list pystr) (x : pystr) : Z :=
  match l with
  | [] => 0
  | y :: rest => if str_eqb y x then 0 else 1 + index_of rest x
  end.

(** One turn of the first loop: the peers seen so far with their action
    expired, the addresses to remove, and the set of live addresses. *)
Definition scan_step (now : Z)
    (acc : PyDict.dict peer * list pystr * list pystr) (item : pystr * peer)
  : PyDict.dict peer * list pystr * list pystr :=
  let '(peers', to_remove, current_ips) := acc in
  let '(ip, data) := item in
  let data' := expire_action now data in
  if timed_out now data'
  then (peers' ++ [(ip, data')], to_remove ++ [ip], current_ips)
  else (peers' ++ [(ip, data')], to_remove, set_add current_ips ip).

Definition scan_peers (now : Z) (peers : PyDict.dict peer)
  : PyDict.dict peer * list pystr * list pystr :=
  fold_left (scan_step now) peers ([], [], []).

(** The body of the loop over [to_remove]. *)
Definition remove_peer (ip : pystr) : M unit :=
  g <- get_globals ;;
  put_globals (with_peers g (PyDict.del (ACTIVE_PEERS g) ip)) ;;
  add_event (py "leave") (py "已离线") (Some ip) None.

(** The body of the loop over [new_ips]. *)
Definition announce_join (ip : pystr) : M unit :=
  when (negb (str_eqb ip (py "127.0.0.1")))
    (add_event (py "join") (py "加入网络") (Some ip) None).

Definition check_peers_lifecycle : M unit :=
  e <- ask ;;
  let now := datetime_now (the_clock e) in
  g <- get_globals ;;
  let '(peers, to_remove, current_ips) := scan_peers now (ACTIVE_PEERS g) in
  put_globals (with_peers g peers) ;;
  for_each to_remove remove_peer ;;
  g <- get_globals ;;
  let new_ips :=
    filter (fun ip => negb (in_set (LAST_ONLINE_IPS g) ip)) current_ips in
  for_each (set_iter (set_slot e) new_ips) announce_join ;;
  g <- get_globals ;;
  put_globals (with_last_online g current_ips).

(** *** Routes *)

(** [@app.before_request] *)
Definition global_intercept : M unit :=
  e <- ask ;;
  let request := the_request e in
  g <- get_globals ;;
  is_admin <- is_local_admin ;;
  when (locked (SERVER_STATE g) && negb is_admin)
    (when (negb (match req_endpoint request with
                 | Some ep => endpoint_eqb ep ep_static
                 | None => false
                 end))
       (abort 403 (Some (py "Maintenance Mode")))) ;;
  let sender_ip := remote_addr request in
  when (negb (str_eqb sender_ip (py "127.0.0.1"))
        && negb (str_eqb sender_ip (py "localhost")))
    (when (startswith (req_path request) (py "/api/")
           || startswith (req_path request) (py "/upload")
           || startswith (req_path request) (py "/download"))
       (record_activity sender_ip None None)).

Definition json_opt_str (o : option pystr) : json :=
  match o with
  | Some s => JStr s
  | None => JNone
  end.

(** [event.copy()] *)
Definition event_copy (ev : event) : PyDict.dict json :=
  [(py "id", JInt (ev_id ev)); (py "time", JStr (ev_time ev));
   (py "type", JStr (ev_type ev)); (py "msg", JStr (ev_msg ev));
   (py "ip", json_opt_str (ev_ip ev));
   (py "filename", json_opt_str (ev_filename ev))].

(** [event['ip'] != sender_ip] *)
Definition ip_differs (ip : option pystr) (sender_ip : pystr) : bool :=
  match ip with
  | Some a => negb (str_eqb a sender_ip)
  | None => true
  end.

(** The body of the loop of [api_status] over [raw_events]. *)
Definition client_safe_event (should_mask : bool) (sender_ip : pystr)
    (ev : event) : PyDict.dict json :=
  let evt_copy := event_copy ev in
  if should_mask && ip_differs (ev_ip ev) sender_ip && truthy (ev_filename ev)
  then
    let original_name :=
      match ev_filename ev with Some name => name | None => [] end in
    let masked_name := get_masked_name original_name in
    let evt_copy :=
      PyDict.set evt_copy (py "msg")
        (JStr (replace (ev_msg ev) original_name masked_name)) in
    if PyDict.mem evt_copy (py "filename")
    then PyDict.del evt_copy (py "filename") else evt_copy
  else evt_copy.

Definition topology_entry (ip status type device : pystr) : json :=
  JDict [(py "ip", JStr ip); (py "status", JStr status);
         (py "type", JStr type); (py "device_type", JStr device)].

Definition api_status : M response :=
  check_peers_lifecycle ;;
  e <- ask ;;
  let sender_ip := remote_addr (the_request e) in
  is_admin <- is_local_admin ;;
  g <- get_globals ;;
  let topology :=
    (if file_pool (SERVER_STATE g)
     then [topology_entry (py "Server") (py "idle") (py "server") (py "desktop")]
     else [])
    ++ map (fun '(ip, data) =>
              topology_entry ip (p_action data) (py "client") (p_device_type data))
         (ACTIVE_PEERS g) in
  let raw_events := EVENT_LOG g in
  let should_mask := negb is_admin && negb (file_pool (SERVER_STATE g)) in
  let client_safe_events :=
    map (fun ev => JDict (client_safe_event should_mask sender_ip ev)) raw_events in
  ret (Jsonify 200
         (JDict [(py "locked", JBool (locked (SERVER_STATE g)));
                 (py "file_pool", JBool (file_pool (SERVER_STATE g)));
                 (py "ips", JList (map JStr (local_ips e)));
                 (py "port", JInt (current_port (SERVER_STATE g)));
                 (py "topology", JList topology);
                 (py "events", JList client_safe_events)])).

Definition api_toggle_lock : M response :=
  is_admin <- is_local_admin ;;
  if negb is_admin then ret (Jsonify 403 (JDict [(py "error", JStr (py "无权操作"))]))
  else
    g <- get_globals ;;
    let st := SERVER_STATE g in
    put_globals
      (with_server_state g
         (mk_server_state (negb (locked st)) (file_pool st) (current_port st))) ;;
    add_event (py "system") (py "服务器锁定状态已变更") (Some (py "Server")) None ;;
    g <- get_globals ;;
    ret (Jsonify 200 (JDict [(py "locked", JBool (locked (SERVER_STATE g)))])).

Definition api_toggle_pool : M response :=
  is_admin <- is_local_admin ;;
  if negb is_admin then ret (Jsonify 403 (JDict [(py "error", JStr (py "无权操作"))]))
  else
    g <- get_globals ;;
    let st := SERVER_STATE g in
    put_globals
      (with_server_state g
         (mk_server_state (locked st) (negb (file_pool st)) (current_port st))) ;;
    g <- get_globals ;;
    let state_str := if file_pool (SERVER_STATE g) then py "启用" else py "关闭" in
    add_event (py "pool_toggle") (py "文件池模式已" ++ state_str)
      (Some (py "Server")) None ;;
    g <- get_globals ;;
    ret (Jsonify 200 (JDict [(py "file_pool", JBool (file_pool (SERVER_STATE g)))])).

(** The body of the listing loop over RELEASE_DIR; [entry f size] is the
    dictionary made for a regular file. *)
Definition release_step (entry : pystr -> Z -> json) (files : list json)
    (f : pystr) : M (list json) :=
  let p := OsPath.join RELEASE_DIR f in
  isf <- os_path_isfile p ;;
  if isf then size <- os_path_getsize p ;; ret (files ++ [entry f size])
  else ret files.

Definition release_entries (entry : pystr -> Z -> json) : M (list json) :=
  ex <- os_path_exists RELEASE_DIR ;;
  if ex then
    names <- os_listdir RELEASE_DIR ;;
    for_fold names [] (release_step entry)
  else ret [].

Definition list_release_files : M response :=
  files <- release_entries (fun f size =>
    JDict [(py "name", JStr f); (py "size", JInt size);
           (py "type", JStr (py "release"))]) ;;
  ret (Jsonify 200 (JList files)).

(** [l.sort(key=key, reverse=True)]: a stable sort, larger keys first;
    items with equal keys keep their order. *)
Fixpoint insert_desc {A} (key : A -> Z) (x : A) (l : list A) : list A :=
  match l with
  | [] => [x]
  | y :: rest =>
      if (key x <? key y)%Z then y :: insert_desc key x rest
      else x :: y :: rest
  end.

Definition sort_desc {A} (key : A -> Z) (l : list A) : list A :=
  fold_right (insert_desc key) [] l.

(** [lambda x: x['upload_time']] *)
Definition upload_time (x : json) : Z :=
  match x with
  | JDict d =>
      match PyDict.get d (py "upload_time") with
      | Some (JFloat t) => t
      | _ => 0%Z
      end
  | _ => 0%Z
  end.

(** The body of the listing loop over one directory of uploads;
    [entry f size mtime] is the dictionary made for a regular file. *)
Definition upload_step (dir : pystr) (entry : pystr -> Z -> Z -> json)
    (file_list : list json) (f : pystr) : M (list json) :=
  let f_path := OsPath.join dir f in
  isf <- os_path_isfile f_path ;;
  if isf then
    size <- os_path_getsize f_path ;;
    mtime <- os_path_getmtime f_path ;;
    ret (file_list ++ [entry f size mtime])
  else ret file_list.

Definition upload_entries (dir : pystr) (entry : pystr -> Z -> Z -> json)
  : M (list json) :=
  names <- os_listdir dir ;;
  for_fold names [] (upload_step dir entry).

(** The dictionaries of the three listings. *)
Definition server_file_entry (f : pystr) (size : Z) : json :=
  JDict [(py "name", JStr f); (py "size", JInt size);
         (py "path_key", JStr (py "__release__/" ++ f));
         (py "is_server_file", JBool true)].

Definition peer_file_entry (ip_folder f : pystr) (size mtime : Z) : json :=
  JDict [(py "name", JStr f); (py "size", JInt size);
         (py "path_key", JStr (ip_folder ++ py "/" ++ f));
         (py "upload_time", JFloat mtime)].

Definition my_file_entry (f : pystr) (size mtime : Z) : json :=
  JDict [(py "name", JStr f); (py "size", JInt size);
         (py "upload_time", JFloat mtime)].

(** The body of the loop over the directories of RECEIVED_DIR. *)
Definition received_step (structure : PyDict.dict (list json))
    (ip_folder : pystr) : M (PyDict.dict (list json)) :=
  let ip_path := OsPath.join RECEIVED_DIR ip_folder in
  isd <- os_path_isdir ip_path ;;
  if isd then
    file_list <- upload_entries ip_path (peer_file_entry ip_folder) ;;
    match file_list with
    | _ :: _ =>
        ret (PyDict.set structure ip_folder (sort_desc upload_time file_list))
    | [] => ret structure
    end
  else ret structure.

Definition list_received_files : M response :=
  e <- ask ;;
  let sender_ip := remote_addr (the_request e) in
  is_admin <- is_local_admin ;;
  g <- get_globals ;;
  let file_pool_active := file_pool (SERVER_STATE g) in
  if is_admin || file_pool_active then
    structure <-
      (if file_pool_active then
         server_files <- release_entries server_file_entry ;;
         ret (PyDict.set [] (py "Server") server_files)
       else ret []) ;;
    ex <- os_path_exists RECEIVED_DIR ;;
    structure <-
      (if ex then
         folders <- os_listdir RECEIVED_DIR ;;
         for_fold folders structure received_step
       else ret structure) ;;
    ret (Jsonify 200
           (JDict [(py "role",
                    JStr (if file_pool_active && negb is_admin
                          then py "pool_view" else py "admin"));
                   (py "data", JDict (map (fun '(k, v) => (k, JList v)) structure));
                   (py "my_ip", JStr sender_ip);
                   (py "pool_enabled", JBool file_pool_active)]))
  else
    let my_dir := OsPath.join RECEIVED_DIR sender_ip in
    ex <- os_path_exists my_dir ;;
    my_files <-
      (if ex then upload_entries my_dir my_file_entry else ret []) ;;
    ret (Jsonify 200
           (JDict [(py "role", JStr (py "client"));
                   (py "data", JList (sort_desc upload_time my_files));
                   (py "pool_enabled", JBool false)])).

(** [str(e)] *)
Definition str_of_exn (x : exn) : pystr :=
  match x with
  | OSError m => m
  | TypeError => py "TypeError"
  | HTTPException c _ => str_of_int c
  end.

Definition opt_str_is (o : option pystr) (s : pystr) : bool :=
  match o with
  | Some a => str_eqb a s
  | None => false
  end.

Definition delete_file : M response :=
  is_admin <- is_local_admin ;;
  if negb is_admin
  then ret (Jsonify 403 (JDict [(py "error", JStr (py "Permission denied"))]))
  else
    e <- ask ;;
    let data := req_json (the_request e) in
    let target_type := PyDict.get data (py "type") in
    let target_path := PyDict.get data (py "path") in
    let path_str := match target_path with Some p => p | None => [] end in
    let file_name_only :=
      if truthy target_path then OsPath.basename path_str else py "未知文件" in
    '(full_path, file_name_only) <-
      (if opt_str_is target_type (py "release")
          || (truthy target_path && startswith path_str (py "__release__/"))
       then
         let clean_name :=
           if truthy target_path then replace path_str (py "__release__/") []
           else [] in
         ret (Some (OsPath.join RELEASE_DIR clean_name), clean_name)
       else if opt_str_is target_type (py "received") then
         match target_path with
         | Some p => ret (Some (OsPath.join RECEIVED_DIR p), file_name_only)
         | None => raise TypeError
         end
       else ret (None, file_name_only)) ;;
    ex <- (if truthy full_path
           then os_path_exists (match full_path with Some p => p | None => [] end)
           else ret false) ;;
    if ex then
      let full_path := match full_path with Some p => p | None => [] end in
      try_except
        (os_remove full_path ;;
         when (opt_str_is target_type (py "received"))
           (let parent := OsPath.dirname full_path in
            names <- os_listdir parent ;;
            match names with
            | [] => os_rmdir parent
            | _ :: _ => ret tt
            end) ;;
         add_event (py "delete") (py "删除了 " ++ file_name_only)
           (Some (py "Server")) (Some file_name_only) ;;
         ret (Jsonify 200 (JDict [(py "success", JBool true)])))
        (fun x => ret (Jsonify 500 (JDict [(py "error", JStr (str_of_exn x))])))
    else ret (Jsonify 404 (JDict [(py "error", JStr (py "File not found"))])).

Definition download_file (filename : pystr) : M response :=
  when (contains filename (py "..") || startswith filename (py "/"))
    (abort 404 None) ;;
  e <- ask ;;
  let sender_ip := remote_addr (the_request e) in
  when (negb (str_eqb sender_ip (py "127.0.0.1")))
    (record_activity sender_ip (Some (py "download")) None) ;;
  let display_name := last_item (split OsPath.sep filename) [] in
  add_event (py "download") (py "下载了 " ++ display_name)
    (Some (if negb (str_eqb sender_ip (py "127.0.0.1")) then sender_ip
           else py "Server"))
    (Some display_name) ;;
  if startswith filename (py "__release__/")
  then send_from_directory RELEASE_DIR (replace filename (py "__release__/") [])
  else
    ex <- os_path_exists (OsPath.join RELEASE_DIR filename) ;;
    if ex then send_from_directory RELEASE_DIR filename
    else
      is_admin <- is_local_admin ;;
      g <- get_globals ;;
      (if is_admin || file_pool (SERVER_STATE g) then
         match split1 OsPath.sep filename with
         | [part0; part1] =>
             let target_dir := OsPath.join RECEIVED_DIR part0 in
             ex <- os_path_exists target_dir ;;
             if ex then send_from_directory target_dir part1
             else abort 404 None
         | _ => abort 404 None
         end
       else abort 404 None).

(** The body of the loop of [upload_file] over [uploaded_files]; the
    local variables are [saved_count] and [last_file]. *)
Definition save_upload (save_dir : pystr) (acc : Z * pystr)
    (file : pystr * bytes) : M (Z * pystr) :=
  let '(saved_count, last_file) := acc in
  let '(filename, data) := file in
  match filename with
  | _ :: _ =>
      e <- ask ;;
      let file_path := OsPath.join save_dir filename in
      ex <- os_path_exists file_path ;;
      let file_path :=
        if ex
        then OsPath.join save_dir
               (strftime_prefix (datetime_now (the_clock e)) ++ filename)
        else file_path in
      file_save file_path data ;;
      ret ((saved_count + 1)%Z, filename)
  | [] => ret (saved_count, last_file)
  end.

Definition upload_file : M response :=
  e <- ask ;;
  let uploaded_files := req_files (the_request e) in
  let sender_ip := remote_addr (the_request e) in
  is_admin <- is_local_admin ;;
  when (negb is_admin) (record_activity sender_ip (Some (py "upload")) None) ;;
  let save_dir :=
    if is_admin then RELEASE_DIR else OsPath.join RECEIVED_DIR sender_ip in
  ex <- os_path_exists save_dir ;;
  when (negb ex) (os_makedirs save_dir) ;;
  ' (saved_count, last_file) <-
    for_fold uploaded_files (0%Z, []) (save_upload save_dir) ;;
  when (saved_count >? 0)%Z
    (let msg := py "上传了 " ++ str_of_int saved_count ++ py " 个文件" in
     let recorded_filename :=
       if (saved_count =? 1)%Z then Some last_file else None in
     let msg := if (saved_count =? 1)%Z then py "上传了 " ++ last_file else msg in
     add_event (py "upload") msg
       (Some (if negb is_admin then sender_ip else py "Server"))
       recorded_filename) ;;
  ret (Jsonify 200
         (JDict [(py "message",
                  JStr (py "成功上传 " ++ str_of_int saved_count ++ py " 个文件"))])).

Definition index : M response :=
  e <- ask ;;
  ex <- os_path_exists (template_path e) ;;
  if negb ex
  then ret (Text 404 (py "<h2>错误：找不到资源文件</h2><p>请联系开发者或重新下载。</p>"))
  else
    html_content <- read_file (template_path e) ;;
    is_admin <- is_local_admin ;;
    g <- get_globals ;;
    ret (Rendered html_content is_admin (local_ips e)
           (current_port (SERVER_STATE g))).

(** The view function that Flask calls for the matched route; no route
    is NotFound. *)
Definition dispatch_request : M response :=
  e <- ask ;;
  match req_endpoint (the_request e) with
  | None => abort 404 None
  | Some ep_static =>
      send_from_directory (static_folder e) (req_filename (the_request e))
  | Some ep_index => index
  | Some ep_api_status => api_status
  | Some ep_api_toggle_lock => api_toggle_lock
  | Some ep_api_toggle_pool => api_toggle_pool
  | Some ep_list_release_files => list_release_files
  | Some ep_list_received_files => list_received_files
  | Some ep_delete_file => delete_file
  | Some ep_download_file => download_file (req_filename (the_request e))
  | Some ep_upload_file => upload_file
  end.

(** What the client gets for what a computation returned or raised. *)
Definition finalize (r : result response * world) : response * world :=
  match r with
  | (Ok resp, w) => (resp, w)
  | (Raise (HTTPException code description), w) => (ErrorPage code description, w)
  | (Raise _, w) => (InternalServerError, w)
  end.

(** One request: the [before_request] hook, then the view. *)
Definition full_dispatch_request (e : env) (w : world) : response * world :=
  finalize ((global_intercept ;; dispatch_request) e w).

End Handlers.

Arguments world {FS}.
Arguments mk_world {FS} G D trace.

(** ** An in-memory filesystem

    A small instance of [FileSystem] on which the handlers can be run:
    paths are resolved lexically against one root, a file has content and
    a modification time, and the disk keeps its own clock for the files it
    writes. *)

Module MemFS.

Inductive node :=
| File (data : bytes) (mtime : Z)
| Dir.

Definition key := list pystr.

Record t := mk {
  nodes : list (key * node);
  ticks : Z
}.

Fixpoint key_eqb (a b : key) : bool :=
  match a, b with
  | [], [] => true
  | x :: a', y :: b' => str_eqb x y && key_eqb a' b'
  | _, _ => false
  end.

(** Lexical resolution: empty and [.] components are dropped, [..] steps
    up. [stack] holds the components kept so far, innermost first. *)
Fixpoint resolve_parts (parts stack : list pystr) : key :=
  match parts with
  | [] => rev stack
  | c :: rest =>
      if str_eqb c [] || str_eqb c (py ".") then resolve_parts rest stack
      else if str_eqb c (py "..") then resolve_parts rest (tl stack)
      else resolve_parts rest (c :: stack)
  end.

Definition resolve (p : pystr) : key := resolve_parts (split OsPath.sep p) [].

Fixpoint lookup (l : list (key * node)) (k : key) : option node :=
  match l with
  | [] => None
  | (k', n) :: rest => if key_eqb k' k then Some n else lookup rest k
  end.

(** The root directory always exists. *)
Definition find (d : t) (p : pystr) : option node :=
  match resolve p with
  | [] => Some Dir
  | k => lookup (nodes d) k
  end.

Definition drop (l : list (key * node)) (k : key) : list (key * node) :=
  filter (fun '(k', _) => negb (key_eqb k' k)) l.

Definition store (l : list (key * node)) (k : key) (n : node)
  : list (key * node) :=
  drop l k ++ [(k, n)].

(** The names directly under [k]. *)
Definition children (l : list (key * node)) (k : key) : list pystr :=
  flat_map (fun '(k', _) =>
              match rev k' with
              | name :: parent => if key_eqb (rev parent) k then [name] else []
              | [] => []
              end) l.

Definition no_such_file : exn := OSError (py "No such file or directory").

Definition exists_ (d : t) (p : pystr) : bool :=
  match find d p with Some _ => true | None => false end.

Definition isfile (d : t) (p : pystr) : bool :=
  match find d p with Some (File _ _) => true | _ => false end.

Definition isdir (d : t) (p : pystr) : bool :=
  match find d p with Some Dir => true | _ => false end.

Definition listdir (d : t) (p : pystr) : result (list pystr) :=
  match find d p with
  | Some Dir => Ok (children (nodes d) (resolve p))
  | Some (File _ _) => Raise (OSError (py "Not a directory"))
  | None => Raise no_such_file
  end.

Definition getsize (d : t) (p : pystr) : result Z :=
  match find d p with
  | Some (File data _) => Ok (Z.of_nat (length data))
  | Some Dir => Ok 4096%Z
  | None => Raise no_such_file
  end.

Definition getmtime (d : t) (p : pystr) : result Z :=
  match find d p with
  | Some (File _ mtime) => Ok mtime
  | Some Dir => Ok 0%Z
  | None => Raise no_such_file
  end.

(** Every missing ancestor is created; an existing target is an error. *)
Fixpoint make_prefixes (l : list (key * node)) (done todo : key)
  : list (key * node) :=
  match todo with
  | [] => l
  | c :: rest =>
      let k := done ++ [c] in
      make_prefixes
        (match lookup l k with Some _ => l | None => store l k Dir end)
        k rest
  end.

Definition makedirs (d : t) (p : pystr) : result t :=
  match find d p with
  | Some _ => Raise (OSError (py "File exists"))
  | None => Ok (mk (make_prefixes (nodes d) [] (resolve p)) (ticks d))
  end.

Definition remove (d : t) (p : pystr) : result t :=
  match find d p with
  | Some (File _ _) => Ok (mk (drop (nodes d) (resolve p)) (ticks d))
  | Some Dir => Raise (OSError (py "Is a directory"))
  | None => Raise no_such_file
  end.

Definition rmdir (d : t) (p : pystr) : result t :=
  match find d p with
  | Some Dir =>
      match children (nodes d) (resolve p), resolve p with
      | [], _ :: _ => Ok (mk (drop (nodes d) (resolve p)) (ticks d))
      | _, _ => Raise (OSError (py "Directory not empty"))
      end
  | Some (File _ _) => Raise (OSError (py "Not a directory"))
  | None => Raise no_such_file
  end.

Definition parent_exists (d : t) (k : key) : bool :=
  match removelast k with
  | [] => true
  | parent => match lookup (nodes d) parent with Some Dir => true | _ => false end
  end.

Definition save (d : t) (p : pystr) (data : bytes) : result t :=
  match resolve p, find d p with
  | [], _ | _, Some Dir => Raise (OSError (py "Is a directory"))
  | k, _ =>
      if parent_exists d k
      then Ok (mk (store (nodes d) k (File data (ticks d))) (ticks d + 1))
      else Raise no_such_file
  end.

Definition read (d : t) (p : pystr) : result bytes :=
  match find d p with
  | Some (File data _) => Ok data
  | Some Dir => Raise (OSError (py "Is a directory"))
  | None => Raise no_such_file
  end.

(** The components of [posixpath.normpath p] for a relative path [p]:
    empty and [.] components are dropped, and [..] takes back the
    component before it, or stays when there is none to take back.
    [stack] holds the components kept so far, innermost first. *)
Fixpoint norm_parts (parts stack : list pystr) : list pystr :=
  match parts with
  | [] => rev stack
  | c :: rest =>
      if str_eqb c [] || str_eqb c (py ".") then norm_parts rest stack
      else if str_eqb c (py "..") then
        match stack with
        | top :: stack' =>
            if str_eqb top (py "..") then norm_parts rest (c :: stack)
            else norm_parts rest stack'
        | [] => norm_parts rest [c]
        end
      else norm_parts rest (c :: stack)
  end.

(** werkzeug's [safe_join] normalizes the path and refuses it when it is
    absolute or still begins with [..]; what is then found under the
    directory must be a regular file. *)
Definition send_from_directory (d : t) (directory p : pystr) : option bytes :=
  match norm_parts (split OsPath.sep p) [] with
  | [] => None
  | c :: _ =>
      if startswith p (py "/") || str_eqb c (py "..") then None
      else match find d (OsPath.join directory p) with
           | Some (File data _) => Some data
           | _ => None
           end
  end.

#[export] Instance fs : FileSystem := {|
  disk := t;
  fs_exists := exists_;
  fs_isfile := isfile;
  fs_isdir := isdir;
  fs_listdir := listdir;
  fs_getsize := getsize;
  fs_getmtime := getmtime;
  fs_makedirs := makedirs;
  fs_remove := remove;
  fs_rmdir := rmdir;
  fs_save := save;
  fs_read := read;
  fs_send_from_directory := send_from_directory
|}.

(** A disk with the two configured directories and nothing else. *)
Definition empty_disk : t :=
  mk [([py "release"], Dir); ([py "received"], Dir)] 0.

End MemFS.

(** ** Start-up *)

Module Startup.

Section Config.

(** The key test that a dict makes (the same object, or [==]) when the
    first of two keys is the float carried by [t] and the second is a
    number or a truth value. What it answers is left open: the properties
    below hold whatever it is. *)
Variable float_key_eqb : Z -> json -> bool.

(** [config]: a dict whose keys are whatever [update] puts in it. *)
Definition config_dict := list (json * json).

Definition hashable (k : json) : bool :=
  match k with
  | JList _ | JDict _ => false
  | _ => true
  end.

(** The key test of a dict on the hashable values of a document: a string
    equals only that string and [None] only [None]; truth values count as
    the integers 1 and 0. *)
Definition key_eqb (a b : json) : bool :=
  match a, b with
  | JStr s, JStr t => str_eqb s t
  | JNone, JNone => true
  | JBool x, JBool y => Bool.eqb x y
  | JBool x, JInt n => ((if x then 1 else 0) =? n)%Z
  | JInt n, JBool x => (n =? (if x then 1 else 0))%Z
  | JInt n, JInt m => (n =? m)%Z
  | JFloat t, JBool _ | JFloat t, JInt _ | JFloat t, JFloat _ =>
      float_key_eqb t b
  | JBool _, JFloat t | JInt _, JFloat t => float_key_eqb t a
  | _, _ => false
  end.

(** [d.get(k)] *)
Fixpoint get (d : config_dict) (k : json) : option json :=
  match d with
  | [] => None
  | (k', v) :: rest => if key_eqb k' k then Some v else get rest k
  end.

(** [d[k] = v]: an existing key keeps its place and its key object, a new
    key goes last. *)
Fixpoint set (d : config_dict) (k v : json) : config_dict :=
  match d with
  | [] => [(k, v)]
  | (k', v') :: rest =>
      if key_eqb k' k then (k', v) :: rest else (k', v') :: set rest k v
  end.

Definition DEFAULT_CONFIG : config_dict :=
  [(JStr (py "port"), JInt 8000);
   (JStr (py "release_dir"), JStr (py "release"));
   (JStr (py "received_dir"), JStr (py "received"))].

(** The exceptions of [dict.update]. *)
Inductive update_exn :=
| UTypeError
| UValueError.

(** One element of the sequence given to [dict.update], read as a key
    and a value: the element is turned into a sequence (a list as it is,
    a string into its characters, a dict into its keys; TypeError for
    anything else) which must have two items (ValueError otherwise). *)
Definition as_pair (item : json) : update_exn + json * json :=
  match item with
  | JList [k; v] => inr (k, v)
  | JStr [a; b] => inr (JStr [a], JStr [b])
  | JDict [(k1, _); (k2, _)] => inr (JStr k1, JStr k2)
  | JList _ | JStr _ | JDict _ => inl UValueError
  | JNone | JBool _ | JInt _ | JFloat _ => inl UTypeError
  end.

(** [d.update(items)] for a sequence of elements: the pairs are put in
    the dict one after the other; the first element that is not a pair,
    or whose key is not hashable, raises, and what was put before it
    stays. *)
Fixpoint update_seq (d : config_dict) (items : list json)
  : config_dict * option update_exn :=
  match items with
  | [] => (d, None)
  | item :: rest =>
      match as_pair item with
      | inr (k, v) =>
          if hashable k then update_seq (set d k v) rest
          else (d, Some UTypeError)
      | inl x => (d, Some x)
      end
  end.

(** [d.update(other)] for a value that [json.load] returned: the dict
    after the call, and the exception if one was raised. An object gives
    its items; a list is read as a sequence of pairs; a string is
    iterated by characters, none of which is a pair; anything else is not
    iterable. *)
Definition update (d : config_dict) (other : json)
  : config_dict * option update_exn :=
  match other with
  | JDict items =>
      (fold_left (fun acc kv => set acc (JStr (fst kv)) (snd kv)) items d, None)
  | JList items => update_seq d items
  | JStr [] => (d, None)
  | JStr (_ :: _) => (d, Some UValueError)
  | JNone | JBool _ | JInt _ | JFloat _ => (d, Some UTypeError)
  end.

(** What [load_config] is given: [args_port] is [args.port] ([None] when
    the option is absent); [config_file] is [None] when the file does not
    exist, [Some (Raise _)] when [open] or [json.load] raises, and
    otherwise the value that [json.load] returns. The [try] block then
    calls [config.update], and an exception of that call is swallowed like
    the others, after the call has changed [config]. *)
Definition load_config (args_port : option Z)
    (config_file : option (result json)) : config_dict :=
  let config := DEFAULT_CONFIG in
  let config :=
    match config_file with
    | Some (Ok file_config) => fst (update config file_config)
    | Some (Raise _) => config
    | None => config
    end in
  match args_port with
  | Some port =>
      if (port =? 0)%Z then config
      else set config (JStr (py "port")) (JInt port)
  | None => config
  end.

End Config.



End Startup.

(** ** Notions used in the statements *)

(** One call of [add_event], with the environment it is made in. *)
Record record_op := mk_record_op {
  op_env : env;
  op_type : pystr;
  op_msg : pystr;
  op_ip : option pystr;
  op_filename : option pystr
}.

(** The entry that the call puts in the log. *)
Definition event_of (op : record_op) : event :=
  new_event (the_clock (op_env op)) (op_type op) (op_msg op) (op_ip op)
    (op_filename op).

(** The events of one sweep, in the order in which [check_peers_lifecycle]
    records them: a [leave] for every timed-out peer, in the order of the
    registry, then a [join] for every live address that is not in the
    previous snapshot and is not 127.0.0.1, in the order in which the set
    of these addresses is iterated. *)
Definition leave_event (c : clock) (ip : pystr) : event :=
  new_event c (py "leave") (py "已离线") (Some ip) None.

Definition join_event (c : clock) (ip : pystr) : event :=
  new_event c (py "join") (py "加入网络") (Some ip) None.

Definition sweep_leaves (now : Z) (peers : PyDict.dict peer) : list pystr :=
  map fst (filter (fun '(_, data) => timed_out now data) peers).

Definition sweep_current (now : Z) (peers : PyDict.dict peer) : list pystr :=
  fold_left set_add
    (map fst (filter (fun '(_, data) => negb (timed_out now data)) peers)) [].

(** The set [new_ips]: the live addresses that are not in the previous
    snapshot. *)
Definition sweep_new (now : Z) (g : globals) : list pystr :=
  filter (fun ip => negb (in_set (LAST_ONLINE_IPS g) ip))
    (sweep_current now (ACTIVE_PEERS g)).

(** The addresses that get a [join] event, as a set. *)
Definition sweep_joins (now : Z) (g : globals) : list pystr :=
  filter (fun ip => negb (str_eqb ip (py "127.0.0.1"))) (sweep_new now g).

(** The same addresses in the order in which the sweep of the request [e]
    visits them. *)
Definition sweep_join_order (e : env) (g : globals) : list pystr :=
  filter (fun ip => negb (str_eqb ip (py "127.0.0.1")))
    (set_iter (set_slot e) (sweep_new (datetime_now (the_clock e)) g)).

Definition sweep_events (e : env) (g : globals) : list event :=
  map (leave_event (the_clock e))
    (sweep_leaves (datetime_now (the_clock e)) (ACTIVE_PEERS g))
  ++ map (join_event (the_clock e)) (sweep_join_order e g).

(** A [leave] event for the address [ip]. *)
Definition is_leave_of (ip : pystr) (ev : event) : bool :=
  str_eqb (ev_type ev) (py "leave") && opt_str_is (ev_ip ev) ip.

(** The log after the entries [evs] have been recorded one after the
    other. *)
Definition record_all (evs : list event) (log : list event) : list event :=
  fold_left (fun l ev => appendleft MAX_EVENTS ev l) evs log.

(** [log] is [log0] with nothing or with one event of the file
    operations and the toggles, made at the reading [c] of the clock,
    recorded on it. *)
Definition one_event (c : clock) (log0 log : list event) : Prop :=
  log = log0 \/
  exists type msg ip filename,
    In type [py "system"; py "pool_toggle"; py "delete"; py "download";
             py "upload"] /\
    log = appendleft MAX_EVENTS (new_event c type msg ip filename) log0.

(** The masked view of an event whose filename is [name]: the message
    with the filename replaced by its masked form, and no [filename]
    key. *)
Definition masked_copy (ev : event) (name : pystr) : PyDict.dict json :=
  [(py "id", JInt (ev_id ev)); (py "time", JStr (ev_time ev));
   (py "type", JStr (ev_type ev));
   (py "msg", JStr (replace (ev_msg ev) name (get_masked_name name)));
   (py "ip", json_opt_str (ev_ip ev))].

(** The names of the files that an upload saves: those of the uploaded
    files whose [filename] is not empty. *)
Definition saved_names (files : list (pystr * bytes)) : list pystr :=
  filter (fun name => match name with [] => false | _ :: _ => true end)
    (map fst files).






(** The [download] event that [download_file] records for [filename]. *)
Definition download_event (e : env) (filename : pystr) : event :=
  new_event (the_clock e) (py "download")
    (py "下载了 " ++ last_item (split OsPath.sep filename) [])
    (Some (if negb (str_eqb (remote_addr (the_request e)) (py "127.0.0.1"))
           then remote_addr (the_request e) else py "Server"))
    (Some (last_item (split OsPath.sep filename) [])).

(** The [events] of a status response. *)
Definition response_events (r : response) : list json :=
  match r with
  | Jsonify _ (JDict body) =>
      match PyDict.get body (py "events") with
      | Some (JList events) => events
      | _ => []
      end
  | _ => []
  end.

(** What every request keeps true of the process state: the keys of the
    registry are distinct, the log is within its capacity, and 127.0.0.1
    is not in the registry. *)
Record invariant (g : globals) : Prop := mk_invariant {
  inv_keys : NoDup (PyDict.keys (ACTIVE_PEERS g));
  inv_log : (length (EVENT_LOG g) <= MAX_EVENTS)%nat;
  inv_admin : PyDict.get (ACTIVE_PEERS g) (py "127.0.0.1") = None
}.

(** The [system] event of a lock toggle and the [pool_toggle] event of a
    pool toggle that leaves the mode at [enabled]. *)
Definition lock_event (c : clock) : event :=
  new_event c (py "system") (py "服务器锁定状态已变更") (Some (py "Server")) None.

Definition pool_event (c : clock) (enabled : bool) : event :=
  new_event c (py "pool_toggle")
    (py "文件池模式已" ++ (if enabled then py "启用" else py "关闭"))
    (Some (py "Server")) None.

(** A [join] event for the address [ip]. *)
Definition is_join_of (ip : pystr) (ev : event) : bool :=
  str_eqb (ev_type ev) (py "join") && opt_str_is (ev_ip ev) ip.

Section Notions.

Context {FS : FileSystem}.

(** The world after one call of [add_event], and after a sequence. *)
Definition run_record (w : world) (op : record_op) : world :=
  snd (add_event (op_type op) (op_msg op) (op_ip op) (op_filename op)
         (op_env op) w).

Definition run_records (ops : list record_op) (w : world) : world :=
  fold_left run_record ops w.

(** [wp m e w Q]: running [m] in [e] from [w] ends in a pair of an outcome
    and a world that satisfies [Q]. *)
Definition wp {A} (m : M A) (e : env) (w : world)
    (Q : result A * world -> Prop) : Prop :=
  Q (m e w).

(** The path under which the file [filename] of an upload is written on
    the disk [d]: its own name in [save_dir], or that name with the time
    in front when the name is taken. *)
Definition upload_path (d : disk) (save_dir : pystr) (c : clock)
    (filename : pystr) : pystr :=
  if fs_exists d (OsPath.join save_dir filename)
  then OsPath.join save_dir (strftime_prefix (datetime_now c) ++ filename)
  else OsPath.join save_dir filename.

(** A computation that only reads: whatever it returns or raises, the
    process state and the disk are as before. *)
Definition read_only {A} (m : M A) : Prop :=
  forall (e : env) (w : world),
    G (snd (m e w)) = G w /\ D (snd (m e w)) = D w.

(** The worlds that the server can be in: the one at start-up, on any
    disk, and those that follow from it request after request. *)
Inductive reachable (RELEASE_DIR RECEIVED_DIR : pystr) : world -> Prop :=
| reach_start (port : Z) (d : disk) :
    reachable RELEASE_DIR RECEIVED_DIR (mk_world (initial_globals port) d [])
| reach_request (e : env) (w : world) :
    reachable RELEASE_DIR RECEIVED_DIR w ->
    reachable RELEASE_DIR RECEIVED_DIR
      (snd (full_dispatch_request RELEASE_DIR RECEIVED_DIR e w)).

End Notions.

(** *** What a listing has to show *)

Section ListingNotions.

Context {FS : FileSystem}.
Variables RELEASE_DIR RECEIVED_DIR : pystr.

Definition listing (d : disk) (p : pystr) : list pystr :=
  match fs_listdir d p with Ok names => names | Raise _ => [] end.

Definition size_of (d : disk) (p : pystr) : Z :=
  match fs_getsize d p with Ok size => size | Raise _ => 0%Z end.

Definition mtime_of (d : disk) (p : pystr) : Z :=
  match fs_getmtime d p with Ok mtime => mtime | Raise _ => 0%Z end.

(** The regular files of a directory, in the order of its listing. *)
Definition regular_files (d : disk) (dir : pystr) : list pystr :=
  filter (fun f => fs_isfile d (OsPath.join dir f)) (listing d dir).

(** The uploads of the peer whose directory is [ip_folder]. *)
Definition peer_uploads (d : disk) (ip_folder : pystr) : list json :=
  map (fun f =>
         peer_file_entry ip_folder f
           (size_of d (OsPath.join (OsPath.join RECEIVED_DIR ip_folder) f))
           (mtime_of d (OsPath.join (OsPath.join RECEIVED_DIR ip_folder) f)))
    (regular_files d (OsPath.join RECEIVED_DIR ip_folder)).

Definition has_uploads (d : disk) (ip_folder : pystr) : bool :=
  fs_isdir d (OsPath.join RECEIVED_DIR ip_folder)
  && match peer_uploads d ip_folder with [] => false | _ :: _ => true end.

(** The peers that have at least one upload. *)
Definition uploading_peers (d : disk) : list pystr :=
  if fs_exists d RECEIVED_DIR
  then filter (has_uploads d) (listing d RECEIVED_DIR) else [].

(** The files that the admin has published. *)
Definition published_files (d : disk) : list json :=
  if fs_exists d RELEASE_DIR
  then map (fun f => server_file_entry f (size_of d (OsPath.join RELEASE_DIR f)))
         (regular_files d RELEASE_DIR)
  else [].

(** Reading the disk does not fail: a directory can be listed, a regular
    file has a size and a modification time, and the two configured
    paths, when they exist, are directories. *)
Definition readable (d : disk) : Prop :=
  (forall p, fs_isdir d p = true -> exists names, fs_listdir d p = Ok names) /\
  (forall p, fs_isfile d p = true ->
     (exists size, fs_getsize d p = Ok size) /\
     (exists mtime, fs_getmtime d p = Ok mtime)) /\
  (fs_exists d RELEASE_DIR = true -> fs_isdir d RELEASE_DIR = true) /\
  (fs_exists d RECEIVED_DIR = true -> fs_isdir d RECEIVED_DIR = true).

(** What one turn of the loop over the directories of RECEIVED_DIR makes
    of [structure]. *)
Definition add_group (d : disk) (structure : PyDict.dict (list json))
    (ip_folder : pystr) : PyDict.dict (list json) :=
  if has_uploads d ip_folder
  then PyDict.set structure ip_folder
         (sort_desc upload_time (peer_uploads d ip_folder))
  else structure.

End ListingNotions.

(** The order of a list sorted with [reverse=True]. *)
Definition ge_key {A} (key : A -> Z) (a b : A) : Prop :=
  (key a >= key b)%Z.

(** Later uploads come first. *)
Definition newest_first : json -> json -> Prop := ge_key upload_time.

(** ** Sample data for the concrete runs *)

Module Sample.

Definition RELEASE_DIR : pystr := py "release".
Definition RECEIVED_DIR : pystr := py "received".

Definition peer_A : pystr := py "192.168.1.5".
Definition peer_B : pystr := py "192.168.1.6".
Definition admin : pystr := py "127.0.0.1".

(** A request from [addr] for the route [ep]. *)
Definition request_of (addr : pystr) (ep : endpoint) (path filename : pystr)
    (body : PyDict.dict pystr) (files : list (pystr * bytes)) : request :=
  mk_request addr (Some ep) path (py "Mozilla/5.0 (X11; Linux x86_64)")
    filename body files.

(** The environment of a request served at second [t]. *)
Definition env_at (r : request) (t : Z) : env :=
  mk_env r (mk_clock (t * 1000000) (t * 1000000)) [py "192.168.1.2"]
    (py "index.html") (py "static") (fun _ => 0%Z).

(** The world at start-up, on a disk holding the two directories. *)
Definition start : @world MemFS.fs :=
  @mk_world MemFS.fs (initial_globals 8000) MemFS.empty_disk [].

Definition with_locked (w : @world MemFS.fs) (b : bool) : @world MemFS.fs :=
  @mk_world MemFS.fs
    (with_server_state (G w)
       (mk_server_state b (file_pool (SERVER_STATE (G w)))
          (current_port (SERVER_STATE (G w)))))
    (D w) (trace w).

Definition status_request (addr : pystr) : request :=
  request_of addr ep_api_status (py "/api/status") [] [] [].

Definition upload_request (addr : pystr) (files : list (pystr * bytes)) : request :=
  request_of addr ep_upload_file (py "/upload") [] [] files.

Definition download_request (addr filename : pystr) : request :=
  request_of addr ep_download_file (py "/download/" ++ filename) filename [] [].

Definition listing_request (addr : pystr) : request :=
  request_of addr ep_list_received_files (py "/api/files/received") [] [] [].

Definition delete_request (addr type path : pystr) : request :=
  request_of addr ep_delete_file (py "/api/file/delete") []
    [(py "type", type); (py "path", path)] [].

Definition release_listing_request (addr : pystr) : request :=
  request_of addr ep_list_release_files (py "/api/files/release") [] [] [].

Definition toggle_pool_request (addr : pystr) : request :=
  request_of addr ep_api_toggle_pool (py "/api/toggle_pool") [] [] [].

Definition toggle_lock_request (addr : pystr) : request :=
  request_of addr ep_api_toggle_lock (py "/api/toggle_lock") [] [] [].

Definition static_request (addr filename : pystr) : request :=
  request_of addr ep_static (py "/static/" ++ filename) filename [] [].

(** Serving [r] at second [t]. *)
Definition serve (r : request) (t : Z) (w : @world MemFS.fs)
  : response * @world MemFS.fs :=
  full_dispatch_request RELEASE_DIR RECEIVED_DIR (env_at r t) w.

(** The world after the admin has published [a.txt] and peer A has
    uploaded [b.txt]. *)
Definition stocked : @world MemFS.fs :=
  snd (serve (upload_request peer_A [(py "b.txt", [2%N])]) 2
         (snd (serve (upload_request admin [(py "a.txt", [1%N])]) 1 start))).

End Sample.

(** * Properties *)

(** ** Strings and paths *)

Lemma str_eqb_spec (a b : pystr) : reflect (a = b) (str_eqb a b).
Proof.
  revert b; induction a as [|x a IH]; intros [|y b]; simpl;
    try (constructor; congruence).
  unfold char_eqb. destruct (N.eqb_spec x y) as [->|Hxy]; simpl.
  - destruct (IH b) as [->|Hab]; constructor; congruence.
  - constructor; congruence.
Qed.

Lemma str_eqb_refl (a : pystr) : str_eqb a a = true.
Proof. destruct (str_eqb_spec a a); congruence. Qed.

Lemma str_eqb_eq (a b : pystr) : str_eqb a b = true <-> a = b.
Proof. destruct (str_eqb_spec a b); split; congruence. Qed.

Lemma str_eqb_neq (a b : pystr) : str_eqb a b = false <-> a <> b.
Proof. destruct (str_eqb_spec a b); split; congruence. Qed.

(** [rfind_from] either keeps [last], when the character does not occur,
    or returns the position of its last occurrence. *)
Lemma rfind_from_spec (c : pychar) (s : pystr) :
  forall i last,
    (rfind_from c s i last = last /\ ~ In c s) \/
    (exists a b, s = a ++ c :: b /\ ~ In c b /\
                 rfind_from c s i last = (i + Z.of_nat (length a))%Z).
Proof.
  induction s as [|x s IH]; intros i last; simpl.
  - left; split; [reflexivity | tauto].
  - destruct (IH (i + 1)%Z (if char_eqb x c then i else last))
      as [[Heq Hnot] | (a & b & -> & Hb & Heq)].
    + rewrite Heq. unfold char_eqb. destruct (N.eqb_spec x c) as [->|Hxc].
      * right. exists [], s. simpl. repeat split; auto. lia.
      * left. split; [reflexivity | intros [H|H]; auto].
    + right. exists (x :: a), b. simpl. repeat split; auto.
      rewrite Heq. lia.
Qed.

Lemma rfind_spec (s : pystr) (c : pychar) :
  (rfind s c = (-1)%Z /\ ~ In c s) \/
  (exists a b, s = a ++ c :: b /\ ~ In c b /\ rfind s c = Z.of_nat (length a)).
Proof.
  unfold rfind. destruct (rfind_from_spec c s 0 (-1)) as [H | (a & b & H)].
  - left; exact H.
  - right; exists a, b. exact H.
Qed.

(** [splitext] cuts the string in two; the extension is empty or starts
    at the last dot. *)
Lemma splitext_spec (p : pystr) :
  fst (OsPath.splitext p) ++ snd (OsPath.splitext p) = p /\
  (snd (OsPath.splitext p) = [] \/
   exists rest, snd (OsPath.splitext p) = OsPath.extsep :: rest
                /\ ~ In OsPath.extsep rest).
Proof.
  unfold OsPath.splitext, OsPath._splitext.
  destruct (_ && _) eqn:Hc; simpl.
  - split; [apply firstn_skipn|].
    right. unfold slice_from.
    destruct (rfind_spec p OsPath.extsep) as [[Heq _] | (a & b & -> & Hb & Heq)].
    + apply andb_prop in Hc. destruct Hc as [Hgt _]. rewrite Heq in Hgt.
      destruct (rfind_spec p OsPath.sep) as [[Hs _] | (a & b & _ & _ & Hs)];
        rewrite Hs in Hgt; apply Z.gtb_lt in Hgt; lia.
    + rewrite Heq, Nat2Z.id. exists b.
      rewrite skipn_app, skipn_all, Nat.sub_diag. simpl. auto.
  - split; [apply app_nil_r | left; reflexivity].
Qed.

(** ** C3: the masking function *)

(** C3. For every filename, with [(name, ext) = os.path.splitext(filename)]
    (so [name ++ ext] is the filename and [ext] is empty or starts at the
    last dot): the [try] block returns without raising, the result is the
    first two characters of [name], the marker [***] and [ext]; a [name] of
    at most two characters is kept whole; and "report.pdf" gives
    "re***.pdf". *)
Theorem C3_get_masked_name (filename : pystr) :
  fst (OsPath.splitext filename) ++ snd (OsPath.splitext filename) = filename /\
  (snd (OsPath.splitext filename) = [] \/
   exists rest, snd (OsPath.splitext filename) = OsPath.extsep :: rest
                /\ ~ In OsPath.extsep rest) /\
  masked_name_body filename =
    Ok (firstn 2 (fst (OsPath.splitext filename)) ++ py "***"
        ++ snd (OsPath.splitext filename)) /\
  get_masked_name filename =
    firstn 2 (fst (OsPath.splitext filename)) ++ py "***"
    ++ snd (OsPath.splitext filename) /\
  ((length (fst (OsPath.splitext filename)) <= 2)%nat ->
   get_masked_name filename =
     fst (OsPath.splitext filename) ++ py "***" ++ snd (OsPath.splitext filename)) /\
  get_masked_name (py "report.pdf") = py "re***.pdf".
Proof.
  assert (Hbody : masked_name_body filename =
    Ok (firstn 2 (fst (OsPath.splitext filename)) ++ py "***"
        ++ snd (OsPath.splitext filename))).
  { unfold masked_name_body. destruct (OsPath.splitext filename) as [name ext].
    simpl fst; simpl snd. destruct (Nat.leb_spec (length name) 2) as [Hle|Hgt].
    - rewrite firstn_all2 by exact Hle. reflexivity.
    - reflexivity. }
  assert (Hget : get_masked_name filename =
    firstn 2 (fst (OsPath.splitext filename)) ++ py "***"
    ++ snd (OsPath.splitext filename)).
  { unfold get_masked_name. destruct filename as [|c s]; [reflexivity|].
    rewrite Hbody. reflexivity. }
  destruct (splitext_spec filename) as [Hcut Hext].
  repeat split; auto.
  - intros Hle. rewrite Hget, firstn_all2 by exact Hle. reflexivity.
Qed.

(** ** C4: the bounded event log *)

Lemma appendleft_firstn {A} (n : nat) (x : A) (l : list A) :
  (length l <= n)%nat -> appendleft n x l = firstn n (x :: l).
Proof.
  intros Hle. unfold appendleft.
  destruct (Nat.ltb_spec n (length (x :: l))) as [Hlt|Hge].
  - rewrite removelast_firstn_len. simpl length in *.
    replace (Nat.pred (S (length l))) with n by lia. reflexivity.
  - symmetry. apply firstn_all2. exact Hge.
Qed.

Lemma appendleft_length {A} (n : nat) (x : A) (l : list A) :
  (length l <= n)%nat -> (length (appendleft n x l) <= n)%nat.
Proof.
  intros Hle. rewrite appendleft_firstn by exact Hle. apply firstn_le_length.
Qed.

Lemma firstn_app_firstn {A} (n : nat) (a b : list A) :
  firstn n (a ++ firstn n b) = firstn n (a ++ b).
Proof.
  rewrite !firstn_app, firstn_firstn.
  replace (Nat.min (n - length a) n) with (n - length a)%nat by lia.
  reflexivity.
Qed.

Section EventLog.

Context {FS : FileSystem}.

Lemma add_event_run (type msg : pystr) (ip filename : option pystr)
    (e : env) (w : world) :
  add_event type msg ip filename e w =
  (Ok tt,
   mk_world
     (with_events (G w)
        (appendleft MAX_EVENTS (new_event (the_clock e) type msg ip filename)
           (EVENT_LOG (G w))))
     (D w) (trace w)).
Proof. reflexivity. Qed.

Lemma run_record_log (w : world) (op : record_op) :
  EVENT_LOG (G (run_record w op)) =
  appendleft MAX_EVENTS (event_of op) (EVENT_LOG (G w)).
Proof. reflexivity. Qed.

Lemma run_records_log (ops : list record_op) :
  forall w : world,
    (length (EVENT_LOG (G w)) <= MAX_EVENTS)%nat ->
    EVENT_LOG (G (run_records ops w)) =
    firstn MAX_EVENTS (rev (map event_of ops) ++ EVENT_LOG (G w)).
Proof.
  unfold run_records.
  induction ops as [|op ops IH]; intros w Hle; cbn [fold_left map rev app].
  - symmetry. apply firstn_all2. exact Hle.
  - rewrite IH.
    + rewrite run_record_log, appendleft_firstn by exact Hle.
      rewrite firstn_app_firstn, <- app_assoc. reflexivity.
    + rewrite run_record_log. apply appendleft_length. exact Hle.
Qed.

(** C4. Starting from a log within its capacity (the empty log at start-up
    is), after any sequence of [add_event] calls the log is the 50 most
    recent entries, newest first, so it never holds more than 50; a call
    on a full log drops its last (oldest) entry; and after 51 calls on the
    empty log the log is exactly the last 50 entries in reverse order of
    insertion, with the last-inserted at the head and the first-inserted,
    when it differs from the others, absent. *)
Theorem C4_event_log_bounded (ops : list record_op) (w : world) :
  (length (EVENT_LOG (G w)) <= MAX_EVENTS)%nat ->
  EVENT_LOG (G (run_records ops w)) =
    firstn MAX_EVENTS (rev (map event_of ops) ++ EVENT_LOG (G w)) /\
  (length (EVENT_LOG (G (run_records ops w))) <= 50)%nat /\
  (forall op, length (EVENT_LOG (G w)) = MAX_EVENTS ->
     EVENT_LOG (G (run_record w op)) =
       event_of op :: removelast (EVENT_LOG (G w))) /\
  (forall first middle newest,
     EVENT_LOG (G w) = [] ->
     ops = first :: middle ++ [newest] ->
     length middle = 49%nat ->
     EVENT_LOG (G (run_records ops w)) =
       rev (map event_of (middle ++ [newest])) /\
     hd_error (EVENT_LOG (G (run_records ops w))) = Some (event_of newest) /\
     (~ In (event_of first) (map event_of (middle ++ [newest])) ->
      ~ In (event_of first) (EVENT_LOG (G (run_records ops w))))).
Proof.
  intros Hle.
  assert (Hlog := run_records_log ops w Hle).
  split; [exact Hlog|]. split.
  { rewrite Hlog. apply firstn_le_length. }
  split.
  { intros op Hfull. rewrite run_record_log. unfold appendleft.
    destruct (EVENT_LOG (G w)) as [|ev log]; [discriminate Hfull|].
    destruct (Nat.ltb_spec MAX_EVENTS (length (event_of op :: ev :: log)))
      as [_|Hbad]; [reflexivity|].
    cbn [length] in Hbad, Hfull. lia. }
  intros first middle newest Hempty Hops Hlen.
  assert (Hfifty : EVENT_LOG (G (run_records ops w)) =
                   rev (map event_of (middle ++ [newest]))).
  { rewrite Hlog, Hempty, app_nil_r, Hops. cbn [map rev].
    rewrite firstn_app.
    rewrite firstn_all2
      by (rewrite length_rev, length_map, length_app; cbn [length];
          unfold MAX_EVENTS; lia).
    rewrite length_rev, length_map, length_app. cbn [length].
    replace (MAX_EVENTS - (length middle + 1))%nat with 0%nat
      by (unfold MAX_EVENTS; lia).
    cbn [firstn]. apply app_nil_r. }
  split; [exact Hfifty|]. split.
  - rewrite Hfifty, map_app, rev_app_distr. reflexivity.
  - intros Hnot Hin. apply Hnot. rewrite Hfifty in Hin.
    apply in_rev in Hin. exact Hin.
Qed.

End EventLog.

(** Unfolding of the plumbing of [M]. *)
Ltac monad_simpl :=
  cbv beta iota zeta
    delta [bind ret ask get_globals put_globals raise abort is_local_admin].

(** ** Dictionaries *)

Lemma get_set_same {V} (d : PyDict.dict V) (k : pystr) (v : V) :
  PyDict.get (PyDict.set d k v) k = Some v.
Proof.
  induction d as [|[k' v'] d IH]; simpl.
  - rewrite str_eqb_refl. reflexivity.
  - destruct (str_eqb k' k) eqn:E; simpl; rewrite E; auto.
Qed.

Lemma get_set_other {V} (d : PyDict.dict V) (k k' : pystr) (v : V) :
  k' <> k -> PyDict.get (PyDict.set d k v) k' = PyDict.get d k'.
Proof.
  intros Hne. induction d as [|[k0 v0] d IH]; simpl.
  - destruct (str_eqb_spec k k'); [congruence | reflexivity].
  - destruct (str_eqb_spec k0 k) as [->|Hk]; simpl.
    + destruct (str_eqb_spec k k'); [congruence | reflexivity].
    + destruct (str_eqb k0 k'); auto.
Qed.

Lemma keys_set {V} (d : PyDict.dict V) (k x : pystr) (v : V) :
  In x (PyDict.keys (PyDict.set d k v)) -> x = k \/ In x (PyDict.keys d).
Proof.
  unfold PyDict.keys. induction d as [|[k0 v0] d IH]; simpl.
  - intros [H|[]]; auto.
  - destruct (str_eqb_spec k0 k) as [->|Hne]; simpl.
    + tauto.
    + intros [H|H]; auto. destruct (IH H); auto.
Qed.

(** ** C6: recording activity *)

Section Presence.

Context {FS : FileSystem}.

Lemma record_activity_run (ip : pystr) (action device_type : option pystr)
    (e : env) (w : world) :
  record_activity ip action device_type e w =
  (Ok tt,
   mk_world
     (with_peers (G w)
        (record_activity_peers (datetime_now (the_clock e))
           (user_agent (the_request e)) ip action device_type
           (ACTIVE_PEERS (G w))))
     (D w) (trace w)).
Proof. reflexivity. Qed.

(** C6, as the code has it. For every call
    [record_activity(ip, action, device_type)]: the call returns, touches
    only ACTIVE_PEERS and only the entry of [ip]; if [ip] is unseen a new
    entry is inserted with [last_seen = now], action [idle] and expiry
    [now], whatever [action] is given; otherwise [last_seen] is set to
    [now] unconditionally and, when an action is given, the action is set
    to it and the expiry to [now] + 3 seconds (else both are kept). *)
Theorem C6_record_activity (ip : pystr) (action device_type : option pystr)
    (e : env) (w : world) :
  exists peers',
    record_activity ip action device_type e w =
      (Ok tt, mk_world (with_peers (G w) peers') (D w) (trace w)) /\
    (forall other, other <> ip ->
       PyDict.get peers' other = PyDict.get (ACTIVE_PEERS (G w)) other) /\
    match PyDict.get (ACTIVE_PEERS (G w)) ip with
    | None =>
        exists device,
          PyDict.get peers' ip =
            Some (mk_peer (datetime_now (the_clock e)) (py "idle")
                    (datetime_now (the_clock e)) device)
    | Some data =>
        exists data',
          PyDict.get peers' ip = Some data' /\
          p_last_seen data' = datetime_now (the_clock e) /\
          match action with
          | Some (c :: a) =>
              p_action data' = c :: a /\
              p_action_time data' =
                (datetime_now (the_clock e) + timedelta_seconds 3)%Z
          | _ =>
              p_action data' = p_action data /\
              p_action_time data' = p_action_time data
          end
    end.
Proof.
  eexists. split; [apply record_activity_run|]. split.
  - intros other Hne. unfold record_activity_peers.
    destruct (PyDict.get (ACTIVE_PEERS (G w)) ip);
      apply get_set_other; exact Hne.
  - unfold record_activity_peers.
    destruct (PyDict.get (ACTIVE_PEERS (G w)) ip) as [data|].
    + eexists. split; [apply get_set_same|].
      destruct action as [[|c a]|];
        (destruct device_type as [[|c' s']|];
         [destruct (get_device_type _)| |destruct (get_device_type _)]);
        simpl; auto.
    + eexists. apply get_set_same.
Qed.

End Presence.

(** C6 does not hold for a new address: the action given with the first
    call is not recorded, the new entry is idle. *)
Lemma C6_new_address_ignores_action :
  PyDict.get (ACTIVE_PEERS (G Sample.start)) Sample.peer_A = None /\
  ~ (exists data,
       PyDict.get
         (ACTIVE_PEERS
            (G (snd (record_activity Sample.peer_A (Some (py "upload")) None
                       (Sample.env_at (Sample.upload_request Sample.peer_A []) 1)
                       Sample.start))))
         Sample.peer_A = Some data /\
       p_action data = py "upload" /\
       p_action_time data = (1000000 + timedelta_seconds 3)%Z).
Proof.
  split; [reflexivity|].
  intros (data & Hget & Haction & _).
  vm_compute in Hget. injection Hget as <-. discriminate Haction.
Qed.

(** Served as a request, the upload of a new address does end with the
    action recorded: the [before_request] hook has inserted the entry
    before the view records the upload. *)
Example new_peer_upload_is_uploading :
  PyDict.get
    (ACTIVE_PEERS
       (G (snd (Sample.serve
                  (Sample.upload_request Sample.peer_A [(py "report.pdf", [])])
                  1 Sample.start))))
    Sample.peer_A
  = Some (mk_peer 1000000 (py "upload") 4000000 (py "desktop")).
Proof. vm_compute. reflexivity. Qed.

(** ** C1: the authorization gate *)

Section Gate.

Context {FS : FileSystem}.
Variables RELEASE_DIR RECEIVED_DIR : pystr.

(** C1. With [locked] set, a request that is not from the admin address
    and whose endpoint is not [static] gets the 403 "Maintenance Mode"
    error and leaves the whole world (ACTIVE_PEERS, EVENT_LOG, the disk) as
    it was: no view runs. The same request coming from the admin address
    is handed to its view, with nothing changed by the gate. *)
Theorem C1_locked_gate (e_peer e_admin : env) (w : world) :
  locked (SERVER_STATE (G w)) = true ->
  is_admin_addr (remote_addr (the_request e_peer)) = false ->
  is_admin_addr (remote_addr (the_request e_admin)) = true ->
  req_endpoint (the_request e_peer) <> Some ep_static ->
  req_endpoint (the_request e_admin) = req_endpoint (the_request e_peer) ->
  req_path (the_request e_admin) = req_path (the_request e_peer) ->
  full_dispatch_request RELEASE_DIR RECEIVED_DIR e_peer w =
    (ErrorPage 403 (Some (py "Maintenance Mode")), w) /\
  full_dispatch_request RELEASE_DIR RECEIVED_DIR e_admin w =
    finalize (dispatch_request RELEASE_DIR RECEIVED_DIR e_admin w).
Proof.
  intros Hlocked Hpeer Hadmin Hstatic _ _. split.
  - unfold full_dispatch_request, bind at 1.
    assert (Hgate : global_intercept e_peer w =
                    (Raise (HTTPException 403 (Some (py "Maintenance Mode"))), w)).
    { unfold global_intercept. monad_simpl.
      rewrite Hlocked, Hpeer. cbn [andb negb when]. monad_simpl.
      destruct (req_endpoint (the_request e_peer)) as [[]|];
        try reflexivity. congruence. }
    rewrite Hgate. reflexivity.
  - unfold full_dispatch_request, bind at 1.
    assert (Hgate : global_intercept e_admin w = (Ok tt, w)).
    { unfold global_intercept. monad_simpl.
      rewrite Hadmin. rewrite andb_false_r. cbn [negb when]. monad_simpl.
      unfold is_admin_addr in Hadmin.
      destruct (str_eqb (remote_addr (the_request e_admin)) (py "127.0.0.1"));
        [reflexivity|].
      cbn [orb] in Hadmin. rewrite Hadmin. reflexivity. }
    rewrite Hgate. reflexivity.
Qed.

End Gate.

(** ** C5: the liveness sweep *)

Lemma get_notin {V} (d : PyDict.dict V) (k : pystr) :
  ~ In k (PyDict.keys d) -> PyDict.get d k = None.
Proof.
  unfold PyDict.keys. induction d as [|[k0 v0] d IH]; simpl; intros Hnotin.
  - reflexivity.
  - destruct (str_eqb_spec k0 k) as [->|Hne]; [tauto|]. apply IH. tauto.
Qed.

Lemma get_del_same {V} (d : PyDict.dict V) (k : pystr) :
  NoDup (PyDict.keys d) -> PyDict.get (PyDict.del d k) k = None.
Proof.
  unfold PyDict.keys. induction d as [|[k0 v0] d IH]; simpl; intros Hnd.
  - reflexivity.
  - inversion Hnd as [|? ? Hnotin Hnd']; subst.
    destruct (str_eqb_spec k0 k) as [->|Hne].
    + apply get_notin, Hnotin.
    + simpl. destruct (str_eqb_spec k0 k); [congruence|]. apply IH, Hnd'.
Qed.

Lemma get_del_none {V} (d : PyDict.dict V) (k k' : pystr) :
  PyDict.get d k = None -> PyDict.get (PyDict.del d k') k = None.
Proof.
  induction d as [|[k0 v0] d IH]; simpl; [auto|].
  destruct (str_eqb k0 k) eqn:E; [discriminate|]. intros Hnone.
  destruct (str_eqb k0 k'); [exact Hnone|]. simpl. rewrite E. auto.
Qed.

Lemma keys_del_incl {V} (d : PyDict.dict V) (k x : pystr) :
  In x (PyDict.keys (PyDict.del d k)) -> In x (PyDict.keys d).
Proof.
  unfold PyDict.keys. induction d as [|[k0 v0] d IH]; simpl; [auto|].
  destruct (str_eqb k0 k); simpl; tauto.
Qed.

Lemma keys_del_nodup {V} (d : PyDict.dict V) (k : pystr) :
  NoDup (PyDict.keys d) -> NoDup (PyDict.keys (PyDict.del d k)).
Proof.
  induction d as [|[k0 v0] d IH]; simpl; intros Hnd; [constructor|].
  inversion Hnd as [|? ? Hnotin Hnd']; subst.
  destruct (str_eqb k0 k); [exact Hnd'|].
  simpl. constructor; [|apply IH, Hnd'].
  intros Hin. apply Hnotin. eapply keys_del_incl. exact Hin.
Qed.

Lemma get_fold_del_none {V} (l : list pystr) :
  forall (d : PyDict.dict V) (k : pystr),
    PyDict.get d k = None ->
    PyDict.get (fold_left (@PyDict.del V) l d) k = None.
Proof.
  induction l as [|a l IH]; intros d k Hnone; simpl; [exact Hnone|].
  apply IH, get_del_none, Hnone.
Qed.

Lemma get_fold_del {V} (l : list pystr) :
  forall (d : PyDict.dict V) (k : pystr),
    NoDup (PyDict.keys d) -> In k l ->
    PyDict.get (fold_left (@PyDict.del V) l d) k = None.
Proof.
  induction l as [|a l IH]; intros d k Hnd Hin; simpl; [destruct Hin|].
  destruct (str_eqb_spec a k) as [->|Hne].
  - apply get_fold_del_none, get_del_same, Hnd.
  - destruct Hin as [Heq|Hin]; [congruence|].
    apply IH; [apply keys_del_nodup, Hnd | exact Hin].
Qed.

Lemma get_in_filter {V} (f : V -> bool) (d : PyDict.dict V) (k : pystr) (v : V) :
  PyDict.get d k = Some v -> f v = true ->
  In k (map fst (filter (fun '(_, x) => f x) d)).
Proof.
  induction d as [|[k0 v0] d IH]; simpl; [discriminate|].
  destruct (str_eqb_spec k0 k) as [->|Hne].
  - intros [= ->] Hf. rewrite Hf. left; reflexivity.
  - intros Hget Hf. destruct (f v0); [right|]; auto.
Qed.

Lemma nodup_keys_filter {V} (f : pystr * V -> bool) (d : PyDict.dict V) :
  NoDup (map fst d) -> NoDup (map fst (filter f d)).
Proof.
  induction d as [|[k0 v0] d IH]; simpl; intros Hnd; [constructor|].
  inversion Hnd as [|? ? Hnotin Hnd']; subst.
  destruct (f (k0, v0)); [|auto].
  simpl. constructor; [|auto].
  intros Hin. apply Hnotin. apply in_map_iff in Hin.
  destruct Hin as (x & Hx & Hin). apply filter_In in Hin.
  apply in_map_iff. exists x. tauto.
Qed.

Lemma count_once (l : list pystr) (k : pystr) :
  NoDup l -> In k l ->
  length (filter (fun ip => str_eqb ip k) l) = 1%nat.
Proof.
  induction l as [|a l IH]; intros Hnd Hin; [destruct Hin|].
  inversion Hnd as [|? ? Hnotin Hnd']; subst. simpl.
  destruct (str_eqb_spec a k) as [->|Hne].
  - simpl. f_equal. clear IH Hin Hnd Hnd'.
    induction l as [|b l IH]; [reflexivity|]. simpl in *.
    destruct (str_eqb_spec b k) as [->|Hne]; [tauto|]. apply IH. tauto.
  - destruct Hin as [Heq|Hin]; [congruence|]. auto.
Qed.

Lemma timed_out_expire (now : Z) (data : peer) :
  timed_out now (expire_action now data) = timed_out now data.
Proof. unfold timed_out, expire_action. destruct (_ && _); reflexivity. Qed.

Lemma scan_fold (now : Z) (peers : PyDict.dict peer) :
  forall a b c,
    fold_left (scan_step now) peers (a, b, c) =
    (a ++ map (fun '(ip, data) => (ip, expire_action now data)) peers,
     b ++ sweep_leaves now peers,
     fold_left set_add
       (map fst (filter (fun '(_, data) => negb (timed_out now data)) peers)) c).
Proof.
  unfold sweep_leaves.
  induction peers as [|[ip data] peers IH]; intros a b c; cbn [fold_left].
  - cbn. rewrite !app_nil_r. reflexivity.
  - unfold scan_step at 2. rewrite timed_out_expire.
    cbn [map filter]. destruct (timed_out now data); cbn [negb map fst].
    + rewrite IH, <- !app_assoc. reflexivity.
    + rewrite IH, <- !app_assoc. reflexivity.
Qed.

Lemma scan_peers_spec (now : Z) (peers : PyDict.dict peer) :
  scan_peers now peers =
  (map (fun '(ip, data) => (ip, expire_action now data)) peers,
   sweep_leaves now peers, sweep_current now peers).
Proof. unfold scan_peers. rewrite scan_fold. reflexivity. Qed.

Lemma record_all_app (a b log : list event) :
  record_all (a ++ b) log = record_all b (record_all a log).
Proof. apply fold_left_app. Qed.

Lemma record_all_firstn (evs : list event) :
  forall log, (length log <= MAX_EVENTS)%nat ->
    record_all evs log = firstn MAX_EVENTS (rev evs ++ log).
Proof.
  unfold record_all.
  induction evs as [|ev evs IH]; intros log Hle; cbn [fold_left rev app].
  - symmetry. apply firstn_all2, Hle.
  - rewrite IH by (apply appendleft_length, Hle).
    rewrite appendleft_firstn by exact Hle.
    rewrite firstn_app_firstn, <- app_assoc. reflexivity.
Qed.

(** The keys of ACTIVE_PEERS stay distinct. *)
Lemma keys_set_nodup {V} (d : PyDict.dict V) (k : pystr) (v : V) :
  NoDup (PyDict.keys d) -> NoDup (PyDict.keys (PyDict.set d k v)).
Proof.
  induction d as [|[k0 v0] d IH]; simpl; intros Hnd.
  - constructor; [intros []|constructor].
  - inversion Hnd as [|? ? Hnotin Hnd']; subst.
    destruct (str_eqb_spec k0 k) as [->|Hne]; simpl.
    + constructor; assumption.
    + constructor; [|apply IH, Hnd'].
      intros Hin. destruct (keys_set _ _ _ _ Hin); [congruence|tauto].
Qed.

Lemma record_activity_peers_nodup (now : Z) (ua ip : pystr)
    (action device : option pystr) (peers : PyDict.dict peer) :
  NoDup (PyDict.keys peers) ->
  NoDup (PyDict.keys (record_activity_peers now ua ip action device peers)).
Proof.
  intros Hnd. unfold record_activity_peers.
  destruct (PyDict.get peers ip); apply keys_set_nodup, Hnd.
Qed.

Lemma fold_del_nodup {V} (l : list pystr) :
  forall d : PyDict.dict V,
    NoDup (PyDict.keys d) ->
    NoDup (PyDict.keys (fold_left (@PyDict.del V) l d)).
Proof.
  induction l as [|a l IH]; intros d Hnd; simpl; [exact Hnd|].
  apply IH, keys_del_nodup, Hnd.
Qed.

(** Iterating a set visits each of its elements once, in some order. *)
Lemma slot_insert_perm (slot : pystr -> Z) (x : pystr) (l : list pystr) :
  Permutation (slot_insert slot x l) (x :: l).
Proof.
  induction l as [|y l IH]; cbn [slot_insert]; [apply Permutation_refl|].
  destruct (slot x <=? slot y)%Z; [apply Permutation_refl|].
  apply (perm_trans (perm_skip y IH)). apply perm_swap.
Qed.

Lemma set_iter_perm (slot : pystr -> Z) (s : list pystr) :
  Permutation (set_iter slot s) s.
Proof.
  induction s as [|x s IH]; cbn [set_iter fold_right]; [constructor|].
  apply (perm_trans (slot_insert_perm slot x _)). apply perm_skip, IH.
Qed.

Lemma filter_perm {A} (f : A -> bool) (l l' : list A) :
  Permutation l l' -> Permutation (filter f l) (filter f l').
Proof.
  induction 1 as [|x l l' _ IH|x y l|l l' l'' _ IH1 _ IH2]; cbn [filter].
  - constructor.
  - destruct (f x); [apply perm_skip|]; exact IH.
  - destruct (f x), (f y); try apply Permutation_refl. apply perm_swap.
  - exact (perm_trans IH1 IH2).
Qed.

Lemma sweep_join_order_perm (e : env) (g : globals) :
  Permutation (sweep_join_order e g)
    (sweep_joins (datetime_now (the_clock e)) g).
Proof. apply filter_perm, set_iter_perm. Qed.

(** ** Every order of a set is the order of some slots *)

Lemma slot_insert_sorted (slot : pystr -> Z) (x : pystr) (l : list pystr) :
  StronglySorted (fun a b => (slot a <= slot b)%Z) l ->
  StronglySorted (fun a b => (slot a <= slot b)%Z) (slot_insert slot x l).
Proof.
  induction l as [|y l IH]; cbn [slot_insert]; intros Hs.
  - constructor; constructor.
  - inversion Hs as [|? ? Hs' Hall]; subst.
    destruct (Z.leb_spec (slot x) (slot y)) as [Hle|Hgt].
    + constructor; [exact Hs|].
      constructor; [exact Hle|].
      eapply Forall_impl; [|exact Hall]. intros a Ha. cbv beta in *. lia.
    + constructor; [apply IH, Hs'|].
      eapply Permutation_Forall;
        [apply Permutation_sym, slot_insert_perm|].
      constructor; [lia | exact Hall].
Qed.

Lemma set_iter_sorted (slot : pystr -> Z) (s : list pystr) :
  StronglySorted (fun a b => (slot a <= slot b)%Z) (set_iter slot s).
Proof.
  induction s as [|x s IH]; cbn [set_iter fold_right]; [constructor|].
  apply slot_insert_sorted, IH.
Qed.

Lemma index_of_nonneg (l : list pystr) (x : pystr) : (0 <= index_of l x)%Z.
Proof.
  induction l as [|y l IH]; cbn [index_of]; [lia|].
  destruct (str_eqb y x); lia.
Qed.

Lemma sorted_impl_in {A} (R R' : A -> A -> Prop) (l : list A) :
  StronglySorted R l ->
  (forall x y, In x l -> In y l -> R x y -> R' x y) ->
  StronglySorted R' l.
Proof.
  induction 1 as [|a l Hs IH Hall]; intros Himpl; constructor.
  - apply IH. intros x y Hx Hy. apply Himpl; right; assumption.
  - rewrite Forall_forall in *. intros y Hy.
    apply Himpl; [left; reflexivity | right; exact Hy | apply Hall, Hy].
Qed.

Lemma sorted_by_index (l : list pystr) :
  NoDup l ->
  StronglySorted (fun a b => (index_of l a < index_of l b)%Z) l.
Proof.
  induction l as [|a l IH]; intros Hnd; [constructor|].
  inversion Hnd as [|? ? Hnotin Hnd']; subst.
  assert (Hshift : forall x, In x l ->
            index_of (a :: l) x = (1 + index_of l x)%Z).
  { intros x Hin. cbn [index_of].
    destruct (str_eqb_spec a x) as [->|Hne]; [contradiction|reflexivity]. }
  assert (Hhead : index_of (a :: l) a = 0%Z)
    by (cbn [index_of]; rewrite str_eqb_refl; reflexivity).
  constructor.
  - apply (@sorted_impl_in _ _ _ _ (IH Hnd')). intros x y Hx Hy Hlt.
    rewrite (Hshift x Hx), (Hshift y Hy). lia.
  - rewrite Forall_forall. intros x Hin. rewrite Hhead, (Hshift x Hin).
    pose proof (index_of_nonneg l x). lia.
Qed.

Lemma sorted_perm_eq (slot : pystr -> Z) (l1 : list pystr) :
  forall l2,
    StronglySorted (fun a b => (slot a <= slot b)%Z) l1 ->
    StronglySorted (fun a b => (slot a < slot b)%Z) l2 ->
    Permutation l1 l2 -> l1 = l2.
Proof.
  induction l1 as [|a t1 IH]; intros l2 Hs1 Hs2 Hperm.
  - apply Permutation_nil in Hperm. congruence.
  - destruct l2 as [|b t2];
      [apply Permutation_sym, Permutation_nil in Hperm; discriminate|].
    inversion Hs1 as [|? ? Hs1' Hall1]; subst.
    inversion Hs2 as [|? ? Hs2' Hall2]; subst.
    rewrite Forall_forall in Hall1, Hall2.
    assert (Hab : a = b).
    { destruct (str_eqb_spec a b) as [Heq|Hne]; [exact Heq|]. exfalso.
      assert (Ha : In a t2).
      { destruct (Permutation_in a Hperm (or_introl eq_refl)) as [Hb|Hin];
          [congruence | exact Hin]. }
      assert (Hb : In b t1).
      { destruct (Permutation_in b (Permutation_sym Hperm) (or_introl eq_refl))
          as [Ha'|Hin]; [congruence | exact Hin]. }
      specialize (Hall1 b Hb). specialize (Hall2 a Ha). lia. }
    subst b. f_equal. apply IH; [exact Hs1' | exact Hs2'|].
    apply (Permutation_cons_inv Hperm).
Qed.

(** The model of the iteration leaves the order open: whatever order
    [order] of the elements of the set [s] the interpreter takes, it is
    the order of the slots [index_of order]. *)
Lemma set_iter_any_order (s order : list pystr) :
  NoDup order -> Permutation s order ->
  set_iter (index_of order) s = order.
Proof.
  intros Hnd Hperm. apply (@sorted_perm_eq (index_of order)).
  - apply set_iter_sorted.
  - apply sorted_by_index, Hnd.
  - apply (perm_trans (set_iter_perm _ s) Hperm).
Qed.

Section Sweep.

Context {FS : FileSystem}.

Lemma remove_loop_run (e : env) (l : list pystr) :
  forall w : world,
    for_each l remove_peer e w =
    (Ok tt,
     mk_world
       (mk_globals (SERVER_STATE (G w))
          (fold_left (@PyDict.del peer) l (ACTIVE_PEERS (G w)))
          (record_all (map (leave_event (the_clock e)) l) (EVENT_LOG (G w)))
          (LAST_ONLINE_IPS (G w)))
       (D w) (trace w)).
Proof.
  induction l as [|ip l IH]; intros w; cbn [for_each].
  - destruct w as [[] ? ?]; reflexivity.
  - unfold bind at 1. unfold remove_peer at 1. monad_simpl.
    rewrite add_event_run. cbv beta iota. rewrite IH. reflexivity.
Qed.

Lemma join_loop_run (e : env) (l : list pystr) :
  forall w : world,
    for_each l announce_join e w =
    (Ok tt,
     mk_world
       (with_events (G w)
          (record_all
             (map (join_event (the_clock e))
                (filter (fun ip => negb (str_eqb ip (py "127.0.0.1"))) l))
             (EVENT_LOG (G w))))
       (D w) (trace w)).
Proof.
  induction l as [|ip l IH]; intros w; cbn [for_each filter].
  - destruct w as [[] ? ?]; reflexivity.
  - unfold bind at 1. unfold announce_join at 1.
    destruct (negb (str_eqb ip (py "127.0.0.1"))); cbn [when].
    + rewrite add_event_run. rewrite IH. reflexivity.
    + monad_simpl. rewrite IH. reflexivity.
Qed.

(** What one sweep does to the world. *)
Lemma check_peers_lifecycle_run (e : env) (w : world) :
  check_peers_lifecycle e w =
  (Ok tt,
   mk_world
     (mk_globals (SERVER_STATE (G w))
        (fold_left (@PyDict.del peer)
           (sweep_leaves (datetime_now (the_clock e)) (ACTIVE_PEERS (G w)))
           (map (fun '(ip, data) =>
                   (ip, expire_action (datetime_now (the_clock e)) data))
              (ACTIVE_PEERS (G w))))
        (record_all (sweep_events e (G w)) (EVENT_LOG (G w)))
        (sweep_current (datetime_now (the_clock e)) (ACTIVE_PEERS (G w))))
     (D w) (trace w)).
Proof.
  unfold check_peers_lifecycle. monad_simpl.
  rewrite scan_peers_spec. cbv beta iota.
  rewrite remove_loop_run. cbv beta iota.
  rewrite join_loop_run. cbv beta iota.
  unfold sweep_events, sweep_joins. rewrite record_all_app. reflexivity.
Qed.

Lemma keys_map_values {V W} (f : pystr * V -> pystr * W) (d : PyDict.dict V) :
  (forall kv, fst (f kv) = fst kv) -> PyDict.keys (map f d) = PyDict.keys d.
Proof.
  intros Hf. unfold PyDict.keys. rewrite map_map. apply map_ext. exact Hf.
Qed.

Lemma leave_count (c : clock) (P : pystr) (l : list pystr) :
  length (filter (is_leave_of P) (map (leave_event c) l)) =
  length (filter (fun ip => str_eqb ip P) l).
Proof.
  induction l as [|ip l IH]; [reflexivity|]. cbn [map filter].
  change (is_leave_of P (leave_event c ip)) with (str_eqb ip P).
  destruct (str_eqb ip P); cbn [length]; rewrite IH; reflexivity.
Qed.

Lemma join_count (c : clock) (P : pystr) (l : list pystr) :
  filter (is_leave_of P) (map (join_event c) l) = [].
Proof. induction l as [|ip l IH]; [reflexivity|]. exact IH. Qed.

Lemma sweep_keeps_keys_distinct (e : env) (w : world) :
  NoDup (PyDict.keys (ACTIVE_PEERS (G w))) ->
  NoDup (PyDict.keys (ACTIVE_PEERS (G (snd (check_peers_lifecycle e w))))).
Proof.
  intros Hnd. rewrite check_peers_lifecycle_run. cbn [snd G ACTIVE_PEERS].
  apply fold_del_nodup. rewrite keys_map_values; [exact Hnd|].
  intros [k v]; reflexivity.
Qed.

(** C5. Let [P] be in the registry (a dictionary, so its keys are
    distinct) with [last_seen] more than 8 seconds before the instant of
    the sweep, which is the case when no request from [P] has arrived for
    that long. Then the sweep returns, [P] is no longer in the registry,
    and the sweep has recorded its events: a [leave] for every timed-out
    peer, in the order of the registry, then a [join] for every address of
    [sweep_joins], in the order in which the set of new addresses happens
    to be iterated. Exactly one of these events is a [leave] event for
    [P]. When the log was within its capacity it now holds the 50 most
    recent of these events and of the older entries. *)
Theorem C5_sweep_removes_stale_peer (e : env) (w : world) (P : pystr)
    (data : peer) :
  NoDup (PyDict.keys (ACTIVE_PEERS (G w))) ->
  PyDict.get (ACTIVE_PEERS (G w)) P = Some data ->
  (datetime_now (the_clock e) - p_last_seen data > timedelta_seconds 8)%Z ->
  exists g' joins,
    check_peers_lifecycle e w = (Ok tt, mk_world g' (D w) (trace w)) /\
    PyDict.get (ACTIVE_PEERS g') P = None /\
    Permutation joins (sweep_joins (datetime_now (the_clock e)) (G w)) /\
    sweep_events e (G w) =
      map (leave_event (the_clock e))
        (sweep_leaves (datetime_now (the_clock e)) (ACTIVE_PEERS (G w)))
      ++ map (join_event (the_clock e)) joins /\
    EVENT_LOG g' = record_all (sweep_events e (G w)) (EVENT_LOG (G w)) /\
    length (filter (is_leave_of P) (sweep_events e (G w))) = 1%nat /\
    ((length (EVENT_LOG (G w)) <= MAX_EVENTS)%nat ->
     EVENT_LOG g' =
       firstn MAX_EVENTS (rev (sweep_events e (G w)) ++ EVENT_LOG (G w))).
Proof.
  intros Hnd Hget Hold.
  assert (Hstale : timed_out (datetime_now (the_clock e)) data = true).
  { unfold timed_out. apply Z.gtb_lt. change PEER_TIMEOUT with 8%Z. lia. }
  assert (Hin : In P (sweep_leaves (datetime_now (the_clock e))
                        (ACTIVE_PEERS (G w)))).
  { unfold sweep_leaves.
    apply (get_in_filter (timed_out (datetime_now (the_clock e))) _ _ Hget Hstale). }
  eexists. exists (sweep_join_order e (G w)).
  split; [apply check_peers_lifecycle_run|].
  cbn [ACTIVE_PEERS EVENT_LOG].
  split; [|split; [apply sweep_join_order_perm|split; [reflexivity|
           split; [reflexivity|split]]]].
  - apply get_fold_del; [|exact Hin].
    rewrite keys_map_values; [exact Hnd|]. intros [k v]; reflexivity.
  - unfold sweep_events. rewrite filter_app, join_count, app_nil_r, leave_count.
    apply count_once; [|exact Hin].
    unfold sweep_leaves. apply nodup_keys_filter. exact Hnd.
  - intros Hle. apply record_all_firstn. exact Hle.
Qed.

End Sweep.

(** ** C2: the privacy filter *)

Lemma ip_differs_spec (ip : option pystr) (viewer : pystr) :
  ip_differs ip viewer = true <-> ip <> Some viewer.
Proof.
  destruct ip as [a|]; simpl.
  - destruct (str_eqb_spec a viewer); simpl; split; congruence.
  - split; congruence.
Qed.

Lemma truthy_spec (o : option pystr) :
  truthy o = true <-> exists name, o = Some name /\ name <> [].
Proof.
  destruct o as [[|c s]|]; simpl; split; try discriminate.
  - intros (name & [= <-] & Hne). congruence.
  - intros _. exists (c :: s). split; congruence.
  - intros _. reflexivity.
  - intros (name & Hsome & _). discriminate.
Qed.

(** The view of one event is its masked copy when the four conditions
    hold together and its plain copy otherwise. *)
Lemma client_safe_event_cases (should_mask : bool) (viewer : pystr) (ev : event) :
  client_safe_event should_mask viewer ev =
  if should_mask && ip_differs (ev_ip ev) viewer && truthy (ev_filename ev)
  then masked_copy ev (match ev_filename ev with Some name => name | None => [] end)
  else event_copy ev.
Proof.
  unfold client_safe_event.
  destruct (should_mask && ip_differs (ev_ip ev) viewer && truthy (ev_filename ev));
    reflexivity.
Qed.

Lemma masked_copy_differs (ev : event) (name : pystr) :
  masked_copy ev name <> event_copy ev.
Proof. intros H. apply (f_equal (@length _)) in H. discriminate H. Qed.

Section Privacy.

Context {FS : FileSystem}.

(** C2. The status response lists, for every entry of the log after the
    sweep, its view for the requesting address. The view of an event is
    masked (the message with the filename replaced by its masked form and
    the [filename] key removed) if and only if the viewer is not admin,
    file pool mode is off, the event carries a filename (a non-empty
    string) and the actor of the event is not the viewer; otherwise the
    view is the plain copy of the event. So an event of the viewer itself
    is never masked, nor is any event when file pool mode is on or the
    viewer is admin. *)
Theorem C2_masking_iff (e : env) (w : world) :
  exists w' body,
    api_status e w = (Ok (Jsonify 200 (JDict body)), w') /\
    file_pool (SERVER_STATE (G w')) = file_pool (SERVER_STATE (G w)) /\
    PyDict.get body (py "events") =
      Some (JList
              (map (fun ev =>
                      JDict (client_safe_event
                               (negb (is_admin_addr (remote_addr (the_request e)))
                                && negb (file_pool (SERVER_STATE (G w))))
                               (remote_addr (the_request e)) ev))
                 (EVENT_LOG (G w')))) /\
    forall ev,
      ((exists name,
          ev_filename ev = Some name /\
          client_safe_event
            (negb (is_admin_addr (remote_addr (the_request e)))
             && negb (file_pool (SERVER_STATE (G w))))
            (remote_addr (the_request e)) ev = masked_copy ev name)
       <->
       (is_admin_addr (remote_addr (the_request e)) = false /\
        file_pool (SERVER_STATE (G w)) = false /\
        (exists name, ev_filename ev = Some name /\ name <> []) /\
        ev_ip ev <> Some (remote_addr (the_request e)))) /\
      (~ (is_admin_addr (remote_addr (the_request e)) = false /\
          file_pool (SERVER_STATE (G w)) = false /\
          (exists name, ev_filename ev = Some name /\ name <> []) /\
          ev_ip ev <> Some (remote_addr (the_request e))) ->
       client_safe_event
         (negb (is_admin_addr (remote_addr (the_request e)))
          && negb (file_pool (SERVER_STATE (G w))))
         (remote_addr (the_request e)) ev = event_copy ev) /\
      (forall name, PyDict.get (masked_copy ev name) (py "filename") = None) /\
      (ev_ip ev = Some (remote_addr (the_request e)) \/
       file_pool (SERVER_STATE (G w)) = true \/
       is_admin_addr (remote_addr (the_request e)) = true ->
       client_safe_event
         (negb (is_admin_addr (remote_addr (the_request e)))
          && negb (file_pool (SERVER_STATE (G w))))
         (remote_addr (the_request e)) ev = event_copy ev).
Proof.
  unfold api_status. monad_simpl. rewrite check_peers_lifecycle_run.
  cbv beta iota. cbn [G SERVER_STATE EVENT_LOG ACTIVE_PEERS].
  eexists. eexists. split; [reflexivity|]. split; [reflexivity|].
  split; [reflexivity|].
  intros ev.
  set (viewer := remote_addr (the_request e)).
  set (adm := is_admin_addr viewer).
  set (pool := file_pool (SERVER_STATE (G w))).
  assert (Hcond :
    negb adm && negb pool && ip_differs (ev_ip ev) viewer && truthy (ev_filename ev)
      = true <->
    (adm = false /\ pool = false /\
     (exists name, ev_filename ev = Some name /\ name <> []) /\
     ev_ip ev <> Some viewer)).
  { rewrite !andb_true_iff, !negb_true_iff, ip_differs_spec, truthy_spec. tauto. }
  rewrite client_safe_event_cases.
  destruct (negb adm && negb pool && ip_differs (ev_ip ev) viewer
            && truthy (ev_filename ev)) eqn:Hc.
  - assert (Hyes := proj1 Hcond eq_refl).
    destruct Hyes as (Hadm & Hpool & (name & Hname & Hne) & Hip).
    repeat split; auto.
    + exists name; auto.
    + exists name. rewrite Hname. auto.
    + intros Hnot. exfalso. apply Hnot. repeat split; auto. exists name; auto.
    + intros [Hown | [Hp | Ha]]; congruence.
  - assert (Hno : ~ (adm = false /\ pool = false /\
                     (exists name, ev_filename ev = Some name /\ name <> []) /\
                     ev_ip ev <> Some viewer)).
    { intros H. apply Hcond in H. discriminate H. }
    split; [split|split; [|split]].
    + intros (name & _ & Heq). symmetry in Heq.
      exfalso. exact (masked_copy_differs Heq).
    + intros H. exfalso. exact (Hno H).
    + reflexivity.
    + reflexivity.
    + reflexivity.
Qed.

End Privacy.

(** ** Reasoning about computations *)

Section Wp.

Context {FS : FileSystem}.

Lemma wp_bind {A B} (m : M A) (k : A -> M B) (e : env) (w : world)
    (Q : result B * world -> Prop) :
  wp m e w (fun rw =>
    match rw with
    | (Ok a, w1) => wp (k a) e w1 Q
    | (Raise x, w1) => Q (Raise x, w1)
    end) ->
  wp (bind m k) e w Q.
Proof. unfold wp, bind. destruct (m e w) as [[a|x] w1]; auto. Qed.

Lemma wp_weaken {A} (m : M A) (e : env) (w : world)
    (P Q : result A * world -> Prop) :
  wp m e w P -> (forall rw, P rw -> Q rw) -> wp m e w Q.
Proof. unfold wp. auto. Qed.

Lemma wp_exists {A} (m : M A) (e : env) (w : world)
    (P : result A -> world -> Prop) :
  wp m e w (fun rw => P (fst rw) (snd rw)) ->
  exists r w', m e w = (r, w') /\ P r w'.
Proof.
  unfold wp. intros H. exists (fst (m e w)), (snd (m e w)).
  split; [apply surjective_pairing | exact H].
Qed.

Lemma when_record_run (b : bool) (ip : pystr) (action device : option pystr)
    (e : env) (w : world) :
  exists w1,
    when b (record_activity ip action device) e w = (Ok tt, w1) /\
    EVENT_LOG (G w1) = EVENT_LOG (G w) /\ D w1 = D w.
Proof.
  destruct b; cbn [when].
  - rewrite record_activity_run. eexists. split; [reflexivity|]. split; reflexivity.
  - exists w. split; [reflexivity|]. split; reflexivity.
Qed.

Lemma wp_try {A} (m : M A) (h : exn -> M A) (e : env) (w : world)
    (Q : result A * world -> Prop) :
  wp m e w (fun rw =>
    match rw with
    | (Ok a, w1) => Q (Ok a, w1)
    | (Raise x, w1) => wp (h x) e w1 Q
    end) ->
  wp (try_except m h) e w Q.
Proof. unfold wp, try_except. destruct (m e w) as [[a|x] w1]; auto. Qed.

End Wp.

(** One step through a [bind] whose first computation is a primitive:
    the primitive is run, the continuation is left alone. *)
Ltac wp_prim :=
  apply wp_bind; unfold wp at 1;
  lazymatch goal with
  | |- (let (_, _) := ?m ?e ?w in _) =>
      let v := eval cbv beta iota zeta
                 delta [ask get_globals put_globals ret is_local_admin bind
                        fs_query fs_try fs_update raise abort when negb
                        os_path_exists os_path_isfile os_path_isdir os_listdir
                        os_path_getsize os_path_getmtime os_makedirs os_remove
                        os_rmdir file_save read_file send_from_directory
                        add_event record_activity] in (m e w) in
      change (m e w) with v; cbv beta iota; cbn [G D trace]
  end.

Lemma last_cons {A} (a d : A) (l : list A) : last (a :: l) d = last l a.
Proof.
  revert a d. induction l as [|b l IH]; intros a d; [reflexivity|].
  change (last (a :: b :: l) d) with (last (b :: l) d).
  rewrite (IH b d), (IH b a). reflexivity.
Qed.

(** ** C10: the event of an upload *)

Section Upload.

Context {FS : FileSystem}.
Variables RELEASE_DIR RECEIVED_DIR : pystr.

(** The loop over the uploaded files touches only the disk: it counts the
    files with a name and remembers the last of them, or stops at the
    first write that fails. *)
Lemma save_upload_loop (save_dir : pystr) (e : env)
    (files : list (pystr * bytes)) :
  forall (saved_count : Z) (last_file : pystr) (w : world),
    wp (for_fold files (saved_count, last_file) (save_upload save_dir)) e w
      (fun rw =>
         G (snd rw) = G w /\
         match fst rw with
         | Ok (saved_count', last_file') =>
             saved_count' =
               (saved_count + Z.of_nat (length (saved_names files)))%Z /\
             last_file' = last (saved_names files) last_file
         | Raise x =>
             exists filename data,
               In (filename, data) files /\
               fs_save (D (snd rw))
                 (upload_path (D (snd rw)) save_dir (the_clock e) filename)
                 data = Raise x
         end).
Proof.
  induction files as [|[filename data] files IH];
    intros saved_count last_file w.
  - unfold wp. cbn. split; [reflexivity|]. split; [lia|reflexivity].
  - cbn [for_fold]. apply wp_bind. unfold wp at 1.
    destruct filename as [|c s].
    + cbn [save_upload]. unfold ret at 1.
      eapply wp_weaken; [apply IH|].
      intros [r w'] [HG Hr]. cbn [fst snd] in *. split; [exact HG|].
      destruct r as [[n l]|x]; [exact Hr|].
      destruct Hr as (filename & data' & Hin & Hsave).
      exists filename, data'. split; [right; exact Hin | exact Hsave].
    + unfold save_upload, bind, ask, os_path_exists, fs_query, file_save,
        fs_update, ret.
      cbv beta iota zeta. cbn [D G trace].
      destruct (fs_save _ _ _) as [d'|x] eqn:Hsave.
      * eapply wp_weaken; [apply IH|].
        intros [r w'] [HG Hr]. cbn [fst snd G] in *. split; [exact HG|].
        destruct r as [[n l]|x].
        -- destruct Hr as [-> ->]. unfold saved_names.
           cbn [map fst filter length].
           rewrite last_cons. split; [lia|reflexivity].
        -- destruct Hr as (filename & data' & Hin & Hsave').
           exists filename, data'. split; [right; exact Hin | exact Hsave'].
      * cbn [fst snd G D]. split; [reflexivity|].
        exists (c :: s), data. split; [left; reflexivity|].
        unfold upload_path. exact Hsave.
Qed.


End Upload.

(** A computation that ends in [send_from_directory], [abort] or [ret]:
    both outcomes are considered. *)
Ltac wp_leaf :=
  unfold wp, send_from_directory, abort, raise, ret; cbv beta iota;
  try destruct (fs_send_from_directory _ _ _);
  cbn [fst snd G D trace EVENT_LOG with_events]; try reflexivity.

(** The scrutinee on which a computation that was run is stuck. *)
Ltac stuck_on t :=
  lazymatch t with
  | match ?x with _ => _ end => stuck_on x
  | (match ?x with _ => _ end) _ _ => stuck_on x
  | _ => destruct t
  end.

(** Running a computation to its ends, splitting on every test and on
    every outcome of a filesystem call. *)
Ltac wp_run :=
  repeat first
    [ progress cbv beta iota
    | lazymatch goal with
      | |- wp (bind _ _) _ _ _ => wp_prim
      | |- wp (try_except _ _) _ _ _ => apply wp_try
      | |- wp (match ?x with _ => _ end) _ _ _ => stuck_on x
      | |- wp (ret _) _ _ _ => unfold wp at 1, ret
      | |- wp (raise _) _ _ _ => unfold wp at 1, raise
      | |- wp (abort _ _) _ _ _ => unfold wp at 1, abort, raise
      | |- (let (_, _) := ?t in _) => stuck_on t
      | |- match ?t with _ => _ end => stuck_on t
      end ].

(** ** C9: events of file operations *)

Section Downloads.

Context {FS : FileSystem}.
Variables RELEASE_DIR RECEIVED_DIR : pystr.

(** [download_file] records its event before it looks for the file: for
    every name that passes the first check, whatever the outcome, the log
    has gained the [download] event. *)
Lemma download_records_first (filename : pystr) (e : env) (w : world) :
  contains filename (py "..") || startswith filename (py "/") = false ->
  exists r w',
    download_file RELEASE_DIR RECEIVED_DIR filename e w = (r, w') /\
    EVENT_LOG (G w') =
      appendleft MAX_EVENTS (download_event e filename) (EVENT_LOG (G w)).
Proof.
  intros Hguard. apply wp_exists. unfold download_file. rewrite Hguard.
  wp_prim. wp_prim.
  apply wp_bind. unfold wp at 1.
  destruct (when_record_run
              (negb (str_eqb (remote_addr (the_request e)) (py "127.0.0.1")))
              (remote_addr (the_request e)) (Some (py "download")) None e w)
    as (w1 & -> & Hlog1 & HD1).
  cbv beta iota. wp_prim. rewrite Hlog1. unfold download_event.
  destruct (startswith filename (py "__release__/")); [wp_leaf|].
  wp_prim. destruct (fs_exists _ _); [wp_leaf|].
  wp_prim. wp_prim.
  destruct (is_admin_addr _ || _); [|wp_leaf].
  destruct (split1 OsPath.sep filename) as [|part0 [|part1 [|? ?]]];
    try wp_leaf.
  wp_prim. destruct (fs_exists _ _); wp_leaf.
Qed.

(** A name with a parent-directory segment or a leading slash is refused
    by [download_file] before anything else happens. *)
Lemma download_rejects_traversal (filename : pystr) (e : env) (w : world) :
  contains filename (py "..") || startswith filename (py "/") = true ->
  download_file RELEASE_DIR RECEIVED_DIR filename e w =
    (Raise (HTTPException 404 None), w).
Proof.
  intros Hguard. unfold download_file. rewrite Hguard. reflexivity.
Qed.

End Downloads.

Section Deletes.

Context {FS : FileSystem}.
Variables RELEASE_DIR RECEIVED_DIR : pystr.

(** [delete_file] records its event only when it answers with success:
    in every other case (no permission, no such file, a failing
    filesystem call) the log is as it was. *)
Lemma delete_records_on_success (e : env) (w : world) :
  exists r w',
    delete_file RELEASE_DIR RECEIVED_DIR e w = (r, w') /\
    (r = Ok (Jsonify 200 (JDict [(py "success", JBool true)])) \/
     EVENT_LOG (G w') = EVENT_LOG (G w)).
Proof.
  apply wp_exists. unfold delete_file.
  wp_run.
  all: cbn [fst snd G EVENT_LOG with_events]; auto.
Qed.

End Deletes.

(** C9, at the failing input. Peer 192.168.1.5 asks for [nosuch.txt], which
    is nowhere on the disk: the answer is NotFound (404), yet the log,
    empty before, now holds the event "下载了 nosuch.txt". *)
Theorem C9_failed_download_is_logged :
  EVENT_LOG (G Sample.start) = [] /\
  MemFS.exists_ (D Sample.start) (py "release/nosuch.txt") = false /\
  fst (Sample.serve (Sample.download_request Sample.peer_A (py "nosuch.txt")) 1
         Sample.start) = ErrorPage 404 None /\
  EVENT_LOG
    (G (snd (Sample.serve
               (Sample.download_request Sample.peer_A (py "nosuch.txt")) 1
               Sample.start))) =
    [mk_event 1000000 (py "00:00:01") (py "download") (py "下载了 nosuch.txt")
       (Some Sample.peer_A) (Some (py "nosuch.txt"))].
Proof. repeat split; vm_compute; reflexivity. Qed.

(** ** C7: path traversal *)

(** C7, at the failing inputs. Peer 192.168.1.5 uploads a file named
    [../evil.txt]: the name contains a parent-directory segment, the
    request is answered with success, the file is written through the path
    [received/192.168.1.5/../evil.txt] and lands in [received], outside
    the directory of the peer. Likewise the admin's deletion of the
    [received] path [../release/secret.txt] removes a file of the release
    directory. *)
Theorem C7_upload_and_delete_follow_parent_segments :
  contains (py "../evil.txt") (py "..") = true /\
  fst (Sample.serve
         (Sample.upload_request Sample.peer_A [(py "../evil.txt", [1%N])]) 1
         Sample.start) =
    Jsonify 200 (JDict [(py "message", JStr (py "成功上传 1 个文件"))]) /\
  trace (snd (Sample.serve
                (Sample.upload_request Sample.peer_A [(py "../evil.txt", [1%N])]) 1
                Sample.start)) =
    [c_exists (py "received/192.168.1.5");
     c_makedirs (py "received/192.168.1.5");
     c_exists (py "received/192.168.1.5/../evil.txt");
     c_save (py "received/192.168.1.5/../evil.txt")] /\
  MemFS.read
    (D (snd (Sample.serve
               (Sample.upload_request Sample.peer_A [(py "../evil.txt", [1%N])]) 1
               Sample.start)))
    (py "received/evil.txt") = Ok [1%N] /\
  MemFS.isfile
    (D (snd (Sample.serve
               (Sample.upload_request Sample.admin [(py "secret.txt", [2%N])]) 1
               Sample.start)))
    (py "release/secret.txt") = true /\
  fst (Sample.serve
         (Sample.delete_request Sample.admin (py "received")
            (py "../release/secret.txt")) 2
         (snd (Sample.serve
                 (Sample.upload_request Sample.admin [(py "secret.txt", [2%N])]) 1
                 Sample.start))) =
    Jsonify 200 (JDict [(py "success", JBool true)]) /\
  MemFS.exists_
    (D (snd (Sample.serve
               (Sample.delete_request Sample.admin (py "received")
                  (py "../release/secret.txt")) 2
               (snd (Sample.serve
                       (Sample.upload_request Sample.admin
                          [(py "secret.txt", [2%N])]) 1
                       Sample.start)))))
    (py "release/secret.txt") = false.
Proof. repeat split; vm_compute; reflexivity. Qed.

(** ** C8: the listing of received files *)

Section SortDesc.

Variable A : Type.
Variable key : A -> Z.

Lemma insert_desc_perm (x : A) (l : list A) :
  Permutation (insert_desc key x l) (x :: l).
Proof.
  induction l as [|y l IH]; simpl; [apply Permutation_refl|].
  destruct (key x <? key y)%Z.
  - apply perm_trans with (y :: x :: l); [apply perm_skip, IH | apply perm_swap].
  - apply Permutation_refl.
Qed.

Lemma sort_desc_perm (l : list A) : Permutation (sort_desc key l) l.
Proof.
  induction l as [|x l IH]; simpl; [apply perm_nil|].
  apply perm_trans with (x :: sort_desc key l);
    [apply insert_desc_perm | apply perm_skip, IH].
Qed.

Lemma insert_desc_sorted (x : A) (l : list A) :
  StronglySorted (ge_key key) l -> StronglySorted (ge_key key) (insert_desc key x l).
Proof.
  induction l as [|y l IH]; simpl; intros Hs.
  - constructor; constructor.
  - inversion Hs as [|? ? Hs' Hall]; subst.
    destruct (Z.ltb_spec (key x) (key y)) as [Hlt|Hge].
    + constructor; [apply IH, Hs'|].
      eapply Permutation_Forall;
        [apply Permutation_sym, insert_desc_perm|].
      constructor; [unfold ge_key; lia | exact Hall].
    + constructor; [exact Hs|].
      constructor; [unfold ge_key; lia|].
      eapply Forall_impl; [|exact Hall].
      intros a Ha. unfold ge_key in *. lia.
Qed.

Lemma sort_desc_sorted (l : list A) : StronglySorted (ge_key key) (sort_desc key l).
Proof.
  induction l as [|x l IH]; simpl; [constructor|].
  apply insert_desc_sorted, IH.
Qed.

End SortDesc.

Section Groups.

Context {FS : FileSystem}.
Variables RELEASE_DIR RECEIVED_DIR : pystr.
Variable d : disk.

#[local] Abbreviation add := (add_group RECEIVED_DIR d).
#[local] Abbreviation group k :=
  (sort_desc upload_time (peer_uploads RECEIVED_DIR d k)).

Lemma groups_keep (l : list pystr) :
  forall s k,
    PyDict.get s k = Some (group k) ->
    PyDict.get (fold_left add l s) k = Some (group k).
Proof.
  induction l as [|a l IH]; intros s k Hget; simpl; [exact Hget|].
  apply IH. unfold add_group. destruct (has_uploads RECEIVED_DIR d a); [|exact Hget].
  destruct (str_eqb_spec k a) as [->|Hne].
  - apply get_set_same.
  - rewrite get_set_other by exact Hne. exact Hget.
Qed.

Lemma groups_hit (l : list pystr) :
  forall s k,
    In k l -> has_uploads RECEIVED_DIR d k = true ->
    PyDict.get (fold_left add l s) k = Some (group k).
Proof.
  induction l as [|a l IH]; intros s k Hin Hup; [destruct Hin|].
  simpl. destruct Hin as [->|Hin]; [|apply IH; assumption].
  apply groups_keep. unfold add_group. rewrite Hup. apply get_set_same.
Qed.

Lemma groups_miss (l : list pystr) :
  forall s k,
    (forall a, In a l -> has_uploads RECEIVED_DIR d a = true -> a <> k) ->
    PyDict.get (fold_left add l s) k = PyDict.get s k.
Proof.
  induction l as [|a l IH]; intros s k Hmiss; simpl; [reflexivity|].
  rewrite IH by (intros b Hb; apply Hmiss; right; exact Hb).
  unfold add_group. destruct (has_uploads RECEIVED_DIR d a) eqn:Hup; [|reflexivity].
  apply get_set_other. intros ->. apply (Hmiss a); [left; reflexivity|exact Hup|reflexivity].
Qed.

Lemma groups_keys (l : list pystr) :
  forall s k,
    In k (PyDict.keys (fold_left add l s)) ->
    In k (PyDict.keys s) \/ (In k l /\ has_uploads RECEIVED_DIR d k = true).
Proof.
  induction l as [|a l IH]; intros s k Hin; simpl in Hin; [left; exact Hin|].
  destruct (IH _ _ Hin) as [Hs|[Hl Hup]].
  - unfold add_group in Hs. destruct (has_uploads RECEIVED_DIR d a) eqn:Hup.
    + destruct (keys_set _ _ _ _ Hs) as [->|Hs']; [right|left]; auto.
      split; [left; reflexivity|exact Hup].
    + left; exact Hs.
  - right. split; [right; exact Hl|exact Hup].
Qed.

End Groups.

Section Listing.

Context {FS : FileSystem}.
Variables RELEASE_DIR RECEIVED_DIR : pystr.
Variable d : disk.
Hypothesis Hreadable : readable RELEASE_DIR RECEIVED_DIR d.

Lemma upload_loop_run (dir : pystr) (entry : pystr -> Z -> Z -> json)
    (e : env) (names : list pystr) :
  forall (acc : list json) (w : world),
    D w = d ->
    wp (for_fold names acc (upload_step dir entry)) e w
      (fun rw =>
         fst rw =
           Ok (acc ++
               map (fun f =>
                      entry f (size_of d (OsPath.join dir f))
                        (mtime_of d (OsPath.join dir f)))
                 (filter (fun f => fs_isfile d (OsPath.join dir f)) names)) /\
         G (snd rw) = G w /\ D (snd rw) = d).
Proof.
  induction names as [|f names IH]; intros acc w HD.
  - unfold wp. cbn. rewrite app_nil_r. auto.
  - cbn [for_fold filter]. apply wp_bind. unfold upload_step at 1.
    wp_prim. rewrite HD.
    destruct (fs_isfile d (OsPath.join dir f)) eqn:Hf.
    + destruct Hreadable as (_ & Hfile & _).
      destruct (Hfile _ Hf) as [[size Hsize] [mtime Hmtime]].
      wp_prim. rewrite Hsize. cbv beta iota.
      wp_prim. rewrite Hmtime. cbv beta iota.
      unfold wp at 1, ret.
      eapply wp_weaken; [apply IH; reflexivity|].
      intros rw (Hr & HG & HD'). rewrite Hr. cbn [map].
      unfold size_of, mtime_of. rewrite Hsize, Hmtime, <- app_assoc.
      auto.
    + unfold wp at 1, ret.
      eapply wp_weaken; [apply IH; reflexivity|].
      intros rw (Hr & HG & HD'). auto.
Qed.

Lemma upload_entries_run (dir : pystr) (entry : pystr -> Z -> Z -> json)
    (e : env) (w : world) :
  D w = d -> fs_isdir d dir = true ->
  wp (upload_entries dir entry) e w
    (fun rw =>
       fst rw =
         Ok (map (fun f =>
                    entry f (size_of d (OsPath.join dir f))
                      (mtime_of d (OsPath.join dir f)))
               (regular_files d dir)) /\
       G (snd rw) = G w /\ D (snd rw) = d).
Proof.
  intros HD Hdir. unfold upload_entries.
  destruct Hreadable as (Hlist & _).
  destruct (Hlist _ Hdir) as [names Hnames].
  wp_prim. rewrite HD, Hnames. cbv beta iota.
  eapply wp_weaken; [apply upload_loop_run; reflexivity|].
  intros rw (Hr & HG & HD'). unfold regular_files, listing. rewrite Hnames.
  auto.
Qed.

Lemma release_loop_run (entry : pystr -> Z -> json) (e : env)
    (names : list pystr) :
  forall (acc : list json) (w : world),
    D w = d ->
    wp (for_fold names acc (release_step RELEASE_DIR entry)) e w
      (fun rw =>
         fst rw =
           Ok (acc ++
               map (fun f => entry f (size_of d (OsPath.join RELEASE_DIR f)))
                 (filter (fun f => fs_isfile d (OsPath.join RELEASE_DIR f)) names)) /\
         G (snd rw) = G w /\ D (snd rw) = d).
Proof.
  induction names as [|f names IH]; intros acc w HD.
  - unfold wp. cbn. rewrite app_nil_r. auto.
  - cbn [for_fold filter]. apply wp_bind. unfold release_step at 1.
    wp_prim. rewrite HD.
    destruct (fs_isfile d (OsPath.join RELEASE_DIR f)) eqn:Hf.
    + destruct Hreadable as (_ & Hfile & _).
      destruct (Hfile _ Hf) as [[size Hsize] _].
      wp_prim. rewrite Hsize. cbv beta iota.
      unfold wp at 1, ret.
      eapply wp_weaken; [apply IH; reflexivity|].
      intros rw (Hr & HG & HD'). rewrite Hr. cbn [map].
      unfold size_of. rewrite Hsize, <- app_assoc. auto.
    + unfold wp at 1, ret.
      eapply wp_weaken; [apply IH; reflexivity|].
      intros rw (Hr & HG & HD'). auto.
Qed.

Lemma release_entries_run (e : env) (w : world) :
  D w = d ->
  wp (release_entries RELEASE_DIR server_file_entry) e w
    (fun rw =>
       fst rw = Ok (published_files RELEASE_DIR d) /\
       G (snd rw) = G w /\ D (snd rw) = d).
Proof.
  intros HD. unfold release_entries, published_files.
  wp_prim. rewrite HD.
  destruct (fs_exists d RELEASE_DIR) eqn:Hex.
  - destruct Hreadable as (Hlist & _ & Hrel & _).
    destruct (Hlist _ (Hrel Hex)) as [names Hnames].
    wp_prim. rewrite Hnames. cbv beta iota.
    eapply wp_weaken; [apply release_loop_run; reflexivity|].
    intros rw (Hr & HG & HD'). unfold regular_files, listing. rewrite Hnames.
    auto.
  - unfold wp, ret. auto.
Qed.

Lemma received_loop_run (e : env) (folders : list pystr) :
  forall (structure : PyDict.dict (list json)) (w : world),
    D w = d ->
    wp (for_fold folders structure (received_step RECEIVED_DIR)) e w
      (fun rw =>
         fst rw = Ok (fold_left (add_group RECEIVED_DIR d) folders structure) /\
         G (snd rw) = G w /\ D (snd rw) = d).
Proof.
  induction folders as [|ip_folder folders IH]; intros structure w HD.
  - unfold wp. cbn. auto.
  - cbn [for_fold fold_left]. apply wp_bind. unfold received_step at 1.
    wp_prim. rewrite HD. unfold add_group at 2, has_uploads.
    destruct (fs_isdir d (OsPath.join RECEIVED_DIR ip_folder)) eqn:Hdir;
      cbn [andb].
    + apply wp_bind.
      eapply wp_weaken;
        [apply upload_entries_run; [reflexivity|exact Hdir]|].
      intros [r w1] (Hr & HG & HD1). cbn [fst snd] in Hr, HG, HD1.
      rewrite Hr. fold (peer_uploads RECEIVED_DIR d ip_folder).
      destruct (peer_uploads RECEIVED_DIR d ip_folder) as [|x file_list].
      * unfold wp at 1, ret.
        eapply wp_weaken; [apply IH; exact HD1|].
        intros rw (Hr' & HG' & HD'). rewrite HG'. auto.
      * unfold wp at 1, ret.
        eapply wp_weaken; [apply IH; exact HD1|].
        intros rw (Hr' & HG' & HD'). rewrite HG'. auto.
    + unfold wp at 1, ret.
      eapply wp_weaken; [apply IH; reflexivity|].
      intros rw (Hr' & HG' & HD'). auto.
Qed.

End Listing.

Section AdminListing.

Context {FS : FileSystem}.
Variables RELEASE_DIR RECEIVED_DIR : pystr.

(** The structure that the listing returns to the admin or in pool mode:
    the groups of the peers added, in the order of the directory listing,
    to the published files when file pool mode is on and to nothing when
    it is off. *)
Lemma listing_structure_run (e : env) (w : world) :
  readable RELEASE_DIR RECEIVED_DIR (D w) ->
  is_admin_addr (remote_addr (the_request e))
  || file_pool (SERVER_STATE (G w)) = true ->
  exists w',
    list_received_files RELEASE_DIR RECEIVED_DIR e w =
      (Ok (Jsonify 200
             (JDict
                [(py "role",
                  JStr (if file_pool (SERVER_STATE (G w))
                           && negb (is_admin_addr (remote_addr (the_request e)))
                        then py "pool_view" else py "admin"));
                 (py "data",
                  JDict
                    (map (fun '(k, v) => (k, JList v))
                       (fold_left (add_group RECEIVED_DIR (D w))
                          (if fs_exists (D w) RECEIVED_DIR
                           then listing (D w) RECEIVED_DIR else [])
                          (if file_pool (SERVER_STATE (G w))
                           then [(py "Server", published_files RELEASE_DIR (D w))]
                           else []))));
                 (py "my_ip", JStr (remote_addr (the_request e)));
                 (py "pool_enabled", JBool (file_pool (SERVER_STATE (G w))))])),
       w') /\
    G w' = G w /\ D w' = D w.
Proof.
  intros Hread Hview.
  assert (Hwp : wp (list_received_files RELEASE_DIR RECEIVED_DIR) e w
    (fun rw =>
       fst rw =
         Ok (Jsonify 200
               (JDict
                  [(py "role",
                    JStr (if file_pool (SERVER_STATE (G w))
                             && negb (is_admin_addr (remote_addr (the_request e)))
                          then py "pool_view" else py "admin"));
                   (py "data",
                    JDict
                      (map (fun '(k, v) => (k, JList v))
                         (fold_left (add_group RECEIVED_DIR (D w))
                            (if fs_exists (D w) RECEIVED_DIR
                             then listing (D w) RECEIVED_DIR else [])
                            (if file_pool (SERVER_STATE (G w))
                             then [(py "Server", published_files RELEASE_DIR (D w))]
                             else []))));
                   (py "my_ip", JStr (remote_addr (the_request e)));
                   (py "pool_enabled", JBool (file_pool (SERVER_STATE (G w))))])) /\
       G (snd rw) = G w /\ D (snd rw) = D w)).
  { unfold list_received_files. wp_prim. wp_prim. wp_prim. rewrite Hview.
    assert (Hgroups : forall (structure : PyDict.dict (list json)) (w1 : world) k Q,
      D w1 = D w -> G w1 = G w ->
      (forall w2, D w2 = D w -> G w2 = G w ->
         wp (k (fold_left (add_group RECEIVED_DIR (D w))
                  (if fs_exists (D w) RECEIVED_DIR
                   then listing (D w) RECEIVED_DIR else [])
                  structure)) e w2 Q) ->
      wp (bind (os_path_exists RECEIVED_DIR)
            (fun ex : bool =>
               bind (if ex
                     then bind (os_listdir RECEIVED_DIR)
                            (fun folders =>
                               for_fold folders structure
                                 (received_step RECEIVED_DIR))
                     else ret structure) k)) e w1
         (Q : result response * world -> Prop)).
    { intros structure w1 k Q HD1 HG1 Hk. wp_prim. rewrite HD1.
      destruct (fs_exists (D w) RECEIVED_DIR) eqn:Hex.
      - pose proof Hread as (Hlist & _ & _ & Hrec).
        destruct (Hlist _ (Hrec Hex)) as [names Hnames].
        apply wp_bind. wp_prim. rewrite Hnames. cbv beta iota.
        eapply wp_weaken; [apply (received_loop_run Hread); reflexivity|].
        intros [r w2] (Hr & HG2 & HD2). cbn [fst snd G D] in Hr, HG2, HD2.
        rewrite Hr. unfold listing in Hk.
        rewrite Hnames in Hk.
        apply Hk; [exact HD2 | rewrite HG2; exact HG1].
      - wp_prim. apply Hk; [reflexivity | exact HG1]. }
    destruct (file_pool (SERVER_STATE (G w))) eqn:Hpool.
    - apply wp_bind. apply wp_bind.
      eapply wp_weaken; [apply (release_entries_run Hread); reflexivity|].
      intros [r w1] (Hr & HG1 & HD1). cbn [fst snd] in Hr, HG1, HD1.
      rewrite Hr. unfold wp at 1, ret.
      apply Hgroups; [exact HD1 | exact HG1 |].
      intros w2 HD2 HG2. unfold wp, ret. cbn [fst snd PyDict.set]. auto.
    - wp_prim.
      apply Hgroups; [reflexivity | reflexivity |].
      intros w2 HD2 HG2. unfold wp, ret. cbn [fst snd]. auto. }
  unfold wp in Hwp. destruct Hwp as (Hr & HG & HD).
  exists (snd (list_received_files RELEASE_DIR RECEIVED_DIR e w)).
  split; [|split; assumption].
  rewrite <- Hr. apply surjective_pairing.
Qed.

(** C8, as the code has it. When the admin asks for the listing and the
    disk can be read, the answer has the role [admin] and a structure in
    which, in both modes, every peer with at least one upload has its
    group: its uploads, sorted by upload time, latest first. The files
    that the admin has published are not in the structure when file pool
    mode is off (every key is then the directory of a peer); when it is on
    they are the group [Server] (unless a peer directory has that very
    name). Nothing of the world but the trace is changed. *)
Theorem C8_admin_listing (e : env) (w : world) :
  is_admin_addr (remote_addr (the_request e)) = true ->
  readable RELEASE_DIR RECEIVED_DIR (D w) ->
  exists structure w',
    list_received_files RELEASE_DIR RECEIVED_DIR e w =
      (Ok (Jsonify 200
             (JDict
                [(py "role", JStr (py "admin"));
                 (py "data", JDict (map (fun '(k, v) => (k, JList v)) structure));
                 (py "my_ip", JStr (remote_addr (the_request e)));
                 (py "pool_enabled", JBool (file_pool (SERVER_STATE (G w))))])),
       w') /\
    G w' = G w /\ D w' = D w /\
    (forall ip_folder,
       In ip_folder (uploading_peers RECEIVED_DIR (D w)) ->
       PyDict.get structure ip_folder =
         Some (sort_desc upload_time (peer_uploads RECEIVED_DIR (D w) ip_folder)) /\
       Permutation
         (sort_desc upload_time (peer_uploads RECEIVED_DIR (D w) ip_folder))
         (peer_uploads RECEIVED_DIR (D w) ip_folder) /\
       StronglySorted newest_first
         (sort_desc upload_time (peer_uploads RECEIVED_DIR (D w) ip_folder))) /\
    (file_pool (SERVER_STATE (G w)) = false ->
     forall k, In k (PyDict.keys structure) ->
               In k (uploading_peers RECEIVED_DIR (D w))) /\
    (file_pool (SERVER_STATE (G w)) = true ->
     ~ In (py "Server") (uploading_peers RECEIVED_DIR (D w)) ->
     PyDict.get structure (py "Server") =
       Some (published_files RELEASE_DIR (D w))).
Proof.
  intros Hadm Hread.
  destruct (listing_structure_run e w Hread) as (w' & Hrun & HG & HD).
  { rewrite Hadm. reflexivity. }
  rewrite Hadm, andb_false_r in Hrun.
  eexists. exists w'. split; [exact Hrun|].
  split; [exact HG|]. split; [exact HD|].
  assert (Hpeers : forall k,
    In k (uploading_peers RECEIVED_DIR (D w)) <->
    In k (if fs_exists (D w) RECEIVED_DIR
          then listing (D w) RECEIVED_DIR else [])
    /\ has_uploads RECEIVED_DIR (D w) k = true).
  { intros k. unfold uploading_peers.
    destruct (fs_exists (D w) RECEIVED_DIR).
    - apply filter_In.
    - simpl. tauto. }
  split; [|split].
  - intros ip_folder Hin. apply Hpeers in Hin. destruct Hin as [Hin Hup].
    split; [apply groups_hit; assumption|].
    split; [apply sort_desc_perm | apply sort_desc_sorted].
  - intros Hpool k Hk. rewrite Hpool in Hk.
    apply groups_keys in Hk. destruct Hk as [[]|Hk].
    apply Hpeers. exact Hk.
  - intros Hpool Hnot. rewrite Hpool.
    rewrite groups_miss; [reflexivity|].
    intros a Hin Hup ->. apply Hnot, Hpeers. split; assumption.
Qed.

End AdminListing.

(** The in-memory filesystem can always be read. *)
Lemma memfs_readable (release received : pystr) (d : MemFS.t) :
  (MemFS.exists_ d release = true -> MemFS.isdir d release = true) ->
  (MemFS.exists_ d received = true -> MemFS.isdir d received = true) ->
  @readable MemFS.fs release received d.
Proof.
  intros Hrel Hrec. unfold readable. cbn [fs_isdir fs_listdir fs_isfile
    fs_getsize fs_getmtime fs_exists MemFS.fs].
  repeat split; auto.
  - intros p. unfold MemFS.isdir, MemFS.listdir.
    destruct (MemFS.find d p) as [[]|]; try discriminate. eauto.
  - unfold MemFS.isfile, MemFS.getsize in *.
    destruct (MemFS.find d p) as [[]|]; try discriminate. eauto.
  - unfold MemFS.isfile, MemFS.getmtime in *.
    destruct (MemFS.find d p) as [[]|]; try discriminate. eauto.
Qed.

(** C8 does not hold with file pool mode off: the admin has published
    [a.txt], as the listing of the release directory shows, but the
    structure returned to the admin holds only the group of peer
    192.168.1.5. *)
Lemma C8_published_files_missing_without_pool :
  file_pool (SERVER_STATE (G Sample.stocked)) = false /\
  fst (Sample.serve (Sample.release_listing_request Sample.admin) 3
         Sample.stocked) =
    Jsonify 200
      (JList [JDict [(py "name", JStr (py "a.txt")); (py "size", JInt 1);
                     (py "type", JStr (py "release"))]]) /\
  fst (Sample.serve (Sample.listing_request Sample.admin) 3 Sample.stocked) =
    Jsonify 200
      (JDict
         [(py "role", JStr (py "admin"));
          (py "data",
           JDict
             [(py "192.168.1.5",
               JList [JDict [(py "name", JStr (py "b.txt"));
                             (py "size", JInt 1);
                             (py "path_key", JStr (py "192.168.1.5/b.txt"));
                             (py "upload_time", JFloat 1)]])]);
          (py "my_ip", JStr (py "127.0.0.1"));
          (py "pool_enabled", JBool false)]).
Proof. repeat split; vm_compute; reflexivity. Qed.

(** ** Concrete runs *)

(** C1 on the in-memory disk: the server is locked; a status poll of peer
    192.168.1.5 is refused and the same poll from 127.0.0.1 is served. *)
Lemma C1_locked_gate_run :
  full_dispatch_request Sample.RELEASE_DIR Sample.RECEIVED_DIR
    (Sample.env_at (Sample.status_request Sample.peer_A) 5)
    (Sample.with_locked Sample.start true) =
    (ErrorPage 403 (Some (py "Maintenance Mode")),
     Sample.with_locked Sample.start true) /\
  full_dispatch_request Sample.RELEASE_DIR Sample.RECEIVED_DIR
    (Sample.env_at (Sample.status_request Sample.admin) 5)
    (Sample.with_locked Sample.start true) =
    finalize
      (dispatch_request Sample.RELEASE_DIR Sample.RECEIVED_DIR
         (Sample.env_at (Sample.status_request Sample.admin) 5)
         (Sample.with_locked Sample.start true)).
Proof.
  apply (@C1_locked_gate MemFS.fs Sample.RELEASE_DIR Sample.RECEIVED_DIR
           (Sample.env_at (Sample.status_request Sample.peer_A) 5)
           (Sample.env_at (Sample.status_request Sample.admin) 5)
           (Sample.with_locked Sample.start true)).
  - reflexivity.
  - vm_compute. reflexivity.
  - vm_compute. reflexivity.
  - discriminate.
  - reflexivity.
  - reflexivity.
Defined.

(** C4 on the in-memory disk: two events recorded on the empty log. *)
Lemma C4_event_log_run :
  (length (EVENT_LOG (G Sample.start)) <= MAX_EVENTS)%nat /\
  (length
     (EVENT_LOG
        (G (run_records
              [mk_record_op (Sample.env_at (Sample.status_request Sample.peer_A) 1)
                 (py "join") (py "加入网络") (Some Sample.peer_A) None;
               mk_record_op (Sample.env_at (Sample.status_request Sample.peer_A) 9)
                 (py "leave") (py "已离线") (Some Sample.peer_A) None]
              Sample.start))) <= 50)%nat.
Proof.
  split.
  - unfold MAX_EVENTS. simpl. lia.
  - apply (@C4_event_log_bounded MemFS.fs
             [mk_record_op (Sample.env_at (Sample.status_request Sample.peer_A) 1)
                (py "join") (py "加入网络") (Some Sample.peer_A) None;
              mk_record_op (Sample.env_at (Sample.status_request Sample.peer_A) 9)
                (py "leave") (py "已离线") (Some Sample.peer_A) None]
             Sample.start).
    unfold MAX_EVENTS. simpl. lia.
Defined.

(** C5 on the in-memory disk: peer 192.168.1.5 was last seen at second 1
    and the sweep runs at second 20. *)
Lemma C5_sweep_run :
  exists g',
    check_peers_lifecycle
      (Sample.env_at (Sample.status_request Sample.peer_B) 20)
      (snd (Sample.serve (Sample.status_request Sample.peer_A) 1 Sample.start)) =
      (Ok tt,
       mk_world g'
         (D (snd (Sample.serve (Sample.status_request Sample.peer_A) 1 Sample.start)))
         (trace (snd (Sample.serve (Sample.status_request Sample.peer_A) 1
                        Sample.start)))) /\
    PyDict.get (ACTIVE_PEERS g') Sample.peer_A = None.
Proof.
  destruct (@C5_sweep_removes_stale_peer MemFS.fs
              (Sample.env_at (Sample.status_request Sample.peer_B) 20)
              (snd (Sample.serve (Sample.status_request Sample.peer_A) 1 Sample.start))
              Sample.peer_A
              (mk_peer 1000000 (py "idle") 1000000 (py "desktop")))
    as (g' & joins & Hrun & Hgone & _).
  - vm_compute. constructor; [intros []|constructor].
  - vm_compute. reflexivity.
  - vm_compute. reflexivity.
  - exists g'. split; [exact Hrun | exact Hgone].
Defined.

(** C8 on the in-memory disk: the admin lists the stocked disk. *)
Lemma C8_admin_listing_run :
  exists structure,
    fst (list_received_files Sample.RELEASE_DIR Sample.RECEIVED_DIR
           (Sample.env_at (Sample.listing_request Sample.admin) 3)
           Sample.stocked) =
      Ok (Jsonify 200
            (JDict
               [(py "role", JStr (py "admin"));
                (py "data", JDict (map (fun '(k, v) => (k, JList v)) structure));
                (py "my_ip", JStr Sample.admin);
                (py "pool_enabled", JBool false)])) /\
    forall k, In k (PyDict.keys structure) ->
              In k (uploading_peers Sample.RECEIVED_DIR (D Sample.stocked)).
Proof.
  destruct (@C8_admin_listing MemFS.fs Sample.RELEASE_DIR Sample.RECEIVED_DIR
              (Sample.env_at (Sample.listing_request Sample.admin) 3)
              Sample.stocked)
    as (structure & w' & Hrun & _ & _ & _ & Hkeys & _).
  - vm_compute. reflexivity.
  - apply memfs_readable; intros _; vm_compute; reflexivity.
  - exists structure. split.
    + rewrite Hrun. reflexivity.
    + apply Hkeys. vm_compute. reflexivity.
Defined.

(** Masking of names without extension, of short names, of names that
    start with a dot and of names outside ASCII. *)
Example masked_names :
  get_masked_name (py "README") = py "RE***" /\
  get_masked_name (py "a.txt") = py "a***.txt" /\
  get_masked_name (py ".bashrc") = py ".b***" /\
  get_masked_name (py "archive.tar.gz") = py "ar***.gz" /\
  get_masked_name (py "报告表.pdf") = py "报告***.pdf" /\
  get_masked_name [] = py "***".
Proof. repeat split; vm_compute; reflexivity. Qed.

(** Peer A, new, uploads [report.pdf]; peer B then polls the status with
    file pool mode off: B sees the upload with the name masked and
    without the [filename] key, A sees its own upload as it is. *)
Example upload_seen_by_other_and_by_owner :
  last
    (response_events
       (fst (Sample.serve (Sample.status_request Sample.peer_B) 2
               (snd (Sample.serve
                       (Sample.upload_request Sample.peer_A
                          [(py "report.pdf", [1%N])]) 1 Sample.start)))))
    JNone =
    JDict [(py "id", JInt 1000000); (py "time", JStr (py "00:00:01"));
           (py "type", JStr (py "upload"));
           (py "msg", JStr (py "上传了 re***.pdf"));
           (py "ip", JStr Sample.peer_A)] /\
  last
    (response_events
       (fst (Sample.serve (Sample.status_request Sample.peer_A) 2
               (snd (Sample.serve
                       (Sample.upload_request Sample.peer_A
                          [(py "report.pdf", [1%N])]) 1 Sample.start)))))
    JNone =
    JDict [(py "id", JInt 1000000); (py "time", JStr (py "00:00:01"));
           (py "type", JStr (py "upload"));
           (py "msg", JStr (py "上传了 report.pdf"));
           (py "ip", JStr Sample.peer_A);
           (py "filename", JStr (py "report.pdf"))].
Proof. split; vm_compute; reflexivity. Qed.

(** An event whose filename is the empty string is shown as it is. *)
Example empty_filename_not_masked (ev_ip : option pystr) :
  client_safe_event true Sample.peer_B
    (mk_event 1 (py "00:00:01") (py "download") (py "下载了 ") ev_ip (Some []))
  = event_copy
      (mk_event 1 (py "00:00:01") (py "download") (py "下载了 ") ev_ip (Some [])).
Proof.
  rewrite client_safe_event_cases. cbn [ev_filename truthy].
  rewrite andb_false_r. reflexivity.
Qed.

(** Uploads of no, one and two named files on the in-memory disk. *)
Example upload_events_by_count :
  EVENT_LOG
    (G (snd (Sample.serve (Sample.upload_request Sample.peer_A [([], [1%N])]) 1
               Sample.start))) = [] /\
  EVENT_LOG
    (G (snd (Sample.serve
               (Sample.upload_request Sample.peer_A [(py "a.txt", [1%N])]) 1
               Sample.start))) =
    [mk_event 1000000 (py "00:00:01") (py "upload") (py "上传了 a.txt")
       (Some Sample.peer_A) (Some (py "a.txt"))] /\
  EVENT_LOG
    (G (snd (Sample.serve
               (Sample.upload_request Sample.peer_A
                  [(py "a.txt", [1%N]); (py "b.txt", [2%N])]) 1
               Sample.start))) =
    [mk_event 1000000 (py "00:00:01") (py "upload") (py "上传了 2 个文件")
       (Some Sample.peer_A) None].
Proof. repeat split; vm_compute; reflexivity. Qed.

(** * Further properties *)

(** ** Handlers that only read *)

Section ReadOnly.

Context {FS : FileSystem}.
Variables RELEASE_DIR RECEIVED_DIR : pystr.

Lemma read_only_ret {A} (a : A) : read_only (ret a).
Proof. intros e w. split; reflexivity. Qed.

Lemma read_only_raise {A} (x : exn) : read_only (@raise FS A x).
Proof. intros e w. split; reflexivity. Qed.

Lemma read_only_bind {A B} (m : M A) (k : A -> M B) :
  read_only m -> (forall a, read_only (k a)) -> read_only (bind m k).
Proof.
  intros Hm Hk e w. unfold bind. destruct (Hm e w) as [HG HD].
  destruct (m e w) as [[a|x] w1]; cbn [snd] in *.
  - destruct (Hk a e w1) as [HG1 HD1]. split; congruence.
  - split; assumption.
Qed.

Lemma read_only_ask : read_only ask.
Proof. intros e w. split; reflexivity. Qed.

Lemma read_only_get_globals : read_only get_globals.
Proof. intros e w. split; reflexivity. Qed.

Lemma read_only_is_local_admin : read_only is_local_admin.
Proof. intros e w. split; reflexivity. Qed.

Lemma read_only_query {A} (c : fs_call) (f : disk -> A) :
  read_only (fs_query c f).
Proof. intros e w. split; reflexivity. Qed.

Lemma read_only_try {A} (c : fs_call) (f : disk -> result A) :
  read_only (fs_try c f).
Proof. intros e w. split; reflexivity. Qed.

Lemma read_only_send (directory p : pystr) :
  read_only (send_from_directory directory p).
Proof.
  intros e w. unfold send_from_directory.
  destruct (fs_send_from_directory _ _ _); split; reflexivity.
Qed.

Lemma read_only_for_fold {A S} (body : S -> A -> M S) (l : list A) :
  (forall acc x, read_only (body acc x)) ->
  forall acc, read_only (for_fold l acc body).
Proof.
  intros Hbody. induction l as [|x l IH]; intros acc; cbn [for_fold].
  - apply read_only_ret.
  - apply read_only_bind; [apply Hbody | intros acc'; apply IH].
Qed.

End ReadOnly.

(** Splitting a read-only computation into its parts. *)
Ltac read_only_steps :=
  repeat first
    [ apply read_only_ret
    | apply read_only_raise
    | apply read_only_ask
    | apply read_only_get_globals
    | apply read_only_is_local_admin
    | apply read_only_query
    | apply read_only_try
    | apply read_only_send
    | apply read_only_bind; [|intros]
    | apply read_only_for_fold; intros
    | lazymatch goal with
      | |- read_only (match ?x with _ => _ end) => destruct x
      | |- read_only (let (_, _) := ?x in _) => destruct x
      end ].

Section ReadOnlyHandlers.

Context {FS : FileSystem}.
Variables RELEASE_DIR RECEIVED_DIR : pystr.

Lemma read_only_release_entries (entry : pystr -> Z -> json) :
  read_only (release_entries RELEASE_DIR entry).
Proof.
  unfold release_entries, release_step, os_path_exists, os_listdir,
    os_path_isfile, os_path_getsize.
  read_only_steps.
Qed.

Lemma read_only_upload_entries (dir : pystr) (entry : pystr -> Z -> Z -> json) :
  read_only (upload_entries dir entry).
Proof.
  unfold upload_entries, upload_step, os_listdir, os_path_isfile,
    os_path_getsize, os_path_getmtime.
  read_only_steps.
Qed.

Lemma read_only_list_release_files : read_only (list_release_files RELEASE_DIR).
Proof.
  unfold list_release_files.
  apply read_only_bind; [apply read_only_release_entries|].
  intros. apply read_only_ret.
Qed.

Lemma read_only_list_received_files :
  read_only (list_received_files RELEASE_DIR RECEIVED_DIR).
Proof.
  unfold list_received_files, received_step, os_path_exists, os_listdir,
    os_path_isdir.
  read_only_steps;
    try apply read_only_release_entries;
    try apply read_only_upload_entries;
    read_only_steps;
    try apply read_only_upload_entries; read_only_steps.
Qed.

Lemma read_only_index : read_only index.
Proof. unfold index, os_path_exists, read_file. read_only_steps. Qed.

(** The two listings and the index page only read: whatever the disk
    holds and whatever they answer, also when a filesystem call fails,
    they leave the process state and the disk as they were. *)
Theorem listings_only_read :
  read_only (list_release_files RELEASE_DIR) /\
  read_only (list_received_files RELEASE_DIR RECEIVED_DIR) /\
  read_only index.
Proof.
  split; [|split].
  - exact read_only_list_release_files.
  - exact read_only_list_received_files.
  - exact read_only_index.
Qed.

End ReadOnlyHandlers.

(** ** What every request keeps *)

Lemma get_map_values {V W} (f : V -> W) (d : PyDict.dict V) (k : pystr) :
  PyDict.get (map (fun kv => (fst kv, f (snd kv))) d) k =
  option_map f (PyDict.get d k).
Proof.
  induction d as [|[k0 v0] d IH]; simpl; [reflexivity|].
  destruct (str_eqb k0 k); [reflexivity | exact IH].
Qed.

Lemma record_activity_peers_other (now : Z) (ua ip other : pystr)
    (action device : option pystr) (peers : PyDict.dict peer) :
  other <> ip ->
  PyDict.get (record_activity_peers now ua ip action device peers) other =
  PyDict.get peers other.
Proof.
  intros Hne. unfold record_activity_peers.
  destruct (PyDict.get peers ip); apply get_set_other; exact Hne.
Qed.

Lemma invariant_start (port : Z) : invariant (initial_globals port).
Proof. constructor; simpl; [constructor | unfold MAX_EVENTS; lia | reflexivity]. Qed.

Lemma invariant_add_event (g : globals) (ev : event) :
  invariant g ->
  invariant (with_events g (appendleft MAX_EVENTS ev (EVENT_LOG g))).
Proof.
  intros [Hk Hl Ha]. constructor; cbn [ACTIVE_PEERS EVENT_LOG with_events];
    auto using appendleft_length.
Qed.

Lemma invariant_record_activity (g : globals) (now : Z) (ua ip : pystr)
    (action device : option pystr) :
  invariant g -> ip <> py "127.0.0.1" ->
  invariant
    (with_peers g (record_activity_peers now ua ip action device (ACTIVE_PEERS g))).
Proof.
  intros [Hk Hl Ha] Hne. constructor; cbn [ACTIVE_PEERS EVENT_LOG with_peers].
  - apply record_activity_peers_nodup, Hk.
  - exact Hl.
  - rewrite record_activity_peers_other by congruence. exact Ha.
Qed.

Lemma invariant_server_state (g : globals) (s : server_state) :
  invariant g -> invariant (with_server_state g s).
Proof. intros [Hk Hl Ha]. constructor; assumption. Qed.

Lemma invariant_last_online (g : globals) (s : list pystr) :
  invariant g -> invariant (with_last_online g s).
Proof. intros [Hk Hl Ha]. constructor; assumption. Qed.

(** Closing the goals left by a run: the state is the old one changed by
    updates that keep the invariant. *)
Ltac invariant_steps :=
  cbv beta iota; cbn [fst snd G];
  repeat first
    [ assumption
    | apply invariant_add_event
    | apply invariant_server_state
    | apply invariant_last_online ].

Section Invariant.

Context {FS : FileSystem}.
Variables RELEASE_DIR RECEIVED_DIR : pystr.

Lemma invariant_read_only {A} (m : M A) (e : env) (w : world) :
  read_only m -> invariant (G w) -> invariant (G (snd (m e w))).
Proof. intros Hm Hinv. destruct (Hm e w) as [-> _]. exact Hinv. Qed.

Lemma invariant_sweep (e : env) (w : world) :
  invariant (G w) -> invariant (G (snd (check_peers_lifecycle e w))).
Proof.
  intros Hinv. constructor.
  - apply sweep_keeps_keys_distinct, Hinv.
  - rewrite check_peers_lifecycle_run. cbn [snd G EVENT_LOG].
    rewrite record_all_firstn by apply Hinv. apply firstn_le_length.
  - rewrite check_peers_lifecycle_run. cbn [snd G ACTIVE_PEERS].
    apply get_fold_del_none.
    rewrite (map_ext _ (fun kv => (fst kv, expire_action (datetime_now (the_clock e)) (snd kv))))
      by (intros [k v]; reflexivity).
    rewrite get_map_values. destruct Hinv as [_ _ ->]. reflexivity.
Qed.

Lemma invariant_intercept (e : env) (w : world) :
  invariant (G w) -> invariant (G (snd (global_intercept e w))).
Proof.
  intros Hinv. change (wp global_intercept e w (fun rw => invariant (G (snd rw)))).
  unfold global_intercept. wp_prim. wp_prim. wp_prim.
  apply wp_bind. unfold wp at 1, when.
  destruct (locked (SERVER_STATE (G w)) && _);
    [destruct (negb _)|]; cbn [abort raise ret]; unfold abort, raise, ret;
    try exact Hinv.
  all: unfold wp, when.
  all: destruct (str_eqb_spec (remote_addr (the_request e)) (py "127.0.0.1"))
         as [Heq|Hne]; cbn [negb andb]; try exact Hinv.
  all: destruct (negb _); cbn [andb]; try exact Hinv.
  all: destruct (_ || _); try exact Hinv.
  all: rewrite record_activity_run; cbn [snd G];
       apply invariant_record_activity; assumption.
Qed.

Lemma when_record_invariant (b : bool) (ip : pystr)
    (action device : option pystr) (e : env) (w : world) :
  (b = true -> ip <> py "127.0.0.1") ->
  invariant (G w) ->
  exists w1,
    when b (record_activity ip action device) e w = (Ok tt, w1) /\
    invariant (G w1).
Proof.
  intros Hb Hinv. destruct b; cbn [when].
  - rewrite record_activity_run. eexists. split; [reflexivity|].
    cbn [G]. apply invariant_record_activity; auto.
  - exists w. split; [reflexivity|exact Hinv].
Qed.

Lemma not_admin_not_loopback (ip : pystr) :
  negb (is_admin_addr ip) = true -> ip <> py "127.0.0.1".
Proof.
  unfold is_admin_addr. intros H ->. rewrite str_eqb_refl in H. discriminate H.
Qed.

Lemma invariant_api_status (e : env) (w : world) :
  invariant (G w) -> invariant (G (snd (api_status e w))).
Proof.
  intros Hinv. change (wp api_status e w (fun rw => invariant (G (snd rw)))).
  unfold api_status. apply wp_bind. unfold wp at 1.
  pose proof (invariant_sweep e w Hinv) as Hs.
  rewrite check_peers_lifecycle_run in Hs |- *. cbv beta iota.
  wp_prim. wp_prim. wp_prim. unfold wp, ret. exact Hs.
Qed.

Lemma invariant_toggles (e : env) (w : world) :
  invariant (G w) ->
  invariant (G (snd (api_toggle_lock e w))) /\
  invariant (G (snd (api_toggle_pool e w))).
Proof.
  intros Hinv. split.
  - change (wp api_toggle_lock e w (fun rw => invariant (G (snd rw)))).
    unfold api_toggle_lock. wp_run; invariant_steps.
  - change (wp api_toggle_pool e w (fun rw => invariant (G (snd rw)))).
    unfold api_toggle_pool. wp_run; invariant_steps.
Qed.

Lemma invariant_delete (e : env) (w : world) :
  invariant (G w) ->
  invariant (G (snd (delete_file RELEASE_DIR RECEIVED_DIR e w))).
Proof.
  intros Hinv.
  change (wp (delete_file RELEASE_DIR RECEIVED_DIR) e w
            (fun rw => invariant (G (snd rw)))).
  unfold delete_file. wp_run; invariant_steps.
Qed.

Lemma invariant_download (filename : pystr) (e : env) (w : world) :
  invariant (G w) ->
  invariant (G (snd (download_file RELEASE_DIR RECEIVED_DIR filename e w))).
Proof.
  intros Hinv.
  change (wp (download_file RELEASE_DIR RECEIVED_DIR filename) e w
            (fun rw => invariant (G (snd rw)))).
  unfold download_file.
  destruct (contains filename (py "..") || startswith filename (py "/")).
  { wp_prim. exact Hinv. }
  wp_prim. wp_prim. apply wp_bind. unfold wp at 1.
  destruct (@when_record_invariant
              (negb (str_eqb (remote_addr (the_request e)) (py "127.0.0.1")))
              (remote_addr (the_request e)) (Some (py "download")) None e w)
    as (w1 & -> & Hinv1); [|exact Hinv|].
  { intros Hb Heq. rewrite Heq, str_eqb_refl in Hb. discriminate Hb. }
  cbv beta iota. wp_prim.
  assert (Hinv2 : invariant
            (with_events (G w1)
               (appendleft MAX_EVENTS (download_event e filename)
                  (EVENT_LOG (G w1)))))
    by (apply invariant_add_event, Hinv1).
  unfold download_event in Hinv2.
  destruct (startswith filename (py "__release__/"));
    [apply invariant_read_only; [apply read_only_send|exact Hinv2]|].
  wp_prim. destruct (fs_exists _ _);
    [apply invariant_read_only; [apply read_only_send|exact Hinv2]|].
  wp_prim. wp_prim.
  destruct (is_admin_addr _ || _); [|exact Hinv2].
  destruct (split1 OsPath.sep filename) as [|part0 [|part1 [|? ?]]];
    try exact Hinv2.
  wp_prim. destruct (fs_exists _ _);
    [apply invariant_read_only; [apply read_only_send|exact Hinv2]|exact Hinv2].
Qed.

Lemma invariant_upload (e : env) (w : world) :
  invariant (G w) ->
  invariant (G (snd (upload_file RELEASE_DIR RECEIVED_DIR e w))).
Proof.
  intros Hinv.
  change (wp (upload_file RELEASE_DIR RECEIVED_DIR) e w
            (fun rw => invariant (G (snd rw)))).
  unfold upload_file. wp_prim. wp_prim.
  apply wp_bind. unfold wp at 1.
  destruct (@when_record_invariant
              (negb (is_admin_addr (remote_addr (the_request e))))
              (remote_addr (the_request e)) (Some (py "upload")) None e w)
    as (w1 & -> & Hinv1); [apply not_admin_not_loopback|exact Hinv|].
  cbv beta iota.
  assert (Hrest : forall (w2 : world) save_dir k,
    G w2 = G w1 ->
    (forall acc w3, G w3 = G w1 ->
       wp (k acc) e w3 (fun rw => invariant (G (snd rw)))) ->
    wp (bind (for_fold (req_files (the_request e)) (0%Z, [])
                (save_upload save_dir)) k) e w2
      (fun rw : result response * world => invariant (G (snd rw)))).
  { intros w2 save_dir k HG2 Hk. apply wp_bind.
    eapply wp_weaken; [apply save_upload_loop|].
    intros [r w3] [HG3 _]. cbn [fst snd] in HG3.
    destruct r as [acc|x].
    - apply Hk. congruence.
    - cbn [snd]. rewrite HG3, HG2. exact Hinv1. }
  wp_prim.
  destruct (fs_exists (D w1) _).
  - wp_prim. apply Hrest; [reflexivity|].
    intros [n l] w3 HG3. wp_run; invariant_steps; rewrite ?HG3; invariant_steps.
  - wp_prim. destruct (fs_makedirs (D w1) _); cbv beta iota.
    + apply Hrest; [reflexivity|].
      intros [n l] w3 HG3. wp_run; invariant_steps; rewrite ?HG3; invariant_steps.
    + exact Hinv1.
Qed.

Lemma invariant_dispatch (e : env) (w : world) :
  invariant (G w) ->
  invariant (G (snd (dispatch_request RELEASE_DIR RECEIVED_DIR e w))).
Proof.
  intros Hinv. unfold dispatch_request, bind, ask.
  pose proof (read_only_list_release_files RELEASE_DIR) as Hrel.
  pose proof (read_only_list_received_files RELEASE_DIR RECEIVED_DIR) as Hrec.
  pose proof read_only_index as Hidx.
  destruct (req_endpoint (the_request e)) as [[]|].
  - apply invariant_read_only; [apply read_only_send|exact Hinv].
  - apply invariant_read_only; [exact Hidx|exact Hinv].
  - apply invariant_api_status, Hinv.
  - apply invariant_toggles, Hinv.
  - apply invariant_toggles, Hinv.
  - apply invariant_read_only; [exact Hrel|exact Hinv].
  - apply invariant_read_only; [exact Hrec|exact Hinv].
  - apply invariant_delete, Hinv.
  - apply invariant_download, Hinv.
  - apply invariant_upload, Hinv.
  - exact Hinv.
Qed.

Lemma invariant_request (e : env) (w : world) :
  invariant (G w) ->
  invariant (G (snd (full_dispatch_request RELEASE_DIR RECEIVED_DIR e w))).
Proof.
  intros Hinv. unfold full_dispatch_request, bind.
  pose proof (invariant_intercept e w Hinv) as Hi.
  destruct (global_intercept e w) as [[[]|x] w1]; cbn [snd] in Hi.
  - pose proof (invariant_dispatch e w1 Hi) as Hd.
    destruct (dispatch_request RELEASE_DIR RECEIVED_DIR e w1) as [[r|[]] w2];
      exact Hd.
  - destruct x; exact Hi.
Qed.

Lemma reachable_invariant (w : world) :
  reachable RELEASE_DIR RECEIVED_DIR w -> invariant (G w).
Proof.
  induction 1 as [port d|e w Hreach IH].
  - apply invariant_start.
  - apply invariant_request, IH.
Qed.

(** The log never outgrows its capacity: in every world that the server
    can reach, whatever the requests were and however they ended, the log
    holds at most 50 entries. *)
Theorem reachable_log_bounded (w : world) :
  reachable RELEASE_DIR RECEIVED_DIR w ->
  (length (EVENT_LOG (G w)) <= 50)%nat.
Proof. intros Hreach. apply (inv_log (reachable_invariant Hreach)). Qed.

(** The registry keeps one entry per address: in every reachable world
    its keys are distinct. *)
Theorem reachable_keys_distinct (w : world) :
  reachable RELEASE_DIR RECEIVED_DIR w ->
  NoDup (PyDict.keys (ACTIVE_PEERS (G w))).
Proof. intros Hreach. apply (inv_keys (reachable_invariant Hreach)). Qed.

(** The host itself is never tracked as a peer: in no reachable world is
    127.0.0.1 a key of the registry. *)
Theorem reachable_loopback_not_registered (w : world) :
  reachable RELEASE_DIR RECEIVED_DIR w ->
  PyDict.get (ACTIVE_PEERS (G w)) (py "127.0.0.1") = None.
Proof. intros Hreach. apply (inv_admin (reachable_invariant Hreach)). Qed.

End Invariant.

(** ** The mode toggles and the admin-only operations *)

Section Toggles.

Context {FS : FileSystem}.
Variables RELEASE_DIR RECEIVED_DIR : pystr.

(** The three operations reserved to the admin answer any other address
    with 403 and touch nothing: neither the modes, the registry and the
    log, nor the disk, on which no call is made. *)
Theorem admin_only_operations_refuse_peers (e : env) (w : world) :
  is_admin_addr (remote_addr (the_request e)) = false ->
  api_toggle_lock e w =
    (Ok (Jsonify 403 (JDict [(py "error", JStr (py "无权操作"))])), w) /\
  api_toggle_pool e w =
    (Ok (Jsonify 403 (JDict [(py "error", JStr (py "无权操作"))])), w) /\
  delete_file RELEASE_DIR RECEIVED_DIR e w =
    (Ok (Jsonify 403 (JDict [(py "error", JStr (py "Permission denied"))])), w).
Proof.
  intros Hpeer.
  unfold api_toggle_lock, api_toggle_pool, delete_file. monad_simpl.
  rewrite Hpeer. cbn [negb]. repeat split; reflexivity.
Qed.

Lemma toggle_lock_run (e : env) (w : world) :
  is_admin_addr (remote_addr (the_request e)) = true ->
  api_toggle_lock e w =
    (Ok (Jsonify 200
           (JDict [(py "locked", JBool (negb (locked (SERVER_STATE (G w)))))])),
     mk_world
       (mk_globals
          (mk_server_state (negb (locked (SERVER_STATE (G w))))
             (file_pool (SERVER_STATE (G w)))
             (current_port (SERVER_STATE (G w))))
          (ACTIVE_PEERS (G w))
          (appendleft MAX_EVENTS (lock_event (the_clock e)) (EVENT_LOG (G w)))
          (LAST_ONLINE_IPS (G w)))
       (D w) (trace w)).
Proof.
  intros Hadm. unfold api_toggle_lock. monad_simpl. rewrite Hadm.
  reflexivity.
Qed.

(** The admin locks and unlocks (or unlocks and locks): after the two
    toggles the modes are exactly as before, so the gate decides as it did,
    the registry and the disk are untouched, and the log has gained two
    [system] events. *)
Theorem toggle_lock_twice_restores (e1 e2 : env) (w : world) :
  is_admin_addr (remote_addr (the_request e1)) = true ->
  is_admin_addr (remote_addr (the_request e2)) = true ->
  SERVER_STATE (G (snd (api_toggle_lock e2 (snd (api_toggle_lock e1 w))))) =
    SERVER_STATE (G w) /\
  ACTIVE_PEERS (G (snd (api_toggle_lock e2 (snd (api_toggle_lock e1 w))))) =
    ACTIVE_PEERS (G w) /\
  D (snd (api_toggle_lock e2 (snd (api_toggle_lock e1 w)))) = D w /\
  EVENT_LOG (G (snd (api_toggle_lock e2 (snd (api_toggle_lock e1 w))))) =
    record_all [lock_event (the_clock e1); lock_event (the_clock e2)]
      (EVENT_LOG (G w)) /\
  fst (api_toggle_lock e1 w) =
    Ok (Jsonify 200
          (JDict [(py "locked", JBool (negb (locked (SERVER_STATE (G w)))))])).
Proof.
  intros H1 H2. rewrite (toggle_lock_run e1 w H1). cbn [fst snd].
  rewrite toggle_lock_run by exact H2.
  cbn [snd G D SERVER_STATE ACTIVE_PEERS EVENT_LOG locked file_pool current_port].
  rewrite negb_involutive. destruct (SERVER_STATE (G w)). repeat split.
Qed.

Lemma api_toggle_pool_run (e : env) (w : world) :
  is_admin_addr (remote_addr (the_request e)) = true ->
  api_toggle_pool e w =
    (Ok (Jsonify 200
           (JDict [(py "file_pool", JBool (negb (file_pool (SERVER_STATE (G w)))))])),
     mk_world
       (mk_globals
          (mk_server_state (locked (SERVER_STATE (G w)))
             (negb (file_pool (SERVER_STATE (G w))))
             (current_port (SERVER_STATE (G w))))
          (ACTIVE_PEERS (G w))
          (appendleft MAX_EVENTS
             (pool_event (the_clock e) (negb (file_pool (SERVER_STATE (G w)))))
             (EVENT_LOG (G w)))
          (LAST_ONLINE_IPS (G w)))
       (D w) (trace w)).
Proof.
  intros Hadm. unfold api_toggle_pool. monad_simpl. rewrite Hadm.
  reflexivity.
Qed.

End Toggles.

(** ** Device class *)

Section Device.

Context {FS : FileSystem}.

(** The device class is one of two values, and it follows the latest
    request: a call of [record_activity] without a device type leaves the
    entry of the address, new or not, with the class of the user agent of
    the request that is being served. *)
Theorem device_type_follows_user_agent (ip : pystr) (action : option pystr)
    (e : env) (w : world) :
  (get_device_type (user_agent (the_request e)) = py "mobile" \/
   get_device_type (user_agent (the_request e)) = py "desktop") /\
  exists data,
    PyDict.get
      (ACTIVE_PEERS (G (snd (record_activity ip action None e w)))) ip
      = Some data /\
    p_device_type data = get_device_type (user_agent (the_request e)).
Proof.
  split.
  - unfold get_device_type. destruct (_ || _); auto.
  - rewrite record_activity_run. cbn [snd G ACTIVE_PEERS with_peers].
    unfold record_activity_peers.
    assert (Hua : exists c s, get_device_type (user_agent (the_request e)) = c :: s).
    { unfold get_device_type. destruct (_ || _); vm_compute; eauto. }
    destruct Hua as (c & s & Hua). rewrite Hua.
    destruct (PyDict.get (ACTIVE_PEERS (G w)) ip) as [data|];
      eexists; (split; [apply get_set_same|]).
    + destruct action as [[|? ?]|]; reflexivity.
    + reflexivity.
Qed.

End Device.

(** ** Start-up *)

Section StartupConfig.

Variable float_key_eqb : Z -> json -> bool.

#[local] Abbreviation cfg_get := (Startup.get float_key_eqb).
#[local] Abbreviation cfg_set := (Startup.set float_key_eqb).
#[local] Abbreviation cfg_key_eqb := (Startup.key_eqb float_key_eqb).










End StartupConfig.

(** A file that holds [[["port", 1234], 5]]: the load is reported as
    failed, and the port is 1234. *)
Example load_config_after_failed_update :
  snd (Startup.update (fun _ _ => false) Startup.DEFAULT_CONFIG
         (JList [JList [JStr (py "port"); JInt 1234]; JInt 5]))
    = Some Startup.UTypeError /\
  Startup.get (fun _ _ => false)
    (Startup.load_config (fun _ _ => false) None
       (Some (Ok (JList [JList [JStr (py "port"); JInt 1234]; JInt 5]))))
    (JStr (py "port")) = Some (JInt 1234).
Proof. split; vm_compute; reflexivity. Qed.



(** ** More on the liveness sweep *)

Lemma get_in {V} (d : PyDict.dict V) (k : pystr) (v : V) :
  PyDict.get d k = Some v -> In (k, v) d.
Proof.
  induction d as [|[k0 v0] d IH]; simpl; [discriminate|].
  destruct (str_eqb_spec k0 k) as [->|Hne].
  - intros [= ->]. left; reflexivity.
  - intros H. right. apply IH, H.
Qed.

Lemma nodup_in_get {V} (d : PyDict.dict V) (k : pystr) (v : V) :
  NoDup (PyDict.keys d) -> In (k, v) d -> PyDict.get d k = Some v.
Proof.
  unfold PyDict.keys. induction d as [|[k0 v0] d IH]; simpl; intros Hnd Hin;
    [destruct Hin|].
  inversion Hnd as [|? ? Hnotin Hnd']; subst.
  destruct Hin as [[= -> ->]|Hin].
  - rewrite str_eqb_refl. reflexivity.
  - destruct (str_eqb_spec k0 k) as [->|Hne]; [|apply IH; assumption].
    exfalso. apply Hnotin. apply in_map_iff. exists (k, v). auto.
Qed.

Lemma get_del_other {V} (d : PyDict.dict V) (k k' : pystr) :
  k <> k' -> PyDict.get (PyDict.del d k') k = PyDict.get d k.
Proof.
  intros Hne. induction d as [|[k0 v0] d IH]; simpl; [reflexivity|].
  destruct (str_eqb_spec k0 k') as [->|Hne'].
  - destruct (str_eqb_spec k' k); [congruence|reflexivity].
  - simpl. destruct (str_eqb k0 k); [reflexivity|exact IH].
Qed.

Lemma get_fold_del_other {V} (l : list pystr) :
  forall (d : PyDict.dict V) (k : pystr),
    ~ In k l -> PyDict.get (fold_left (@PyDict.del V) l d) k = PyDict.get d k.
Proof.
  induction l as [|a l IH]; intros d k Hnot; simpl; [reflexivity|].
  rewrite IH by (intros H; apply Hnot; right; exact H).
  apply get_del_other. intros ->. apply Hnot. left; reflexivity.
Qed.

Lemma in_sweep_leaves (now : Z) (peers : PyDict.dict peer) (k : pystr) :
  In k (sweep_leaves now peers) <->
  exists data, In (k, data) peers /\ timed_out now data = true.
Proof.
  unfold sweep_leaves. rewrite in_map_iff. split.
  - intros ([k' data] & Hk & Hin). cbn in Hk. subst k'.
    apply filter_In in Hin. exists data. exact Hin.
  - intros (data & Hin & Hout). exists (k, data). split; [reflexivity|].
    apply filter_In. auto.
Qed.

Lemma expire_action_settled (now : Z) (data : peer) :
  p_action (expire_action now data) = py "idle" \/
  (now <= p_action_time (expire_action now data))%Z.
Proof.
  unfold expire_action.
  destruct (str_eqb_spec (p_action data) (py "idle")) as [Hidle|Hbusy];
    cbn [negb andb]; [left; exact Hidle|].
  destruct (Z.gtb_spec now (p_action_time data)); cbn; [left; reflexivity|].
  right. lia.
Qed.

Lemma in_fold_set_add (l : list pystr) (x : pystr) :
  forall acc, In x l \/ In x acc -> In x (fold_left set_add l acc).
Proof.
  induction l as [|a l IH]; intros acc Hin; simpl.
  - destruct Hin as [[]|Hin]; exact Hin.
  - apply IH. unfold set_add, in_set.
    destruct (existsb (str_eqb a) acc) eqn:Hmem.
    + destruct Hin as [[->|Hin]|Hin]; auto.
      right. apply existsb_exists in Hmem. destruct Hmem as (y & Hy & Heq).
      apply str_eqb_eq in Heq. subst y. exact Hy.
    + destruct Hin as [[->|Hin]|Hin]; auto.
      * right. apply in_or_app. right. left; reflexivity.
      * right. apply in_or_app. left; exact Hin.
Qed.

Section SweepMore.

Context {FS : FileSystem}.

(** What a sweep leaves in the registry: every peer that is still
    registered after it was seen within the last 8 seconds, and is idle or
    still within the grace period of its action. *)
Theorem sweep_leaves_only_live_and_settled (e : env) (w : world) (ip : pystr)
    (data : peer) :
  NoDup (PyDict.keys (ACTIVE_PEERS (G w))) ->
  PyDict.get (ACTIVE_PEERS (G (snd (check_peers_lifecycle e w)))) ip = Some data ->
  (datetime_now (the_clock e) - p_last_seen data <= timedelta_seconds 8)%Z /\
  (p_action data = py "idle" \/
   (datetime_now (the_clock e) <= p_action_time data)%Z).
Proof.
  intros Hnd Hget. rewrite check_peers_lifecycle_run in Hget.
  cbn [snd G ACTIVE_PEERS] in Hget.
  set (now := datetime_now (the_clock e)) in *.
  set (peers1 := map (fun '(ip, data) => (ip, expire_action now data))
                   (ACTIVE_PEERS (G w))) in *.
  assert (Hnd1 : NoDup (PyDict.keys peers1)).
  { unfold peers1. rewrite keys_map_values; [exact Hnd|].
    intros [k v]; reflexivity. }
  assert (Hnot : ~ In ip (sweep_leaves now (ACTIVE_PEERS (G w)))).
  { intros Hin. rewrite get_fold_del in Hget by assumption. discriminate. }
  rewrite get_fold_del_other in Hget by exact Hnot.
  apply get_in in Hget. unfold peers1 in Hget. apply in_map_iff in Hget.
  destruct Hget as ([k data0] & Heq & Hin0). injection Heq as -> <-.
  split; [|apply expire_action_settled].
  destruct (timed_out now data0) eqn:Hout.
  - exfalso. apply Hnot. apply in_sweep_leaves. exists data0. auto.
  - unfold timed_out in Hout. rewrite Z.gtb_ltb in Hout.
    assert (Hsame : p_last_seen (expire_action now data0) = p_last_seen data0)
      by (unfold expire_action; destruct (_ && _); reflexivity).
    rewrite Hsame. change PEER_TIMEOUT with 8%Z in Hout.
    apply Z.ltb_ge in Hout. exact Hout.
Qed.

Lemma sweep_live_peer (e : env) (w : world) (P : pystr) (data : peer) :
  NoDup (PyDict.keys (ACTIVE_PEERS (G w))) ->
  PyDict.get (ACTIVE_PEERS (G w)) P = Some data ->
  (datetime_now (the_clock e) - p_last_seen data <= timedelta_seconds 8)%Z ->
  PyDict.get (ACTIVE_PEERS (G (snd (check_peers_lifecycle e w)))) P =
    Some (expire_action (datetime_now (the_clock e)) data) /\
  filter (is_leave_of P) (sweep_events e (G w)) = [] /\
  In P (LAST_ONLINE_IPS (G (snd (check_peers_lifecycle e w)))).
Proof.
  intros Hnd Hget Hseen.
  set (now := datetime_now (the_clock e)) in *.
  assert (Hlive : timed_out now data = false).
  { unfold timed_out. rewrite Z.gtb_ltb. apply Z.ltb_ge.
    change PEER_TIMEOUT with 8%Z. exact Hseen. }
  assert (Hnot : ~ In P (sweep_leaves now (ACTIVE_PEERS (G w)))).
  { intros Hin. apply in_sweep_leaves in Hin. destruct Hin as (data' & Hin & Hout).
    rewrite (@nodup_in_get _ _ P data' Hnd Hin) in Hget. injection Hget as ->.
    congruence. }
  rewrite check_peers_lifecycle_run.
  cbn [snd G ACTIVE_PEERS LAST_ONLINE_IPS]. fold now.
  split; [|split].
  - rewrite get_fold_del_other by exact Hnot.
    rewrite (map_ext _ (fun kv => (fst kv, expire_action now (snd kv))))
      by (intros [k v]; reflexivity).
    rewrite get_map_values, Hget. reflexivity.
  - unfold sweep_events. rewrite filter_app, join_count, app_nil_r. fold now.
    destruct (filter (is_leave_of P)
                (map (leave_event (the_clock e))
                   (sweep_leaves now (ACTIVE_PEERS (G w))))) as [|ev l] eqn:Hf;
      [reflexivity|].
    exfalso. apply Hnot.
    assert (Hin : In ev (filter (is_leave_of P)
                           (map (leave_event (the_clock e))
                              (sweep_leaves now (ACTIVE_PEERS (G w))))))
      by (rewrite Hf; left; reflexivity).
    apply filter_In in Hin. destruct Hin as [Hin Hleave].
    apply in_map_iff in Hin. destruct Hin as (k & <- & Hk).
    change (is_leave_of P (leave_event (the_clock e) k)) with (str_eqb k P)
      in Hleave.
    apply str_eqb_eq in Hleave. subst k. exact Hk.
  - unfold sweep_current. apply in_fold_set_add. left.
    apply (@get_in_filter _ (fun d => negb (timed_out now d)) _ P data Hget).
    rewrite Hlive. reflexivity.
Qed.

(** A sweep does not drop a peer that is alive: a registered peer seen
    within the last 8 seconds stays in the registry, with its data
    untouched but for an expired action, and no [leave] event is recorded
    for it. *)
Theorem sweep_keeps_live_peer (e : env) (w : world) (P : pystr) (data : peer) :
  NoDup (PyDict.keys (ACTIVE_PEERS (G w))) ->
  PyDict.get (ACTIVE_PEERS (G w)) P = Some data ->
  (datetime_now (the_clock e) - p_last_seen data <= timedelta_seconds 8)%Z ->
  PyDict.get (ACTIVE_PEERS (G (snd (check_peers_lifecycle e w)))) P =
    Some (expire_action (datetime_now (the_clock e)) data) /\
  filter (is_leave_of P) (sweep_events e (G w)) = [] /\
  In P (LAST_ONLINE_IPS (G (snd (check_peers_lifecycle e w)))).
Proof. apply sweep_live_peer. Qed.

End SweepMore.

(** ** Polling the status *)

Section Polling.

Context {FS : FileSystem}.
Variables RELEASE_DIR RECEIVED_DIR : pystr.

Lemma api_status_run (e : env) (w : world) :
  exists body,
    api_status e w =
      (Ok (Jsonify 200 (JDict body)), snd (check_peers_lifecycle e w)).
Proof.
  unfold api_status. monad_simpl. rewrite check_peers_lifecycle_run.
  cbv beta iota. eexists. reflexivity.
Qed.

Lemma intercept_records (e : env) (w : world) :
  locked (SERVER_STATE (G w)) = false ->
  is_admin_addr (remote_addr (the_request e)) = false ->
  startswith (req_path (the_request e)) (py "/api/") = true ->
  global_intercept e w =
    record_activity (remote_addr (the_request e)) None None e w.
Proof.
  intros Hlocked Hpeer Hpath. unfold global_intercept. monad_simpl.
  rewrite Hlocked. cbn [andb when]. monad_simpl.
  unfold is_admin_addr in Hpeer. apply orb_false_elim in Hpeer.
  destruct Hpeer as [-> ->]. cbn [negb andb when]. rewrite Hpath.
  reflexivity.
Qed.

(** A peer that polls the status is present: when the server is not
    locked, the poll of a peer is answered with the status, and afterwards
    the peer is in the registry with [last_seen] at the instant of the
    poll and in the snapshot of live addresses, whatever the sweep of that
    poll removed. *)
Theorem status_poll_registers_poller (e : env) (w : world) :
  NoDup (PyDict.keys (ACTIVE_PEERS (G w))) ->
  locked (SERVER_STATE (G w)) = false ->
  is_admin_addr (remote_addr (the_request e)) = false ->
  req_endpoint (the_request e) = Some ep_api_status ->
  startswith (req_path (the_request e)) (py "/api/") = true ->
  exists body w' data,
    full_dispatch_request RELEASE_DIR RECEIVED_DIR e w =
      (Jsonify 200 (JDict body), w') /\
    PyDict.get (ACTIVE_PEERS (G w')) (remote_addr (the_request e)) = Some data /\
    p_last_seen data = datetime_now (the_clock e) /\
    In (remote_addr (the_request e)) (LAST_ONLINE_IPS (G w')).
Proof.
  intros Hnd Hlocked Hpeer Hep Hpath.
  unfold full_dispatch_request, bind at 1.
  rewrite (intercept_records e w Hlocked Hpeer Hpath), record_activity_run.
  set (w1 := mk_world _ (D w) (trace w)).
  unfold dispatch_request, bind at 1, ask. rewrite Hep.
  destruct (api_status_run e w1) as [body ->]. cbn [finalize].
  set (now := datetime_now (the_clock e)) in *.
  assert (Hentry : exists data1,
            PyDict.get (ACTIVE_PEERS (G w1)) (remote_addr (the_request e))
              = Some data1 /\ p_last_seen data1 = now).
  { unfold w1. cbn [G ACTIVE_PEERS with_peers]. unfold record_activity_peers.
    destruct (PyDict.get (ACTIVE_PEERS (G w)) (remote_addr (the_request e)));
      eexists; (split; [apply get_set_same|]).
    - destruct (get_device_type _); reflexivity.
    - reflexivity. }
  destruct Hentry as (data1 & Hget1 & Hseen1).
  assert (Hnd1 : NoDup (PyDict.keys (ACTIVE_PEERS (G w1)))).
  { unfold w1. cbn [G ACTIVE_PEERS with_peers].
    apply record_activity_peers_nodup, Hnd. }
  destruct (@sweep_live_peer FS e w1 (remote_addr (the_request e)) data1
              Hnd1 Hget1) as (Hkept & _ & Hlive).
  { fold now. rewrite Hseen1. unfold timedelta_seconds. lia. }
  exists body, (snd (check_peers_lifecycle e w1)),
    (expire_action now data1).
  split; [reflexivity|]. split; [exact Hkept|]. split; [|exact Hlive].
  unfold expire_action. destruct (_ && _); exact Hseen1.
Qed.

End Polling.

(** ** The three views of the received files *)

Section Views.

Context {FS : FileSystem}.
Variables RELEASE_DIR RECEIVED_DIR : pystr.

(** With file pool mode off a peer is shown its own uploads and nothing
    else: the answer has the role [client] and lists the regular files of
    the directory of the requesting address, latest upload first (nothing
    when the peer has no directory); the process state and the disk are
    untouched. *)
Theorem private_listing (e : env) (w : world) :
  is_admin_addr (remote_addr (the_request e)) = false ->
  file_pool (SERVER_STATE (G w)) = false ->
  readable RELEASE_DIR RECEIVED_DIR (D w) ->
  (fs_exists (D w) (OsPath.join RECEIVED_DIR (remote_addr (the_request e))) = true ->
   fs_isdir (D w) (OsPath.join RECEIVED_DIR (remote_addr (the_request e))) = true) ->
  exists my_files w',
    list_received_files RELEASE_DIR RECEIVED_DIR e w =
      (Ok (Jsonify 200
             (JDict [(py "role", JStr (py "client"));
                     (py "data", JList (sort_desc upload_time my_files));
                     (py "pool_enabled", JBool false)])),
       w') /\
    G w' = G w /\ D w' = D w /\
    my_files =
      (if fs_exists (D w) (OsPath.join RECEIVED_DIR (remote_addr (the_request e)))
       then map (fun f =>
                   my_file_entry f
                     (size_of (D w)
                        (OsPath.join
                           (OsPath.join RECEIVED_DIR (remote_addr (the_request e))) f))
                     (mtime_of (D w)
                        (OsPath.join
                           (OsPath.join RECEIVED_DIR (remote_addr (the_request e))) f)))
              (regular_files (D w)
                 (OsPath.join RECEIVED_DIR (remote_addr (the_request e))))
       else []) /\
    Permutation (sort_desc upload_time my_files) my_files /\
    StronglySorted newest_first (sort_desc upload_time my_files).
Proof.
  intros Hpeer Hpool Hread Hdir.
  set (my_dir := OsPath.join RECEIVED_DIR (remote_addr (the_request e))) in *.
  assert (Hwp : wp (list_received_files RELEASE_DIR RECEIVED_DIR) e w
    (fun rw =>
       fst rw =
         Ok (Jsonify 200
               (JDict [(py "role", JStr (py "client"));
                       (py "data",
                        JList (sort_desc upload_time
                                 (if fs_exists (D w) my_dir
                                  then map (fun f =>
                                              my_file_entry f
                                                (size_of (D w) (OsPath.join my_dir f))
                                                (mtime_of (D w) (OsPath.join my_dir f)))
                                         (regular_files (D w) my_dir)
                                  else [])));
                       (py "pool_enabled", JBool false)])) /\
       G (snd rw) = G w /\ D (snd rw) = D w)).
  { unfold list_received_files. wp_prim. wp_prim. wp_prim.
    rewrite Hpeer, Hpool. cbn [orb]. fold my_dir. wp_prim.
    destruct (fs_exists (D w) my_dir) eqn:Hex.
    - apply wp_bind.
      eapply wp_weaken;
        [apply (upload_entries_run Hread); [reflexivity|exact (Hdir eq_refl)]|].
      intros [r w1] (Hr & HG1 & HD1). cbn [fst snd G D] in Hr, HG1, HD1.
      rewrite Hr. unfold wp, ret. cbn [fst snd]. auto.
    - wp_prim. unfold wp, ret. cbn [fst snd G D]. auto. }
  unfold wp in Hwp. destruct Hwp as (Hr & HG & HD).
  eexists. exists (snd (list_received_files RELEASE_DIR RECEIVED_DIR e w)).
  split; [rewrite <- Hr; apply surjective_pairing|].
  split; [exact HG|]. split; [exact HD|]. split; [reflexivity|].
  split; [apply sort_desc_perm | apply sort_desc_sorted].
Qed.

(** With file pool mode on a peer is shown what the admin is shown: on
    the same disk the two answers carry the same structure and differ only
    in the role, [pool_view] for the peer and [admin] for the admin, and
    in the address they echo. *)
Theorem pool_view_matches_admin_view (e_peer e_admin : env) (w : world) :
  is_admin_addr (remote_addr (the_request e_peer)) = false ->
  is_admin_addr (remote_addr (the_request e_admin)) = true ->
  file_pool (SERVER_STATE (G w)) = true ->
  readable RELEASE_DIR RECEIVED_DIR (D w) ->
  exists data w1 w2,
    list_received_files RELEASE_DIR RECEIVED_DIR e_peer w =
      (Ok (Jsonify 200
             (JDict [(py "role", JStr (py "pool_view"));
                     (py "data", data);
                     (py "my_ip", JStr (remote_addr (the_request e_peer)));
                     (py "pool_enabled", JBool true)])),
       w1) /\
    list_received_files RELEASE_DIR RECEIVED_DIR e_admin w =
      (Ok (Jsonify 200
             (JDict [(py "role", JStr (py "admin"));
                     (py "data", data);
                     (py "my_ip", JStr (remote_addr (the_request e_admin)));
                     (py "pool_enabled", JBool true)])),
       w2).
Proof.
  intros Hpeer Hadmin Hpool Hread.
  destruct (listing_structure_run e_peer w Hread) as (w1 & Hrun1 & _).
  { rewrite Hpool. apply orb_true_r. }
  destruct (listing_structure_run e_admin w Hread) as (w2 & Hrun2 & _).
  { rewrite Hpool. apply orb_true_r. }
  rewrite Hpeer, Hpool in Hrun1. rewrite Hadmin, Hpool in Hrun2.
  cbn [negb andb] in Hrun1, Hrun2.
  eexists. exists w1, w2. split; [exact Hrun1 | exact Hrun2].
Qed.

Lemma when_record_frame (b : bool) (ip : pystr) (action device : option pystr)
    (e : env) (w : world) :
  exists w1,
    when b (record_activity ip action device) e w = (Ok tt, w1) /\
    SERVER_STATE (G w1) = SERVER_STATE (G w) /\
    EVENT_LOG (G w1) = EVENT_LOG (G w) /\
    D w1 = D w /\ trace w1 = trace w.
Proof.
  destruct b; cbn [when].
  - rewrite record_activity_run. eexists. split; [reflexivity|].
    repeat split.
  - exists w. repeat split.
Qed.




End Views.

(** ** Join detection *)

Lemma in_set_spec (s : list pystr) (x : pystr) : in_set s x = true <-> In x s.
Proof.
  unfold in_set. rewrite existsb_exists. split.
  - intros (y & Hy & Heq). apply str_eqb_eq in Heq. subst y. exact Hy.
  - intros Hin. exists x. split; [exact Hin | apply str_eqb_refl].
Qed.

Lemma nodup_fold_set_add (l : list pystr) :
  forall acc, NoDup acc -> NoDup (fold_left set_add l acc).
Proof.
  induction l as [|a l IH]; intros acc Hnd; simpl; [exact Hnd|].
  apply IH. unfold set_add. destruct (in_set acc a) eqn:Hmem; [exact Hnd|].
  apply NoDup_app; [exact Hnd | constructor; [intros []|constructor] |].
  intros x Hin [<-|[]]. apply in_set_spec in Hin. congruence.
Qed.

Lemma count_none (l : list pystr) (k : pystr) :
  ~ In k l -> filter (fun ip => str_eqb ip k) l = [].
Proof.
  induction l as [|a l IH]; intros Hnot; [reflexivity|]. simpl.
  destruct (str_eqb_spec a k) as [->|Hne].
  - exfalso. apply Hnot. left; reflexivity.
  - apply IH. intros H. apply Hnot. right; exact H.
Qed.

Lemma join_events_count (c : clock) (P : pystr) (l : list pystr) :
  length (filter (is_join_of P) (map (join_event c) l)) =
  length (filter (fun ip => str_eqb ip P) l).
Proof.
  induction l as [|ip l IH]; [reflexivity|]. cbn [map filter].
  change (is_join_of P (join_event c ip)) with (str_eqb ip P).
  destruct (str_eqb ip P); cbn [length]; rewrite IH; reflexivity.
Qed.

Lemma leave_events_no_join (c : clock) (P : pystr) (l : list pystr) :
  filter (is_join_of P) (map (leave_event c) l) = [].
Proof. induction l as [|ip l IH]; [reflexivity|]. exact IH. Qed.

Section Joins.

Context {FS : FileSystem}.

(** Join detection against the previous snapshot: the sweep records
    the [leave] events and then one [join] event for each address of
    [sweep_joins], in an order that is the set's and not the registry's.
    For a live peer other than 127.0.0.1, exactly one of them is a [join]
    event of the peer when its address is not in the snapshot left by the
    previous sweep, and none when it is; the host 127.0.0.1 never gets
    one. *)
Theorem sweep_joins_once (e : env) (w : world) (P : pystr) (data : peer) :
  NoDup (PyDict.keys (ACTIVE_PEERS (G w))) ->
  PyDict.get (ACTIVE_PEERS (G w)) P = Some data ->
  (datetime_now (the_clock e) - p_last_seen data <= timedelta_seconds 8)%Z ->
  P <> py "127.0.0.1" ->
  exists joins,
    Permutation joins (sweep_joins (datetime_now (the_clock e)) (G w)) /\
    EVENT_LOG (G (snd (check_peers_lifecycle e w))) =
      record_all
        (map (leave_event (the_clock e))
           (sweep_leaves (datetime_now (the_clock e)) (ACTIVE_PEERS (G w)))
         ++ map (join_event (the_clock e)) joins)
        (EVENT_LOG (G w)) /\
    length (filter (is_join_of P)
              (map (leave_event (the_clock e))
                 (sweep_leaves (datetime_now (the_clock e)) (ACTIVE_PEERS (G w)))
               ++ map (join_event (the_clock e)) joins)) =
      (if in_set (LAST_ONLINE_IPS (G w)) P then 0 else 1)%nat /\
    filter (is_join_of (py "127.0.0.1"))
      (map (leave_event (the_clock e))
         (sweep_leaves (datetime_now (the_clock e)) (ACTIVE_PEERS (G w)))
       ++ map (join_event (the_clock e)) joins) = [].
Proof.
  intros Hnd Hget Hseen Hne.
  pose proof (sweep_join_order_perm e (G w)) as Hperm.
  exists (sweep_join_order e (G w)). split; [exact Hperm|].
  set (now := datetime_now (the_clock e)) in *.
  split; [rewrite check_peers_lifecycle_run; reflexivity|].
  assert (Hcur : NoDup (sweep_current now (ACTIVE_PEERS (G w))))
    by (apply nodup_fold_set_add; constructor).
  assert (Hjoins : NoDup (sweep_joins now (G w)))
    by (unfold sweep_joins, sweep_new; apply NoDup_filter, NoDup_filter, Hcur).
  assert (Horder : NoDup (sweep_join_order e (G w)))
    by (apply (Permutation_NoDup (Permutation_sym Hperm) Hjoins)).
  rewrite !filter_app, !leave_events_no_join. cbn [app].
  split.
  - rewrite join_events_count.
    assert (Hlive : In P (sweep_current now (ACTIVE_PEERS (G w)))).
    { unfold sweep_current. apply in_fold_set_add. left.
      apply (@get_in_filter _ (fun d => negb (timed_out now d)) _ P data Hget).
      unfold timed_out. rewrite Z.gtb_ltb.
      apply negb_true_iff, Z.ltb_ge. change PEER_TIMEOUT with 8%Z. exact Hseen. }
    destruct (in_set (LAST_ONLINE_IPS (G w)) P) eqn:Hold.
    + rewrite count_none; [reflexivity|].
      intros Hin. apply (Permutation_in _ Hperm) in Hin.
      unfold sweep_joins, sweep_new in Hin. apply filter_In in Hin.
      destruct Hin as [Hin _]. apply filter_In in Hin.
      destruct Hin as [_ Hnew]. rewrite Hold in Hnew. discriminate Hnew.
    + apply count_once; [exact Horder|].
      apply (Permutation_in _ (Permutation_sym Hperm)).
      unfold sweep_joins, sweep_new. apply filter_In. split.
      * apply filter_In. split; [exact Hlive|]. rewrite Hold. reflexivity.
      * apply negb_true_iff, str_eqb_neq. exact Hne.
  - destruct (filter (is_join_of (py "127.0.0.1"))
                (map (join_event (the_clock e)) (sweep_join_order e (G w))))
      as [|ev l] eqn:Hf; [reflexivity|].
    exfalso.
    assert (Hin : In ev (filter (is_join_of (py "127.0.0.1"))
                           (map (join_event (the_clock e))
                              (sweep_join_order e (G w)))))
      by (rewrite Hf; left; reflexivity).
    apply filter_In in Hin. destruct Hin as [Hin Hjoin].
    apply in_map_iff in Hin. destruct Hin as (k & <- & Hk).
    change (is_join_of (py "127.0.0.1") (join_event (the_clock e) k))
      with (str_eqb k (py "127.0.0.1")) in Hjoin.
    unfold sweep_join_order in Hk. apply filter_In in Hk. destruct Hk as [_ Hk].
    rewrite Hjoin in Hk. discriminate Hk.
Qed.

End Joins.

(** ** Masking hides the rest of the name *)

(** Two names with the same extension whose base names start with the
    same two characters are masked to the same string: the masked form
    shows nothing of a name beyond that. *)
Theorem masked_name_hides_the_rest (f1 f2 : pystr) :
  snd (OsPath.splitext f1) = snd (OsPath.splitext f2) ->
  firstn 2 (fst (OsPath.splitext f1)) = firstn 2 (fst (OsPath.splitext f2)) ->
  get_masked_name f1 = get_masked_name f2.
Proof.
  assert (Hform : forall f,
            get_masked_name f =
            firstn 2 (fst (OsPath.splitext f)) ++ py "***" ++ snd (OsPath.splitext f)).
  { intros f. unfold get_masked_name. destruct f as [|c s]; [reflexivity|].
    unfold masked_name_body. destruct (OsPath.splitext (c :: s)) as [name ext].
    cbn [fst snd]. destruct (Nat.leb_spec (length name) 2) as [Hle|Hgt].
    - rewrite firstn_all2 by exact Hle. reflexivity.
    - reflexivity. }
  intros Hext Hname. rewrite !Hform, Hext, Hname. reflexivity.
Qed.

(** ** Static assets pass a locked server *)

Section StaticExempt.

Context {FS : FileSystem}.
Variables RELEASE_DIR RECEIVED_DIR : pystr.

(** The exemption of the gate: while the server is locked, a request of a
    peer for a static asset is not refused; it gets what
    [send_from_directory] gives for the asset, and the registry and the
    log are as before. *)
Theorem locked_server_serves_static (e : env) (w : world) :
  locked (SERVER_STATE (G w)) = true ->
  is_admin_addr (remote_addr (the_request e)) = false ->
  req_endpoint (the_request e) = Some ep_static ->
  startswith (req_path (the_request e)) (py "/api/")
  || startswith (req_path (the_request e)) (py "/upload")
  || startswith (req_path (the_request e)) (py "/download") = false ->
  full_dispatch_request RELEASE_DIR RECEIVED_DIR e w =
    finalize
      (send_from_directory (static_folder e) (req_filename (the_request e)) e w) /\
  G (snd (full_dispatch_request RELEASE_DIR RECEIVED_DIR e w)) = G w.
Proof.
  intros Hlocked Hpeer Hep Hpath.
  assert (Hgate : global_intercept e w = (Ok tt, w)).
  { unfold global_intercept. monad_simpl. rewrite Hlocked, Hpeer, Hep.
    cbn [andb negb endpoint_eqb when]. monad_simpl.
    rewrite Hpath. cbn [when].
    destruct (negb _ && negb _); reflexivity. }
  assert (Hrun : full_dispatch_request RELEASE_DIR RECEIVED_DIR e w =
                 finalize (send_from_directory (static_folder e)
                             (req_filename (the_request e)) e w)).
  { unfold full_dispatch_request, bind at 1. rewrite Hgate.
    unfold dispatch_request, bind, ask. rewrite Hep. reflexivity. }
  split; [exact Hrun|]. rewrite Hrun.
  unfold send_from_directory.
  destruct (fs_send_from_directory _ _ _); reflexivity.
Qed.

End StaticExempt.

(** ** A sweep repeated at the same instant *)

Lemma fold_del_head_out {V} (l : list pystr) :
  forall (d : PyDict.dict V) (k : pystr) (v : V),
    ~ In k l ->
    fold_left (@PyDict.del V) l ((k, v) :: d) =
    (k, v) :: fold_left (@PyDict.del V) l d.
Proof.
  induction l as [|a l IH]; intros d k v Hnot; simpl; [reflexivity|].
  destruct (str_eqb_spec k a) as [->|Hne].
  - exfalso. apply Hnot. left; reflexivity.
  - apply IH. intros H. apply Hnot. right; exact H.
Qed.

(** Deleting the keys of the entries that satisfy [f] leaves the entries
    that do not. *)
Lemma fold_del_filter {V} (f : V -> bool) (d : PyDict.dict V) :
  NoDup (PyDict.keys d) ->
  fold_left (@PyDict.del V) (map fst (filter (fun kv => f (snd kv)) d)) d =
  filter (fun kv => negb (f (snd kv))) d.
Proof.
  unfold PyDict.keys. induction d as [|[k v] d IH]; intros Hnd; [reflexivity|].
  inversion Hnd as [|? ? Hnotin Hnd']; subst.
  cbn [filter snd]. destruct (f v); cbn [negb map fst fold_left PyDict.del].
  - rewrite str_eqb_refl. apply IH, Hnd'.
  - rewrite fold_del_head_out; [f_equal; apply IH, Hnd'|].
    intros Hin. apply Hnotin. apply in_map_iff in Hin.
    destruct Hin as (x & Hx & Hin). apply filter_In in Hin.
    apply in_map_iff. exists x. tauto.
Qed.

Lemma expire_action_idem (now : Z) (data : peer) :
  expire_action now (expire_action now data) = expire_action now data.
Proof.
  unfold expire_action.
  destruct (negb (str_eqb (p_action data) (py "idle"))
            && (now >? p_action_time data)%Z) eqn:Hc.
  - reflexivity.
  - rewrite Hc. reflexivity.
Qed.

Lemma filter_filter_neg {A} (f : A -> bool) (l : list A) :
  filter f (filter (fun x => negb (f x)) l) = [].
Proof.
  induction l as [|a l IH]; [reflexivity|]. simpl.
  destruct (f a) eqn:Hfa; cbn [negb]; [exact IH|].
  simpl. rewrite Hfa. exact IH.
Qed.

Lemma filter_idem {A} (f : A -> bool) (l : list A) :
  filter f (filter f l) = filter f l.
Proof.
  induction l as [|a l IH]; [reflexivity|]. simpl.
  destruct (f a) eqn:Hfa; [|exact IH]. simpl. rewrite Hfa, IH. reflexivity.
Qed.

Lemma filter_not_in_self (s : list pystr) :
  filter (fun ip => negb (in_set s ip)) s = [].
Proof.
  assert (H : forall l, (forall x, In x l -> In x s) ->
                        filter (fun ip => negb (in_set s ip)) l = []).
  { induction l as [|a l IH]; intros Hsub; [reflexivity|]. simpl.
    assert (Ha : in_set s a = true)
      by (apply in_set_spec, Hsub; left; reflexivity).
    rewrite Ha. apply IH. intros x Hx. apply Hsub. right; exact Hx. }
  apply H. auto.
Qed.

Section SweepTwice.

Context {FS : FileSystem}.

(** What the sweep leaves of the registry, in one expression: the peers
    that have not timed out, with their expired actions reset. *)
Lemma sweep_registry (now : Z) (peers : PyDict.dict peer) :
  NoDup (PyDict.keys peers) ->
  fold_left (@PyDict.del peer) (sweep_leaves now peers)
    (map (fun '(ip, data) => (ip, expire_action now data)) peers) =
  filter (fun kv => negb (timed_out now (snd kv)))
    (map (fun kv => (fst kv, expire_action now (snd kv))) peers).
Proof.
  intros Hnd.
  rewrite (map_ext _ (fun kv => (fst kv, expire_action now (snd kv))))
    by (intros [k v]; reflexivity).
  assert (Hleaves : sweep_leaves now peers =
            map fst (filter (fun kv => timed_out now (snd kv))
                       (map (fun kv => (fst kv, expire_action now (snd kv))) peers))).
  { unfold sweep_leaves. clear Hnd.
    induction peers as [|[k v] peers IH]; [reflexivity|].
    cbn [map filter fst snd]. rewrite timed_out_expire.
    destruct (timed_out now v); cbn [map fst]; rewrite IH; reflexivity. }
  rewrite Hleaves. apply fold_del_filter.
  unfold PyDict.keys in *. rewrite map_map. cbn [fst]. exact Hnd.
Qed.

(** Sweeping again at the same instant changes nothing: the registry, the
    snapshot of live addresses and the log are as the first sweep left
    them, so no peer is dropped and no [join] or [leave] event is recorded
    a second time. *)
Theorem sweep_twice_is_sweep_once (e : env) (w : world) :
  NoDup (PyDict.keys (ACTIVE_PEERS (G w))) ->
  check_peers_lifecycle e (snd (check_peers_lifecycle e w)) =
    (Ok tt, snd (check_peers_lifecycle e w)).
Proof.
  intros Hnd. rewrite (check_peers_lifecycle_run e w). cbn [snd].
  rewrite check_peers_lifecycle_run.
  cbn [G D trace SERVER_STATE ACTIVE_PEERS EVENT_LOG LAST_ONLINE_IPS].
  set (now := datetime_now (the_clock e)).
  set (peers := ACTIVE_PEERS (G w)) in *.
  rewrite (@sweep_registry now peers Hnd).
  set (expired := map (fun kv => (fst kv, expire_action now (snd kv))) peers).
  set (kept := filter (fun kv => negb (timed_out now (snd kv))) expired).
  assert (Hleaves : sweep_leaves now kept = []).
  { unfold sweep_leaves, kept.
    rewrite (filter_ext (fun '(_, data) => timed_out now data)
               (fun kv => timed_out now (snd kv)))
      by (intros [k v]; reflexivity).
    rewrite filter_filter_neg. reflexivity. }
  assert (Hexpired : map (fun '(ip, data) => (ip, expire_action now data)) kept
                     = kept).
  { unfold kept, expired. clear. induction peers as [|[k v] peers IH];
      [reflexivity|].
    cbn [map filter fst snd].
    destruct (negb (timed_out now (expire_action now v))); [|exact IH].
    cbn [map]. rewrite expire_action_idem, IH. reflexivity. }
  assert (Hcurrent : sweep_current now kept = sweep_current now peers).
  { unfold sweep_current. f_equal.
    assert (Hfe : forall l : PyDict.dict peer,
              filter (fun '(_, data) => negb (timed_out now data)) l =
              filter (fun kv => negb (timed_out now (snd kv))) l)
      by (intros l; apply filter_ext; intros [k v]; reflexivity).
    rewrite !Hfe. unfold kept. rewrite filter_idem. unfold expired. clear.
    induction peers as [|[k v] peers IH]; [reflexivity|].
    cbn [map filter fst snd]. rewrite timed_out_expire.
    destruct (negb (timed_out now v)); cbn [map fst]; rewrite IH; reflexivity. }
  rewrite Hleaves, Hexpired, Hcurrent. cbn [fold_left].
  assert (Hevents :
    sweep_events e
      (mk_globals (SERVER_STATE (G w)) kept
         (record_all (sweep_events e (G w)) (EVENT_LOG (G w)))
         (sweep_current now peers)) = []).
  { unfold sweep_events, sweep_join_order, sweep_new.
    cbn [ACTIVE_PEERS LAST_ONLINE_IPS]. fold now.
    rewrite Hleaves, Hcurrent, filter_not_in_self. reflexivity. }
  rewrite Hevents. reflexivity.
Qed.

End SweepTwice.

(** ** Opening the pool *)

Section OpenPool.

Context {FS : FileSystem}.
Variables RELEASE_DIR RECEIVED_DIR : pystr.

(** The effect of the pool toggle on what a peer sees: with file pool
    mode off, once the admin has toggled it the listing asked by a peer is
    a pool view, with the published files and the groups of all peers, and
    the status shown to that peer masks no event; the toggle itself has
    recorded one [pool_toggle] event saying that the mode is enabled. *)
Theorem pool_toggle_opens_the_pool (e_admin e_peer : env) (w : world) :
  is_admin_addr (remote_addr (the_request e_admin)) = true ->
  is_admin_addr (remote_addr (the_request e_peer)) = false ->
  file_pool (SERVER_STATE (G w)) = false ->
  readable RELEASE_DIR RECEIVED_DIR (D w) ->
  fst (api_toggle_pool e_admin w) =
    Ok (Jsonify 200 (JDict [(py "file_pool", JBool true)])) /\
  EVENT_LOG (G (snd (api_toggle_pool e_admin w))) =
    appendleft MAX_EVENTS (pool_event (the_clock e_admin) true) (EVENT_LOG (G w)) /\
  (exists w',
     list_received_files RELEASE_DIR RECEIVED_DIR e_peer
       (snd (api_toggle_pool e_admin w)) =
       (Ok (Jsonify 200
              (JDict
                 [(py "role", JStr (py "pool_view"));
                  (py "data",
                   JDict
                     (map (fun '(k, v) => (k, JList v))
                        (fold_left (add_group RECEIVED_DIR (D w))
                           (if fs_exists (D w) RECEIVED_DIR
                            then listing (D w) RECEIVED_DIR else [])
                           [(py "Server", published_files RELEASE_DIR (D w))])));
                  (py "my_ip", JStr (remote_addr (the_request e_peer)));
                  (py "pool_enabled", JBool true)])),
        w')) /\
  (forall ev,
     client_safe_event
       (negb (is_admin_addr (remote_addr (the_request e_peer)))
        && negb (file_pool (SERVER_STATE (G (snd (api_toggle_pool e_admin w))))))
       (remote_addr (the_request e_peer)) ev = event_copy ev).
Proof.
  intros Hadmin Hpeer Hpool Hread.
  rewrite (@api_toggle_pool_run FS e_admin w Hadmin), Hpool. cbn [fst snd negb].
  split; [reflexivity|]. split; [reflexivity|]. split.
  - set (w1 := mk_world _ (D w) (trace w)).
    destruct (@listing_structure_run FS RELEASE_DIR RECEIVED_DIR e_peer w1)
      as (w' & Hrun & _).
    + exact Hread.
    + apply orb_true_r.
    + exists w'. rewrite Hrun, Hpeer. reflexivity.
  - intros ev. rewrite client_safe_event_cases.
    cbn [G SERVER_STATE file_pool negb]. rewrite andb_false_r. reflexivity.
Qed.

End OpenPool.

(** ** What leaves the disk alone *)

Section DiskFrame.

Context {FS : FileSystem}.
Variables RELEASE_DIR RECEIVED_DIR : pystr.

Lemma disk_intercept (e : env) (w : world) :
  D (snd (global_intercept e w)) = D w.
Proof.
  change (wp global_intercept e w (fun rw => D (snd rw) = D w)).
  unfold global_intercept. wp_prim. wp_prim. wp_prim.
  apply wp_bind. unfold wp at 1, when.
  destruct (locked (SERVER_STATE (G w)) && _);
    [destruct (negb _)|]; cbn [abort raise ret]; unfold abort, raise, ret;
    try reflexivity.
  all: unfold wp, when.
  all: destruct (str_eqb_spec (remote_addr (the_request e)) (py "127.0.0.1"))
         as [Heq|Hne]; cbn [negb andb]; try reflexivity.
  all: destruct (negb _); cbn [andb]; try reflexivity.
  all: destruct (_ || _); try reflexivity.
  all: rewrite record_activity_run; reflexivity.
Qed.

Lemma disk_download (filename : pystr) (e : env) (w : world) :
  D (snd (download_file RELEASE_DIR RECEIVED_DIR filename e w)) = D w.
Proof.
  change (wp (download_file RELEASE_DIR RECEIVED_DIR filename) e w
            (fun rw => D (snd rw) = D w)).
  unfold download_file.
  destruct (contains filename (py "..") || startswith filename (py "/")).
  { wp_prim. reflexivity. }
  wp_prim. wp_prim. apply wp_bind. unfold wp at 1.
  destruct (when_record_frame
              (negb (str_eqb (remote_addr (the_request e)) (py "127.0.0.1")))
              (remote_addr (the_request e)) (Some (py "download")) None e w)
    as (w1 & -> & _ & _ & HD1 & _).
  cbv beta iota. wp_prim.
  assert (Hsend : forall p dir (w2 : world),
            D w2 = D w ->
            wp (send_from_directory dir p) e w2 (fun rw => D (snd rw) = D w)).
  { intros p dir w2 HD2. unfold wp.
    destruct (read_only_send dir p e w2) as [_ ->]. exact HD2. }
  destruct (startswith filename (py "__release__/")); [apply Hsend; exact HD1|].
  wp_prim. destruct (fs_exists _ _); [apply Hsend; exact HD1|].
  wp_prim. wp_prim.
  destruct (is_admin_addr _ || _); [|exact HD1].
  destruct (split1 OsPath.sep filename) as [|part0 [|part1 [|? ?]]];
    try exact HD1.
  wp_prim. destruct (fs_exists _ _); [apply Hsend; exact HD1|exact HD1].
Qed.

(** Only uploads and deletions change the disk: a request for any other
    endpoint, or for no endpoint at all, leaves the disk as it was,
    whatever the request carries, whoever sends it and whatever it is
    answered. Downloads, listings, the status poll, the index and the two
    toggles write nothing. *)
Theorem only_upload_and_delete_write (e : env) (w : world) :
  req_endpoint (the_request e) <> Some ep_upload_file ->
  req_endpoint (the_request e) <> Some ep_delete_file ->
  D (snd (full_dispatch_request RELEASE_DIR RECEIVED_DIR e w)) = D w.
Proof.
  intros Hup Hdel.
  assert (Hview : forall w1 : world,
            D (snd (dispatch_request RELEASE_DIR RECEIVED_DIR e w1)) = D w1).
  { intros w1. unfold dispatch_request, bind, ask.
    destruct (req_endpoint (the_request e)) as [[]|]; try congruence.
    - apply read_only_send.
    - apply read_only_index.
    - destruct (api_status_run e w1) as [body ->]. cbn [snd].
      rewrite check_peers_lifecycle_run. reflexivity.
    - unfold api_toggle_lock. monad_simpl.
      destruct (negb _); reflexivity.
    - unfold api_toggle_pool. monad_simpl.
      destruct (negb _); reflexivity.
    - apply read_only_list_release_files.
    - apply read_only_list_received_files.
    - apply disk_download.
    - reflexivity. }
  unfold full_dispatch_request, bind.
  pose proof (disk_intercept e w) as Hi.
  destruct (global_intercept e w) as [[[]|x] w1]; cbn [snd] in Hi.
  - specialize (Hview w1).
    destruct (dispatch_request RELEASE_DIR RECEIVED_DIR e w1) as [[resp|x] w2];
      cbn [snd finalize] in *; [congruence|].
    destruct x; cbn [snd]; congruence.
  - destruct x; cbn [finalize snd]; exact Hi.
Qed.

End DiskFrame.

(** ** The log only grows at its head *)

(** Closing the goals left by a run that records at most one event. *)
Ltac one_event_norm :=
  cbv beta iota; cbn [fst snd G];
  unfold with_server_state, with_peers, with_events, with_last_online;
  cbn [EVENT_LOG G].

Ltac one_event_steps :=
  one_event_norm;
  first
    [ left; reflexivity
    | right; do 4 eexists; split; [|reflexivity];
      repeat first [ left; reflexivity | right ] ].

Section LogGrows.

Context {FS : FileSystem}.
Variables RELEASE_DIR RECEIVED_DIR : pystr.

Lemma one_event_read_only {A} (m : M A) (c : clock) (log0 : list event)
    (e : env) (w : world) :
  read_only m ->
  one_event c log0 (EVENT_LOG (G w)) ->
  one_event c log0 (EVENT_LOG (G (snd (m e w)))).
Proof. intros Hm Hlog. destruct (Hm e w) as [-> _]. exact Hlog. Qed.

(** The [before_request] hook records no event. *)
Lemma intercept_keeps_log (e : env) (w : world) :
  EVENT_LOG (G (snd (global_intercept e w))) = EVENT_LOG (G w).
Proof.
  change (wp global_intercept e w
            (fun rw => EVENT_LOG (G (snd rw)) = EVENT_LOG (G w))).
  unfold global_intercept. wp_prim. wp_prim. wp_prim.
  apply wp_bind. unfold wp at 1, when.
  destruct (locked (SERVER_STATE (G w)) && _);
    [destruct (negb _)|]; cbn [abort raise ret]; unfold abort, raise, ret;
    try reflexivity.
  all: unfold wp, when.
  all: destruct (str_eqb_spec (remote_addr (the_request e)) (py "127.0.0.1"))
         as [Heq|Hne]; cbn [negb andb]; try reflexivity.
  all: destruct (negb _); cbn [andb]; try reflexivity.
  all: destruct (_ || _); try reflexivity.
  all: rewrite record_activity_run; reflexivity.
Qed.

Lemma one_event_toggles (e : env) (w : world) :
  one_event (the_clock e) (EVENT_LOG (G w))
    (EVENT_LOG (G (snd (api_toggle_lock e w)))) /\
  one_event (the_clock e) (EVENT_LOG (G w))
    (EVENT_LOG (G (snd (api_toggle_pool e w)))).
Proof.
  split.
  - change (wp api_toggle_lock e w
              (fun rw => one_event (the_clock e) (EVENT_LOG (G w))
                           (EVENT_LOG (G (snd rw))))).
    unfold api_toggle_lock. wp_run; one_event_steps.
  - change (wp api_toggle_pool e w
              (fun rw => one_event (the_clock e) (EVENT_LOG (G w))
                           (EVENT_LOG (G (snd rw))))).
    unfold api_toggle_pool. wp_run; one_event_steps.
Qed.

Lemma one_event_delete (e : env) (w : world) :
  one_event (the_clock e) (EVENT_LOG (G w))
    (EVENT_LOG (G (snd (delete_file RELEASE_DIR RECEIVED_DIR e w)))).
Proof.
  change (wp (delete_file RELEASE_DIR RECEIVED_DIR) e w
            (fun rw => one_event (the_clock e) (EVENT_LOG (G w))
                         (EVENT_LOG (G (snd rw))))).
  unfold delete_file. wp_run; one_event_steps.
Qed.

Lemma one_event_download (filename : pystr) (e : env) (w : world) :
  one_event (the_clock e) (EVENT_LOG (G w))
    (EVENT_LOG (G (snd (download_file RELEASE_DIR RECEIVED_DIR filename e w)))).
Proof.
  change (wp (download_file RELEASE_DIR RECEIVED_DIR filename) e w
            (fun rw => one_event (the_clock e) (EVENT_LOG (G w))
                         (EVENT_LOG (G (snd rw))))).
  unfold download_file.
  destruct (contains filename (py "..") || startswith filename (py "/")).
  { wp_prim. left. reflexivity. }
  wp_prim. wp_prim. apply wp_bind. unfold wp at 1.
  destruct (when_record_frame
              (negb (str_eqb (remote_addr (the_request e)) (py "127.0.0.1")))
              (remote_addr (the_request e)) (Some (py "download")) None e w)
    as (w1 & -> & _ & Hlog1 & _ & _).
  cbv beta iota. wp_prim.
  assert (Hlog2 : one_event (the_clock e) (EVENT_LOG (G w))
            (EVENT_LOG
               (with_events (G w1)
                  (appendleft MAX_EVENTS (download_event e filename)
                     (EVENT_LOG (G w1)))))).
  { cbn [EVENT_LOG with_events]. rewrite Hlog1. unfold download_event.
    right. do 4 eexists. split; [|reflexivity].
    repeat first [ left; reflexivity | right ]. }
  unfold download_event in Hlog2.
  destruct (startswith filename (py "__release__/"));
    [apply one_event_read_only; [apply read_only_send|exact Hlog2]|].
  wp_prim. destruct (fs_exists _ _);
    [apply one_event_read_only; [apply read_only_send|exact Hlog2]|].
  wp_prim. wp_prim.
  destruct (is_admin_addr _ || _); [|exact Hlog2].
  destruct (split1 OsPath.sep filename) as [|part0 [|part1 [|? ?]]];
    try exact Hlog2.
  wp_prim. destruct (fs_exists _ _);
    [apply one_event_read_only; [apply read_only_send|exact Hlog2]|exact Hlog2].
Qed.

Lemma one_event_upload (e : env) (w : world) :
  one_event (the_clock e) (EVENT_LOG (G w))
    (EVENT_LOG (G (snd (upload_file RELEASE_DIR RECEIVED_DIR e w)))).
Proof.
  change (wp (upload_file RELEASE_DIR RECEIVED_DIR) e w
            (fun rw => one_event (the_clock e) (EVENT_LOG (G w))
                         (EVENT_LOG (G (snd rw))))).
  unfold upload_file. wp_prim. wp_prim.
  apply wp_bind. unfold wp at 1.
  destruct (when_record_frame
              (negb (is_admin_addr (remote_addr (the_request e))))
              (remote_addr (the_request e)) (Some (py "upload")) None e w)
    as (w1 & -> & _ & Hlog1 & _ & _).
  cbv beta iota.
  assert (Hrest : forall (w2 : world) save_dir k,
    G w2 = G w1 ->
    (forall acc w3, G w3 = G w1 ->
       wp (k acc) e w3
         (fun rw => one_event (the_clock e) (EVENT_LOG (G w))
                      (EVENT_LOG (G (snd rw))))) ->
    wp (bind (for_fold (req_files (the_request e)) (0%Z, [])
                (save_upload save_dir)) k) e w2
      (fun rw : result response * world =>
         one_event (the_clock e) (EVENT_LOG (G w)) (EVENT_LOG (G (snd rw))))).
  { intros w2 save_dir k HG2 Hk. apply wp_bind.
    eapply wp_weaken; [apply save_upload_loop|].
    intros [r w3] [HG3 _]. cbn [fst snd] in HG3.
    destruct r as [acc|x].
    - apply Hk. congruence.
    - cbn [snd]. rewrite HG3, HG2, Hlog1. left. reflexivity. }
  wp_prim.
  destruct (fs_exists (D w1) _).
  - wp_prim. apply Hrest; [reflexivity|].
    intros [n l] w3 HG3.
    wp_run; one_event_norm; rewrite ?HG3, ?Hlog1; one_event_steps.
  - wp_prim. destruct (fs_makedirs (D w1) _); cbv beta iota.
    + apply Hrest; [reflexivity|].
      intros [n l] w3 HG3.
      wp_run; one_event_norm; rewrite ?HG3, ?Hlog1; one_event_steps.
    + cbn [snd G]. rewrite Hlog1. left. reflexivity.
Qed.

(** No request rewrites the history. Whatever the request and whatever
    its outcome, the log after it is the log before it with the events of
    the request recorded in front, one after the other, and these events
    are: for a status poll that passes the gate, the events of its sweep
    (on the registry in which the hook has recorded the poller); for any
    other request, nothing or one event of the file operations and the
    toggles, made at the instant of the request. So an older event is
    never changed or reordered, and it leaves the log only at its far end,
    pushed out by these newer ones. *)
Theorem requests_only_prepend_events (e : env) (w : world) :
  exists new,
    EVENT_LOG (G (snd (full_dispatch_request RELEASE_DIR RECEIVED_DIR e w))) =
      record_all new (EVENT_LOG (G w)) /\
    (new = [] \/
     (req_endpoint (the_request e) <> Some ep_api_status /\
      exists type msg ip filename,
        In type [py "system"; py "pool_toggle"; py "delete"; py "download";
                 py "upload"] /\
        new = [new_event (the_clock e) type msg ip filename]) \/
     (req_endpoint (the_request e) = Some ep_api_status /\
      new = sweep_events e (G (snd (global_intercept e w))))).
Proof.
  assert (Hview : forall w1 : world,
            req_endpoint (the_request e) <> Some ep_api_status ->
            one_event (the_clock e) (EVENT_LOG (G w1))
              (EVENT_LOG (G (snd (dispatch_request RELEASE_DIR RECEIVED_DIR e w1))))).
  { intros w1 Hep. unfold dispatch_request, bind, ask.
    destruct (req_endpoint (the_request e)) as [[]|]; try congruence.
    - apply one_event_read_only; [apply read_only_send | left; reflexivity].
    - apply one_event_read_only; [apply read_only_index | left; reflexivity].
    - apply one_event_toggles.
    - apply one_event_toggles.
    - apply one_event_read_only;
        [apply read_only_list_release_files | left; reflexivity].
    - apply one_event_read_only;
        [apply read_only_list_received_files | left; reflexivity].
    - apply one_event_delete.
    - apply one_event_download.
    - apply one_event_upload.
    - left. reflexivity. }
  assert (Hfinal : forall r : result response * world,
            G (snd (finalize r)) = G (snd r)).
  { intros [[resp|x] w2]; [reflexivity|]. destruct x; reflexivity. }
  unfold full_dispatch_request. rewrite Hfinal. unfold bind.
  pose proof (intercept_keeps_log e w) as Hhook.
  destruct (global_intercept e w) as [[[]|x] w1] eqn:Hgate; cbn [snd] in Hhook.
  - assert (Hdec : req_endpoint (the_request e) = Some ep_api_status \/
                   req_endpoint (the_request e) <> Some ep_api_status).
    { destruct (req_endpoint (the_request e)) as [[]|];
        first [left; reflexivity | right; discriminate]. }
    destruct Hdec as [Hep|Hne].
    + exists (sweep_events e (G w1)).
      split; [|right; right; split; [exact Hep | reflexivity]].
      unfold dispatch_request, bind, ask. rewrite Hep.
      destruct (api_status_run e w1) as [body ->]. cbn [snd].
      rewrite check_peers_lifecycle_run. cbn [snd G EVENT_LOG].
      rewrite Hhook. reflexivity.
    + destruct (Hview w1 Hne) as [Hsame|(type & msg & ip & filename & Hin & Hone)].
      * exists []. split; [rewrite Hsame, Hhook; reflexivity | left; reflexivity].
      * exists [new_event (the_clock e) type msg ip filename].
        split; [rewrite Hone, Hhook; reflexivity|].
        right; left. split; [exact Hne|]. eauto 10.
  - exists []. split; [exact Hhook | left; reflexivity].
Qed.

End LogGrows.

(** ** Runs of the further properties *)

Lemma stocked_reachable :
  @reachable MemFS.fs Sample.RELEASE_DIR Sample.RECEIVED_DIR Sample.stocked.
Proof.
  unfold Sample.stocked, Sample.serve.
  apply reach_request, reach_request. apply (@reach_start MemFS.fs).
Qed.

Lemma reachable_log_bounded_run :
  (length (EVENT_LOG (G Sample.stocked)) <= 50)%nat.
Proof.
  apply (@reachable_log_bounded MemFS.fs Sample.RELEASE_DIR Sample.RECEIVED_DIR).
  exact stocked_reachable.
Defined.

Lemma reachable_keys_distinct_run :
  NoDup (PyDict.keys (ACTIVE_PEERS (G Sample.stocked))).
Proof.
  apply (@reachable_keys_distinct MemFS.fs Sample.RELEASE_DIR Sample.RECEIVED_DIR).
  exact stocked_reachable.
Defined.

Lemma reachable_loopback_not_registered_run :
  PyDict.get (ACTIVE_PEERS (G Sample.stocked)) (py "127.0.0.1") = None.
Proof.
  apply (@reachable_loopback_not_registered MemFS.fs Sample.RELEASE_DIR
           Sample.RECEIVED_DIR).
  exact stocked_reachable.
Defined.

Lemma admin_only_operations_run :
  delete_file Sample.RELEASE_DIR Sample.RECEIVED_DIR
    (Sample.env_at
       (Sample.delete_request Sample.peer_A (py "release") (py "a.txt")) 5)
    Sample.stocked =
    (Ok (Jsonify 403 (JDict [(py "error", JStr (py "Permission denied"))])),
     Sample.stocked).
Proof.
  apply (@admin_only_operations_refuse_peers MemFS.fs Sample.RELEASE_DIR
           Sample.RECEIVED_DIR
           (Sample.env_at
              (Sample.delete_request Sample.peer_A (py "release") (py "a.txt")) 5)
           Sample.stocked).
  vm_compute. reflexivity.
Defined.

Lemma toggle_lock_twice_run :
  SERVER_STATE
    (G (snd (api_toggle_lock
               (Sample.env_at (Sample.toggle_lock_request Sample.admin) 6)
               (snd (api_toggle_lock
                       (Sample.env_at (Sample.toggle_lock_request Sample.admin) 5)
                       Sample.stocked))))) =
    SERVER_STATE (G Sample.stocked).
Proof.
  apply (@toggle_lock_twice_restores MemFS.fs
           (Sample.env_at (Sample.toggle_lock_request Sample.admin) 5)
           (Sample.env_at (Sample.toggle_lock_request Sample.admin) 6)
           Sample.stocked); vm_compute; reflexivity.
Defined.

Lemma pool_toggle_run :
  fst (api_toggle_pool
         (Sample.env_at (Sample.toggle_pool_request Sample.admin) 5)
         Sample.stocked) =
    Ok (Jsonify 200 (JDict [(py "file_pool", JBool true)])).
Proof.
  apply (@pool_toggle_opens_the_pool MemFS.fs Sample.RELEASE_DIR
           Sample.RECEIVED_DIR
           (Sample.env_at (Sample.toggle_pool_request Sample.admin) 5)
           (Sample.env_at (Sample.listing_request Sample.peer_B) 6)
           Sample.stocked).
  - vm_compute. reflexivity.
  - vm_compute. reflexivity.
  - vm_compute. reflexivity.
  - apply memfs_readable; intros _; vm_compute; reflexivity.
Defined.


Lemma sweep_leaves_only_live_run :
  (5000000 - 1000000 <= timedelta_seconds 8)%Z /\
  (py "idle" = py "idle" \/ (5000000 <= 1000000)%Z).
Proof.
  apply (@sweep_leaves_only_live_and_settled MemFS.fs
           (Sample.env_at (Sample.status_request Sample.peer_B) 5)
           (snd (Sample.serve (Sample.status_request Sample.peer_A) 1 Sample.start))
           Sample.peer_A
           (mk_peer 1000000 (py "idle") 1000000 (py "desktop"))).
  - vm_compute. constructor; [intros []|constructor].
  - vm_compute. reflexivity.
Defined.

Lemma sweep_keeps_live_peer_run :
  PyDict.get
    (ACTIVE_PEERS
       (G (snd (check_peers_lifecycle
                  (Sample.env_at (Sample.status_request Sample.peer_B) 5)
                  (snd (Sample.serve (Sample.status_request Sample.peer_A) 1
                          Sample.start))))))
    Sample.peer_A
  = Some (mk_peer 1000000 (py "idle") 1000000 (py "desktop")).
Proof.
  apply (@sweep_keeps_live_peer MemFS.fs
           (Sample.env_at (Sample.status_request Sample.peer_B) 5)
           (snd (Sample.serve (Sample.status_request Sample.peer_A) 1 Sample.start))
           Sample.peer_A
           (mk_peer 1000000 (py "idle") 1000000 (py "desktop"))).
  - vm_compute. constructor; [intros []|constructor].
  - vm_compute. reflexivity.
  - vm_compute. discriminate.
Defined.

Lemma sweep_joins_once_run :
  exists joins,
    Permutation joins
      (sweep_joins
         (datetime_now
            (the_clock (Sample.env_at (Sample.status_request Sample.peer_B) 3)))
         (G Sample.stocked)) /\
    length
      (filter (is_join_of Sample.peer_A)
         (map
            (leave_event
               (the_clock (Sample.env_at (Sample.status_request Sample.peer_B) 3)))
            (sweep_leaves
               (datetime_now
                  (the_clock (Sample.env_at (Sample.status_request Sample.peer_B) 3)))
               (ACTIVE_PEERS (G Sample.stocked)))
          ++ map
               (join_event
                  (the_clock (Sample.env_at (Sample.status_request Sample.peer_B) 3)))
               joins)) = 1%nat.
Proof.
  destruct (@sweep_joins_once MemFS.fs
              (Sample.env_at (Sample.status_request Sample.peer_B) 3)
              Sample.stocked Sample.peer_A
              (mk_peer 2000000 (py "upload") 5000000 (py "desktop")))
    as (joins & Hperm & _ & Hcount & _).
  - vm_compute. constructor; [intros []|constructor].
  - vm_compute. reflexivity.
  - vm_compute. discriminate.
  - discriminate.
  - exists joins. split; [exact Hperm | exact Hcount].
Defined.

Lemma sweep_twice_run :
  check_peers_lifecycle
    (Sample.env_at (Sample.status_request Sample.peer_B) 20)
    (snd (check_peers_lifecycle
            (Sample.env_at (Sample.status_request Sample.peer_B) 20)
            Sample.stocked)) =
    (Ok tt,
     snd (check_peers_lifecycle
            (Sample.env_at (Sample.status_request Sample.peer_B) 20)
            Sample.stocked)).
Proof.
  apply (@sweep_twice_is_sweep_once MemFS.fs
           (Sample.env_at (Sample.status_request Sample.peer_B) 20)
           Sample.stocked).
  vm_compute. constructor; [intros []|constructor].
Defined.

Lemma status_poll_run :
  exists body w' data,
    full_dispatch_request Sample.RELEASE_DIR Sample.RECEIVED_DIR
      (Sample.env_at (Sample.status_request Sample.peer_B) 3) Sample.stocked =
      (Jsonify 200 (JDict body), w') /\
    PyDict.get (ACTIVE_PEERS (G w')) Sample.peer_B = Some data /\
    p_last_seen data = 3000000%Z /\
    In Sample.peer_B (LAST_ONLINE_IPS (G w')).
Proof.
  apply (@status_poll_registers_poller MemFS.fs Sample.RELEASE_DIR
           Sample.RECEIVED_DIR
           (Sample.env_at (Sample.status_request Sample.peer_B) 3)
           Sample.stocked).
  - vm_compute. constructor; [intros []|constructor].
  - vm_compute. reflexivity.
  - vm_compute. reflexivity.
  - reflexivity.
  - vm_compute. reflexivity.
Defined.

Lemma private_listing_run :
  exists my_files w',
    list_received_files Sample.RELEASE_DIR Sample.RECEIVED_DIR
      (Sample.env_at (Sample.listing_request Sample.peer_A) 3) Sample.stocked =
      (Ok (Jsonify 200
             (JDict [(py "role", JStr (py "client"));
                     (py "data", JList (sort_desc upload_time my_files));
                     (py "pool_enabled", JBool false)])),
       w') /\
    G w' = G Sample.stocked.
Proof.
  destruct (@private_listing MemFS.fs Sample.RELEASE_DIR Sample.RECEIVED_DIR
              (Sample.env_at (Sample.listing_request Sample.peer_A) 3)
              Sample.stocked)
    as (my_files & w' & Hrun & HG & _).
  - vm_compute. reflexivity.
  - vm_compute. reflexivity.
  - apply memfs_readable; intros _; vm_compute; reflexivity.
  - intros _. vm_compute. reflexivity.
  - exists my_files, w'. split; assumption.
Defined.

Lemma pool_view_run :
  exists data w1 w2,
    list_received_files Sample.RELEASE_DIR Sample.RECEIVED_DIR
      (Sample.env_at (Sample.listing_request Sample.peer_B) 6)
      (snd (Sample.serve (Sample.toggle_pool_request Sample.admin) 5
              Sample.stocked)) =
      (Ok (Jsonify 200
             (JDict [(py "role", JStr (py "pool_view"));
                     (py "data", data);
                     (py "my_ip", JStr Sample.peer_B);
                     (py "pool_enabled", JBool true)])),
       w1) /\
    list_received_files Sample.RELEASE_DIR Sample.RECEIVED_DIR
      (Sample.env_at (Sample.listing_request Sample.admin) 6)
      (snd (Sample.serve (Sample.toggle_pool_request Sample.admin) 5
              Sample.stocked)) =
      (Ok (Jsonify 200
             (JDict [(py "role", JStr (py "admin"));
                     (py "data", data);
                     (py "my_ip", JStr Sample.admin);
                     (py "pool_enabled", JBool true)])),
       w2).
Proof.
  apply (@pool_view_matches_admin_view MemFS.fs Sample.RELEASE_DIR
           Sample.RECEIVED_DIR
           (Sample.env_at (Sample.listing_request Sample.peer_B) 6)
           (Sample.env_at (Sample.listing_request Sample.admin) 6)
           (snd (Sample.serve (Sample.toggle_pool_request Sample.admin) 5
                   Sample.stocked))).
  - vm_compute. reflexivity.
  - vm_compute. reflexivity.
  - vm_compute. reflexivity.
  - apply memfs_readable; intros _; vm_compute; reflexivity.
Defined.


Lemma masked_name_hides_run :
  get_masked_name (py "report.pdf") = get_masked_name (py "results.pdf").
Proof.
  apply (@masked_name_hides_the_rest (py "report.pdf") (py "results.pdf"));
    vm_compute; reflexivity.
Defined.

Lemma locked_static_run :
  G (snd (full_dispatch_request Sample.RELEASE_DIR Sample.RECEIVED_DIR
            (Sample.env_at (Sample.static_request Sample.peer_A (py "app.js")) 5)
            (Sample.with_locked Sample.stocked true))) =
    G (Sample.with_locked Sample.stocked true).
Proof.
  apply (@locked_server_serves_static MemFS.fs Sample.RELEASE_DIR
           Sample.RECEIVED_DIR
           (Sample.env_at (Sample.static_request Sample.peer_A (py "app.js")) 5)
           (Sample.with_locked Sample.stocked true)).
  - reflexivity.
  - vm_compute. reflexivity.
  - reflexivity.
  - vm_compute. reflexivity.
Defined.

Lemma only_upload_and_delete_write_run :
  D (snd (full_dispatch_request Sample.RELEASE_DIR Sample.RECEIVED_DIR
            (Sample.env_at (Sample.download_request Sample.peer_A (py "a.txt")) 4)
            Sample.stocked)) = D Sample.stocked.
Proof.
  apply (@only_upload_and_delete_write MemFS.fs Sample.RELEASE_DIR
           Sample.RECEIVED_DIR
           (Sample.env_at (Sample.download_request Sample.peer_A (py "a.txt")) 4)
           Sample.stocked).
  - vm_compute. discriminate.
  - vm_compute. discriminate.
Defined.
